(** * BrowserTerminal: the session multiplexer of [TerminalServer.py]

    A shallow embedding of the classes [Terminal] and
    [ConnectionDispatcher] and the properties of the specification that
    can be stated over it.

    Conventions of the embedding.
    - Every Python method becomes a computation in the monad [M]: it
      threads the state of the process ([World]) and either returns a
      value or raises a Python exception ([exn]).  The state reached when
      an exception is raised is kept, as in Python.
    - [Terminal] objects are shared and mutated in place (the registry,
      the handler coroutine, the output thread and the wait thread all
      hold the same object), so the [World] has an object store [heap]
      and the registry maps a session id to a reference.
    - What the process does to the outside (frames scheduled on a
      websocket, closes, signals, writes and ioctls on a pty) is appended
      to [trace], in program order.
    - What the outside does to the process (frames received, the result
      of [pty.fork], random bytes, the clock, the scheduling of the two
      threads of a session) is an explicit argument.
    - Text is a [string] holding the UTF-8 bytes of the Python [str];
      [time.time()] is a number of seconds taken in [Z]. *)

From Stdlib Require Import ZArith String Ascii List Lia Bool.
From stdpp Require Import base option list gmap sets strings pretty.

Set Warnings "-register-all,-clear-no-such-hyp".
Local Open Scope Z_scope.
Local Open Scope string_scope.
Local Open Scope list_scope.

(** ** Python values and exceptions *)

(** The values [json.loads] produces.  An object carries the items of the
    resulting [dict]; a float carries the text of its literal, which no
    operation of this program inspects. *)
Inductive json : Type :=
| JNull
| JBool (b : bool)
| JInt (z : Z)
| JFloat (lit : string)
| JStr (s : string)
| JArr (items : list json)
| JObj (items : list (string * json)).

Inductive exn : Type :=
| KeyError
| TypeError
| StructError
| JSONDecodeError
| ConnectionClosed
| OSError
| UnicodeDecodeError
| MultipleValuesError.

Global Instance exn_eq_dec : EqDecision exn.
Proof. solve_decision. Defined.

(** The outcome of a call: a value, an exception, or [Pending] when the
    call is still blocked or looping after all the input it was given. *)
Inductive res (A : Type) : Type :=
| Ok (a : A)
| Raise (e : exn)
| Pending.
Arguments Ok {A} a.
Arguments Raise {A} e.
Arguments Pending {A}.

Module Py.

(** [d[key]] on the items of a [dict]. *)
Fixpoint assoc (key : string) (items : list (string * json)) : option json :=
  match items with
  | [] => None
  | (k, v) :: rest => if String.eqb k key then Some v else assoc key rest
  end.

(** [x == s] for a [str] [s]: only an equal [str] compares equal. *)
Definition eq_str (x : json) (s : string) : bool :=
  match x with
  | JStr t => String.eqb t s
  | _ => false
  end.

(** [s in sub] on two [str]: substring test. *)
Definition substring_of (needle hay : string) : bool :=
  match String.index 0 needle hay with
  | Some _ => true
  | None => false
  end.

(** [key in container] for a [str] [key]: keys of a dict, elements of a
    list, substrings of a str; the other values are not iterable. *)
Definition contains (key : string) (container : json) : res bool :=
  match container with
  | JObj items => Ok (bool_decide (is_Some (assoc key items)))
  | JArr items => Ok (existsb (fun x => eq_str x key) items)
  | JStr s => Ok (substring_of key s)
  | _ => Raise TypeError
  end.

(** [container[key]] for a [str] [key]: only a dict can be indexed by a
    str. *)
Definition getitem (container : json) (key : string) : res json :=
  match container with
  | JObj items =>
      match assoc key items with
      | Some v => Ok v
      | None => Raise KeyError
      end
  | _ => Raise TypeError
  end.

(** The key under which [x] is looked up in a dict whose keys are all
    [str]: hashing a list or a dict raises [TypeError]; a str is its
    own key; any other value is hashable and equal to no str. *)
Definition dict_key (x : json) : res (option string) :=
  match x with
  | JStr s => Ok (Some s)
  | JArr _ | JObj _ => Raise TypeError
  | _ => Ok None
  end.

Definition unsigned_short (z : Z) : Prop := 0 <= z <= 65535.

Global Instance unsigned_short_dec z : Decision (unsigned_short z).
Proof. unfold unsigned_short. apply _. Defined.

(** One [H] field of [struct.pack]: an integer (a bool is one) in the
    range of an unsigned short, anything else is [struct.error]. *)
Definition pack_H (x : json) : res Z :=
  match x with
  | JInt z => if decide (unsigned_short z) then Ok z else Raise StructError
  | JBool b => Ok (if b then 1 else 0)
  | _ => Raise StructError
  end.

End Py.

(** [websockets.datastructures.Headers]: a case-insensitive multi-map of
    the header lines of the opening request. *)
Module Headers.

Definition lower_char (c : ascii) : ascii :=
  let n := N_of_ascii c in
  if ((65 <=? n) && (n <=? 90))%N then ascii_of_N (n + 32) else c.

Fixpoint lower (s : string) : string :=
  match s with
  | EmptyString => EmptyString
  | String c rest => String (lower_char c) (lower rest)
  end.

Definition values (key : string) (lines : list (string * string)) : list string :=
  map snd (List.filter (fun l => String.eqb (lower (fst l)) (lower key)) lines).

(** [headers[key]]: the single value of the header, [KeyError] when it
    is absent, [MultipleValuesError] when it occurs more than once. *)
Definition getitem (lines : list (string * string)) (key : string) : res string :=
  match values key lines with
  | [] => Raise KeyError
  | [v] => Ok v
  | _ => Raise MultipleValuesError
  end.

End Headers.

(** [secrets.token_hex]: the bytes of [secrets.token_bytes] in lowercase
    hexadecimal, two digits a byte. *)
Module Hex.

Definition digit (n : N) : ascii :=
  match n with
  | 0 => "0" | 1 => "1" | 2 => "2" | 3 => "3" | 4 => "4" | 5 => "5"
  | 6 => "6" | 7 => "7" | 8 => "8" | 9 => "9" | 10 => "a" | 11 => "b"
  | 12 => "c" | 13 => "d" | 14 => "e" | _ => "f"
  end%N%char.

Definition of_byte (b : Byte.byte) : string :=
  let n := Byte.to_N b in
  String (digit (n / 16)) (String (digit (n mod 16)) EmptyString).

Fixpoint hexlify (bs : list Byte.byte) : string :=
  match bs with
  | [] => EmptyString
  | b :: rest => of_byte b +:+ hexlify rest
  end.

Definition is_lower_hex (c : ascii) : bool :=
  let n := N_of_ascii c in
  (((48 <=? n) && (n <=? 57)) || ((97 <=? n) && (n <=? 102)))%N.

Fixpoint all_lower_hex (s : string) : bool :=
  match s with
  | EmptyString => true
  | String c rest => is_lower_hex c && all_lower_hex rest
  end.

(** The four bytes of one [secrets.token_bytes(4)]. *)
Definition bytes4 : Type := Byte.byte * Byte.byte * Byte.byte * Byte.byte.

Definition token_hex4 (r : bytes4) : string :=
  let '(a, b, c, d) := r in hexlify [a; b; c; d].

End Hex.

(** ** The state of the process *)

Definition ws := nat.      (* identity of a websocket connection *)
Definition ref := nat.     (* address of a [Terminal] object *)

Record Terminal : Type := mkTerminal {
  sessionID : string;      (* sessionID *)
  websocket : ws;          (* current websocket connection *)
  open : bool;             (* whether the underlying shell is open *)
  connected : bool;        (* whether the websocket is connected *)
  subshellPID : Z;
  ttyFd : Z
}.

Global Instance Terminal_inhabited : Inhabited Terminal :=
  populate (mkTerminal "" 0%nat false false 0 0).

Definition set_websocket (x : ws) (t : Terminal) : Terminal :=
  mkTerminal (sessionID t) x (open t) (connected t) (subshellPID t) (ttyFd t).
Definition set_open (b : bool) (t : Terminal) : Terminal :=
  mkTerminal (sessionID t) (websocket t) b (connected t) (subshellPID t) (ttyFd t).
Definition set_connected (b : bool) (t : Terminal) : Terminal :=
  mkTerminal (sessionID t) (websocket t) (open t) b (subshellPID t) (ttyFd t).

(** What a websocket is given to send: a str, or [json.dumps] of a
    value. *)
Inductive data : Type :=
| Text (s : string)
| Dumps (j : json).

(** What the process does to its environment.  [FdClose] belongs to the
    vocabulary of the operating system; no method of the program issues
    it. *)
Inductive effect : Type :=
| Send (w : ws) (d : data)            (* a [websocket.send] put on the loop *)
| Close (w : ws)                      (* [await websocket.close()] *)
| Kill (pid : Z)                      (* [os.kill(pid, signal.SIGTERM)] *)
| PtyWrite (fd : Z) (bytes : string)  (* [os.write(fd, bytes)] *)
| Winsz (fd : Z) (rows cols : Z)      (* [ioctl(fd, TIOCSWINSZ, ...)] *)
| FdClose (fd : Z).                   (* [os.close(fd)] *)

Record World : Type := mkWorld {
  heap : gmap ref Terminal;           (* the [Terminal] objects *)
  terminals : gmap string ref;        (* sessionID => Terminal object *)
  accessKeys : gmap string Z;         (* accessKey => expiration time *)
  managementConnections : gset ws;    (* open management connections *)
  allowedOrigins : list string;
  trace : list effect
}.

Definition set_heap (f : gmap ref Terminal -> gmap ref Terminal) (w : World) : World :=
  mkWorld (f (heap w)) (terminals w) (accessKeys w) (managementConnections w)
          (allowedOrigins w) (trace w).
Definition set_terminals (f : gmap string ref -> gmap string ref) (w : World) : World :=
  mkWorld (heap w) (f (terminals w)) (accessKeys w) (managementConnections w)
          (allowedOrigins w) (trace w).
Definition set_accessKeys (f : gmap string Z -> gmap string Z) (w : World) : World :=
  mkWorld (heap w) (terminals w) (f (accessKeys w)) (managementConnections w)
          (allowedOrigins w) (trace w).
Definition set_managementConnections (f : gset ws -> gset ws) (w : World) : World :=
  mkWorld (heap w) (terminals w) (accessKeys w) (f (managementConnections w))
          (allowedOrigins w) (trace w).
Definition emit (e : effect) (w : World) : World :=
  mkWorld (heap w) (terminals w) (accessKeys w) (managementConnections w)
          (allowedOrigins w) (trace w ++ [e]).

(** [ConnectionDispatcher.__init__] *)
Definition init_world (contentServerPort : Z) : World :=
  mkWorld ∅ ∅ ∅ ∅
          [ "http://localhost:" +:+ pretty contentServerPort;
            "https://localhost:" +:+ pretty contentServerPort;
            "http://127.0.0.1:" +:+ pretty contentServerPort;
            "https://127.0.0.1:" +:+ pretty contentServerPort ]
          [].

(** ** The monad of methods *)

Definition M (A : Type) : Type := World -> res A * World.

Definition ret {A} (a : A) : M A := fun w => (Ok a, w).
Definition bind {A B} (m : M A) (k : A -> M B) : M B :=
  fun w => match m w with
           | (Ok a, w') => k a w'
           | (Raise e, w') => (Raise e, w')
           | (Pending, w') => (Pending, w')
           end.
Definition raise {A} (e : exn) : M A := fun w => (Raise e, w).
Definition pending {A} : M A := fun w => (Pending, w).
Definition lift {A} (r : res A) : M A := fun w => (r, w).
Definition gets {A} (f : World -> A) : M A := fun w => (Ok (f w), w).
Definition modify (f : World -> World) : M unit := fun w => (Ok tt, f w).

(** [try: m  except e: h] *)
Definition try_except {A} (m : M A) (e : exn) (h : M A) : M A :=
  fun w => match m w with
           | (Raise e', w') => if decide (e' = e) then h w' else (Raise e', w')
           | r => r
           end.

(** [try: m  except: pass] *)
Definition try_pass (m : M unit) : M unit :=
  fun w => match m w with
           | (Raise _, w') => (Ok tt, w')
           | r => r
           end.

Global Instance M_ret : MRet M := @ret.
Global Instance M_bind : MBind M := fun A B k m => bind m k.

(** The state a computation leaves, whatever its outcome. *)
Definition exec {A} (m : M A) (w : World) : World := snd (m w).
Definition outcome {A} (m : M A) (w : World) : res A := fst (m w).

(** The fields of the object at [self]. *)
Definition deref (self : ref) : M Terminal := gets (fun w => heap w !!! self).
Definition update (self : ref) (f : Terminal -> Terminal) : M unit :=
  modify (set_heap (alter f self)).

(** ** What the environment supplies *)

(** [json.loads], the decoder of the [json] library: [None] stands for
    [json.JSONDecodeError]. *)
Class JsonDecoder : Type := json_loads : string -> option json.

(** The outcome of one [os.read(self.ttyFd, 1024)] followed by
    [.decode('utf-8')]: bytes that are valid UTF-8, bytes that are not,
    or a failing read (the pty is closed). *)
Inductive pty_read : Type :=
| ReadText (s : string)
| ReadUndecodable (bytes : string)
| ReadError.

(** What the two threads of the sessions do while a coroutine or a
    thread is blocked: the wait thread of [r] comes back from
    [os.waitpid] and runs [waitSubshell] to its end, or the output thread
    of [r] runs the body of its loop once. *)
Inductive action : Type :=
| Reap (r : ref)
| Pump (r : ref) (o : pty_read).

(** What a blocking call is given: its result, or something that happens
    while it is still blocked. *)
Inductive event (A : Type) : Type :=
| Got (a : A)
| Meanwhile (a : action).
Arguments Got {A} a.
Arguments Meanwhile {A} a.

(** The result of [await websocket.recv()]: a text frame, or
    [websockets.exceptions.ConnectionClosed]. *)
Inductive recv : Type :=
| Frame (message : string)
| Disconnected.

(** ** TokenVault: [generateAccessKey] and [validateAccessKey] *)

Module Vault.

(** The first loop of [validateAccessKey]: the keys whose expiration
    time is before [currentTime]. *)
Definition deleteKeys (currentTime : Z) (keys : gmap string Z) : gset string :=
  map_fold (fun key expire acc =>
              if decide (expire < currentTime) then {[key]} ∪ acc else acc)
           ∅ keys.

(** The second loop: [del self.accessKeys[key]] for each of them. *)
Definition delete_each (ks : gset string) (keys : gmap string Z) : gmap string Z :=
  set_fold (fun key m => delete key m) keys ks.

Definition sweep (currentTime : Z) (keys : gmap string Z) : gmap string Z :=
  delete_each (deleteKeys currentTime keys) keys.

End Vault.

(** [accessKey] is the value of [secrets.token_hex(1024)], [now] the value
    of [time.time()]. *)
Definition generateAccessKey (accessKey : string) (now : Z) : M string :=
  modify (set_accessKeys <[accessKey := now + 3600]>) ;;
  mret accessKey.

Definition validateAccessKey (checkKey : json) (currentTime : Z) : M bool :=
  modify (set_accessKeys (Vault.sweep currentTime)) ;;
  k ← lift (Py.dict_key checkKey) ;
  keys ← gets accessKeys ;
  match k with
  | Some key =>
      if decide (is_Some (keys !! key))
      then modify (set_accessKeys (delete key)) ;; mret true
      else mret false
  | None => mret false
  end.

(** ** Registry: session ids, snapshot and broadcast *)

(** [samples] are the successive values of [secrets.token_bytes(4)]. *)
Fixpoint generateSessionID (samples : list Hex.bytes4) : M string :=
  match samples with
  | [] => pending
  | r :: rest =>
      let sessionID := Hex.token_hex4 r in
      ts ← gets terminals ;
      if decide (is_Some (ts !! sessionID))
      then generateSessionID rest
      else mret sessionID
  end.

(** One entry of the list built by a poll and by [pushStateChange]. *)
Definition entry (sessionID : string) (t : Terminal) : json :=
  JObj [("sessionID", JStr sessionID); ("connected", JBool (connected t))].

(** The loop over [self.terminals.items()], skipping the terminals that
    are not open.  The items come in the order of the map, not in the
    insertion order of the Python dict. *)
Definition snapshot (w : World) : list json :=
  omap (fun '(sessionID, r) =>
          let t := heap w !!! r in
          if open t then Some (entry sessionID t) else None)
       (map_to_list (terminals w)).

Definition poll_response (w : World) : json :=
  JObj [("response", JStr "poll"); ("result", JArr (snapshot w))].

Definition pushStateChange : M unit :=
  response ← gets poll_response ;
  conns ← gets managementConnections ;
  modify (fun w => foldl (fun w websocket => emit (Send websocket (Dumps response)) w)
                         w (elements conns)).

(** ** Terminal *)

(** [Terminal(sessionID, websocket)]: [__init__] and [startTty] in the
    parent.  [fork] is the outcome of [pty.fork()]: the pid of the shell
    and the descriptor of the pty.  The object is allocated at a fresh
    address. *)
Definition new_Terminal (sessionID : string) (websocket : ws)
    (fork : res (Z * Z)) : M ref :=
  '(pid, fd) ← lift fork ;
  self ← gets (fun w => fresh (dom (heap w))) ;
  modify (set_heap <[self := mkTerminal sessionID websocket true true pid fd]>) ;;
  mret self.

Definition setNewConnection (self : ref) (websocket : ws) : M unit :=
  update self (set_websocket websocket) ;;
  update self (set_connected true).

Definition send (self : ref) (d : string) : M unit :=
  t ← deref self ;
  modify (emit (Send (websocket t) (Text d))).

Definition resizeTerminal (self : ref) (row col : json) : M unit :=
  r ← lift (Py.pack_H row) ;
  c ← lift (Py.pack_H col) ;
  t ← deref self ;
  modify (emit (Winsz (ttyFd t) r c)).

Definition waitSubshell (self : ref) : M unit :=
  update self (set_open false) ;;
  t ← deref self ;
  ts ← gets terminals ;
  (if decide (is_Some (ts !! sessionID t))
   then modify (set_terminals (delete (sessionID t)))
   else raise KeyError) ;;
  pushStateChange.

(** The body of the loop of [pushTtyOutput]. *)
Definition pump_body (self : ref) (o : pty_read) : M unit :=
  try_pass
    (match o with
     | ReadText s => send self s
     | ReadUndecodable _ => raise UnicodeDecodeError
     | ReadError => raise OSError
     end).

(** The state after the body of the loop of [pushTtyOutput]. *)
Definition pumped_world (self : ref) (o : pty_read) (w : World) : World :=
  match o with
  | ReadText s => emit (Send (websocket (heap w !!! self)) (Text s)) w
  | _ => w
  end.

(** An action of a thread, seen from outside the thread: an exception
    ends the thread and reaches nobody.  A session has one wait thread,
    started by [startTty], and it runs [waitSubshell] once: there is
    nothing to reap at a terminal that is not open. *)
Definition act (a : action) : World -> World :=
  match a with
  | Reap r => fun w => if open (heap w !!! r) then exec (waitSubshell r) w else w
  | Pump r o => exec (pump_body r o)
  end.

Definition meanwhile (acts : list action) : M unit :=
  modify (fun w => foldl (fun w a => act a w) w acts).

(** [pushTtyOutput]: [blocked] tells that the thread is inside [os.read],
    past the test of [self.open]. *)
Fixpoint pushTtyOutput (self : ref) (blocked : bool)
    (events : list (event pty_read)) : M unit :=
  t ← deref self ;
  if negb blocked && negb (open t) then mret tt
  else match events with
       | [] => pending
       | Meanwhile a :: rest => modify (act a) ;; pushTtyOutput self true rest
       | Got o :: rest => pump_body self o ;; pushTtyOutput self false rest
       end.

Section Program.
Context {decoder : JsonDecoder}.

Definition onClientInput (self : ref) (message : string) : M unit :=
  match message with
  | EmptyString => mret tt
  | String "k" rest =>
      t ← deref self ;
      modify (emit (PtyWrite (ttyFd t) rest))
  | String "r" rest =>
      match json_loads rest with
      | None => raise JSONDecodeError
      | Some dimensions =>
          rows ← lift (Py.getitem dimensions "rows") ;
          cols ← lift (Py.getitem dimensions "cols") ;
          resizeTerminal self rows cols
      end
  | _ => mret tt
  end.

(** The loop of [listen]: [blocked] tells that the coroutine is inside
    [recv], past the test of [self.open]. *)
Fixpoint listen_loop (self : ref) (blocked : bool)
    (events : list (event recv)) : M unit :=
  t ← deref self ;
  if negb blocked && negb (open t) then mret tt
  else match events with
       | [] => pending
       | Meanwhile a :: rest => modify (act a) ;; listen_loop self true rest
       | Got Disconnected :: _ => raise ConnectionClosed
       | Got (Frame message) :: rest =>
           onClientInput self message ;; listen_loop self false rest
       end.

(** [listen].  [before] is what the threads do between the moment the
    peer is bound to the session and the moment the session id is
    sent. *)
Definition listen (self : ref) (before : list action)
    (events : list (event recv)) : M unit :=
  meanwhile before ;;
  pushStateChange ;;
  t ← deref self ;
  send self (sessionID t) ;;
  try_except (listen_loop self false events) ConnectionClosed
             (update self (set_connected false)) ;;
  pushStateChange.

(** ** ConnectionDispatcher *)

Definition close (websocket : ws) : M unit := modify (emit (Close websocket)).

(** [terminalHandler] up to the choice of the terminal: [Some] of the
    terminal that will listen, [None] after the connection was closed.
    [samples] and [fork] are what [secrets.token_bytes(4)] and
    [pty.fork()] return when they are called. *)
Definition choose_terminal (websocket : ws) (config : json)
    (samples : list Hex.bytes4) (fork : res (Z * Z)) : M (option ref) :=
  has ← lift (Py.contains "sessionID" config) ;
  if negb has then close websocket ;; mret None
  else
    sessionID ← lift (Py.getitem config "sessionID") ;
    if Py.eq_str sessionID "new" then
      sessionID ← generateSessionID samples ;
      terminal ← new_Terminal sessionID websocket fork ;
      modify (set_terminals <[sessionID := terminal]>) ;;
      mret (Some terminal)
    else
      k ← lift (Py.dict_key sessionID) ;
      ts ← gets terminals ;
      h ← gets heap ;
      match k ≫= (fun key => ts !! key) with
      | Some terminal =>
          if negb (connected (h !!! terminal))
          then setNewConnection terminal websocket ;; mret (Some terminal)
          else close websocket ;; mret None
      | None => close websocket ;; mret None
      end.

Definition terminalHandler (websocket : ws) (config : json)
    (samples : list Hex.bytes4) (fork : res (Z * Z))
    (before : list action) (events : list (event recv)) : M unit :=
  chosen ← choose_terminal websocket config samples fork ;
  match chosen with
  | Some terminal => listen terminal before events
  | None => mret tt
  end.

Definition kill_response (result : string) (sessionID : json)
    (more : list (string * json)) : json :=
  JObj ([("response", JStr "kill"); ("result", JStr result);
         ("sessionID", sessionID)] ++ more).

(** The body of the loop of [managementHandler] after [recv] returned
    [message]. *)
Definition management_request (websocket : ws) (message : string) : M unit :=
  match json_loads message with
  | None => mret tt
  | Some request =>
      match Py.getitem request "type" with
      | Ok requestType =>
          if Py.eq_str requestType "poll" then
            response ← gets poll_response ;
            modify (emit (Send websocket (Dumps response)))
          else if Py.eq_str requestType "kill" then
            has ← lift (Py.contains "sessionID" request) ;
            if negb has then mret tt
            else
              sessionID ← lift (Py.getitem request "sessionID") ;
              k ← lift (Py.dict_key sessionID) ;
              ts ← gets terminals ;
              h ← gets heap ;
              response ←
                match k ≫= (fun key => ts !! key) with
                | Some terminal =>
                    if open (h !!! terminal) then
                      modify (emit (Kill (subshellPID (h !!! terminal)))) ;;
                      mret (kill_response "success" sessionID [])
                    else
                      mret (kill_response "error" sessionID
                              [("message", JStr "sessionID not found")])
                | None =>
                    mret (kill_response "error" sessionID
                            [("message", JStr "sessionID not found")])
                end ;
              modify (emit (Send websocket (Dumps response)))
          else mret tt
      | _ => mret tt
      end
  end.

Fixpoint management_loop (websocket : ws) (events : list (event recv)) : M unit :=
  match events with
  | [] => pending
  | Meanwhile a :: rest => modify (act a) ;; management_loop websocket rest
  | Got Disconnected :: _ => raise ConnectionClosed
  | Got (Frame message) :: rest =>
      management_request websocket message ;; management_loop websocket rest
  end.

Definition managementHandler (websocket : ws) (config : json)
    (events : list (event recv)) : M unit :=
  try_except (management_loop websocket events) ConnectionClosed (mret tt).

(** [self.managementConnections.remove(websocket)] *)
Definition forget_management (websocket : ws) : M unit :=
  conns ← gets managementConnections ;
  if decide (websocket ∈ conns)
  then modify (set_managementConnections (fun c => c ∖ {[websocket]}))
  else raise KeyError.

(** The first [await websocket.recv()] of [handler]: the frame and the
    events that follow it. *)
Fixpoint first_recv (events : list (event recv)) : M (string * list (event recv)) :=
  match events with
  | [] => pending
  | Meanwhile a :: rest => modify (act a) ;; first_recv rest
  | Got Disconnected :: _ => raise ConnectionClosed
  | Got (Frame message) :: rest => mret (message, rest)
  end.

(** [handler].  [request_headers] are the header lines of the opening
    request, [events] what [recv] returns on this connection, [now] the
    value of [time.time()] in [validateAccessKey]. *)
Definition handler (websocket : ws) (request_headers : list (string * string))
    (path : string) (now : Z) (samples : list Hex.bytes4) (fork : res (Z * Z))
    (before : list action) (events : list (event recv)) : M unit :=
  origin ← lift (Headers.getitem request_headers "Origin") ;
  allowed ← gets allowedOrigins ;
  if negb (bool_decide (origin ∈ allowed)) then close websocket
  else
    '(configJSON, events) ← first_recv events ;
    match json_loads configJSON with
    | None => close websocket
    | Some config =>
        has ← lift (Py.contains "accessKey" config) ;
        valid ← (if negb has then mret false
                 else accessKey ← lift (Py.getitem config "accessKey") ;
                      validateAccessKey accessKey now) ;
        if negb valid then close websocket
        else if String.eqb path "/term" then
          terminalHandler websocket config samples fork before events
        else if String.eqb path "/manage" then
          modify (set_managementConnections (union {[websocket]})) ;;
          managementHandler websocket config events ;;
          forget_management websocket
        else close websocket
    end.

End Program.

(** ** A decoder for the concrete examples

    The properties below hold for every [JsonDecoder].  To evaluate the
    program on concrete frames, [Sample.loads] decodes the JSON texts made
    of objects, arrays, numbers, [true], [false], [null] and strings with
    the two-character escapes (no [\u] escape). *)
Module Sample.

Definition dq : ascii := "034".
Definition quoted (s : string) : string := String dq (s +:+ String dq EmptyString).

Definition is_space (c : ascii) : bool :=
  match c with
  | " " | "009" | "010" | "013" => true
  | _ => false
  end%char.

Definition is_digit (c : ascii) : bool :=
  let n := N_of_ascii c in ((48 <=? n) && (n <=? 57))%N.

Fixpoint skip_ws (s : string) : string :=
  match s with
  | String c rest => if is_space c then skip_ws rest else s
  | EmptyString => s
  end.

(** The digits at the head of [s] and what follows them. *)
Fixpoint digits (s : string) : string * string :=
  match s with
  | String c rest =>
      if is_digit c then let '(d, r) := digits rest in (String c d, r)
      else (EmptyString, s)
  | EmptyString => (EmptyString, s)
  end.

Fixpoint value_of_digits (acc : Z) (d : string) : Z :=
  match d with
  | String c rest => value_of_digits (10 * acc + (Z.of_N (N_of_ascii c) - 48)) rest
  | EmptyString => acc
  end.

(** A number: [-? int frac? exp?]; an int without fraction and exponent
    is a Python int, the rest are floats. *)
Definition number (s : string) : option (json * string) :=
  let '(sign, s1) := match s with
                     | String "-" r => ("-", r)
                     | _ => ("", s)
                     end in
  let '(int, s2) := digits s1 in
  match int with
  | EmptyString => None
  | String c more =>
      if Ascii.eqb c "0" && negb (String.eqb more "") then None
      else
        let frac := match s2 with
                    | String "." r =>
                        let '(d, r') := digits r in
                        if String.eqb d "" then None else Some ("." +:+ d, r')
                    | _ => Some ("", s2)
                    end in
        match frac with
        | None => None
        | Some (f, s3) =>
            let exp :=
              match s3 with
              | String e r =>
                  if Ascii.eqb e "e" || Ascii.eqb e "E" then
                    let '(sg, r1) := match r with
                                     | String "+" r1 => ("+", r1)
                                     | String "-" r1 => ("-", r1)
                                     | _ => ("", r)
                                     end in
                    let '(d, r2) := digits r1 in
                    if String.eqb d "" then None
                    else Some (String e (sg +:+ d), r2)
                  else Some ("", s3)
              | EmptyString => Some ("", s3)
              end in
            match exp with
            | None => None
            | Some (x, s4) =>
                if String.eqb f "" && String.eqb x ""
                then Some (JInt (if String.eqb sign "-"
                                 then - value_of_digits 0 int
                                 else value_of_digits 0 int), s4)
                else Some (JFloat (sign +:+ int +:+ f +:+ x), s4)
            end
        end
  end.

(** The characters of a string up to its closing quote. *)
Fixpoint chars (s : string) : option (string * string) :=
  match s with
  | EmptyString => None
  | String c rest =>
      if Ascii.eqb c dq then Some (EmptyString, rest)
      else if (N_of_ascii c <? 32)%N then None
      else if Ascii.eqb c "\" then
        match rest with
        | String e rest' =>
            let unescaped :=
              match e with
              | "034" => Some dq | "\" => Some "\" | "/" => Some "/"
              | "b" => Some "008" | "f" => Some "012" | "n" => Some "010"
              | "r" => Some "013" | "t" => Some "009"
              | _ => None
              end%char in
            match unescaped, chars rest' with
            | Some u, Some (t, r) => Some (String u t, r)
            | _, _ => None
            end
        | EmptyString => None
        end
      else match chars rest with
           | Some (t, r) => Some (String c t, r)
           | None => None
           end
  end.

(** [d[k] = v] on the items of a dict. *)
Fixpoint dict_set (k : string) (v : json) (items : list (string * json))
  : list (string * json) :=
  match items with
  | [] => [(k, v)]
  | (k', v') :: rest =>
      if String.eqb k' k then (k', v) :: rest else (k', v') :: dict_set k v rest
  end.

Fixpoint value (fuel : nat) (s : string) : option (json * string) :=
  match fuel with
  | O => None
  | S fuel =>
      match skip_ws s with
      | String "{" rest =>
          match skip_ws rest with
          | String "}" rest' => Some (JObj [], rest')
          | _ => members fuel rest []
          end
      | String "[" rest =>
          match skip_ws rest with
          | String "]" rest' => Some (JArr [], rest')
          | _ => elements fuel rest []
          end
      | String "034" rest =>
          match chars rest with
          | Some (t, r) => Some (JStr t, r)
          | None => None
          end
      | String "t" (String "r" (String "u" (String "e" r))) => Some (JBool true, r)
      | String "f" (String "a" (String "l" (String "s" (String "e" r)))) =>
          Some (JBool false, r)
      | String "n" (String "u" (String "l" (String "l" r))) => Some (JNull, r)
      | s' => number s'
      end
  end
with members (fuel : nat) (s : string) (acc : list (string * json))
  : option (json * string) :=
  match fuel with
  | O => None
  | S fuel =>
      match skip_ws s with
      | String "034" rest =>
          match chars rest with
          | Some (k, r) =>
              match skip_ws r with
              | String ":" r1 =>
                  match value fuel r1 with
                  | Some (v, r2) =>
                      match skip_ws r2 with
                      | String "," r3 => members fuel r3 (dict_set k v acc)
                      | String "}" r3 => Some (JObj (dict_set k v acc), r3)
                      | _ => None
                      end
                  | None => None
                  end
              | _ => None
              end
          | None => None
          end
      | _ => None
      end
  end
with elements (fuel : nat) (s : string) (acc : list json)
  : option (json * string) :=
  match fuel with
  | O => None
  | S fuel =>
      match value fuel s with
      | Some (v, r) =>
          match skip_ws r with
          | String "," r1 => elements fuel r1 (acc ++ [v])
          | String "]" r1 => Some (JArr (acc ++ [v]), r1)
          | _ => None
          end
      | None => None
      end
  end.

Definition loads : JsonDecoder := fun s =>
  match value (S (String.length s)) s with
  | Some (v, rest) => if String.eqb (skip_ws rest) "" then Some v else None
  | None => None
  end.

End Sample.

(** ** Histories of the vault *)

(** The calls that reach the vault: the content server issues a key, a
    handshake consumes one. *)
Inductive vault_op : Type :=
| Issue (accessKey : string) (now : Z)
| Consume (checkKey : json) (now : Z).

Definition vault_step (o : vault_op) : World -> World :=
  match o with
  | Issue accessKey now => exec (generateAccessKey accessKey now)
  | Consume checkKey now => exec (validateAccessKey checkKey now)
  end.

Definition run_ops (ops : list vault_op) (w : World) : World :=
  foldl (fun w o => vault_step o w) w ops.

Definition issues (k : string) (o : vault_op) : bool :=
  match o with
  | Issue accessKey _ => String.eqb accessKey k
  | Consume _ _ => false
  end.

(** ** Observations on the trace *)

(** The frames put on the websocket [p], in order. *)
Definition frames_to (p : ws) (tr : list effect) : list data :=
  omap (fun e => match e with
                 | Send w d => if decide (w = p) then Some d else None
                 | _ => None
                 end) tr.

(** The chunks that the output thread of [self] decodes in [acts]. *)
Definition pumped (self : ref) (acts : list action) : list data :=
  omap (fun a => match a with
                 | Pump r (ReadText s) => if decide (r = self) then Some (Text s) else None
                 | _ => None
                 end) acts.


(** What [trace] gained between two states. *)
Definition since (w w' : World) : list effect := drop (length (trace w)) (trace w').

(** Several effects in a row. *)
Definition emits (es : list effect) (w : World) : World :=
  mkWorld (heap w) (terminals w) (accessKeys w) (managementConnections w)
          (allowedOrigins w) (trace w ++ es).

(** The frames of a broadcast of [response]. *)
Definition broadcast (response : json) (conns : gset ws) : list effect :=
  map (fun websocket => Send websocket (Dumps response)) (elements conns).

(** ** Invariants of computations *)

(** [m] keeps [I]: whatever its outcome, it leads from a state in [I] to
    a state in [I]. *)
Definition keeps {A} (I : World -> Prop) (m : M A) : Prop :=
  ∀ w r w', I w -> m w = (r, w') -> I w'.

Definition is_kill (e : effect) : bool :=
  match e with
  | Kill _ => true
  | _ => false
  end.

Definition is_fdclose (e : effect) : bool :=
  match e with
  | FdClose _ => true
  | _ => false
  end.

(** The actions among the events of a blocking call. *)
Definition meanwhiles {A} (events : list (event A)) : list action :=
  omap (fun ev => match ev with
                  | Meanwhile a => Some a
                  | Got _ => None
                  end) events.

Definition reaps (acts : list action) (r : ref) : Prop := Reap r ∈ acts.

(** What [listen], the output thread and the wait thread can do to a
    state.  They allocate no object, send no signal and close no
    descriptor.  Of a [Terminal] they change no field but [open] and
    [connected]: [open] only from true to false and only at the terminals
    in [reaped], [connected] only at the terminals in [detached]. *)
Record steady (reaped detached : ref -> Prop) (w w' : World) : Prop := mkSteady {
  steady_dom : ∀ r, is_Some (heap w' !! r) ↔ is_Some (heap w !! r);
  steady_sessionID : ∀ r, sessionID (heap w' !!! r) = sessionID (heap w !!! r);
  steady_websocket : ∀ r, websocket (heap w' !!! r) = websocket (heap w !!! r);
  steady_connected :
    ∀ r, ¬ detached r -> connected (heap w' !!! r) = connected (heap w !!! r);
  steady_pid : ∀ r, subshellPID (heap w' !!! r) = subshellPID (heap w !!! r);
  steady_fd : ∀ r, ttyFd (heap w' !!! r) = ttyFd (heap w !!! r);
  steady_open : ∀ r, open (heap w' !!! r) = true -> open (heap w !!! r) = true;
  steady_kept : ∀ r, ¬ reaped r -> open (heap w' !!! r) = open (heap w !!! r);
  steady_conns : managementConnections w' = managementConnections w;
  steady_trace : ∃ ext : list effect, trace w' = trace w ++ ext ∧
                        forallb (fun e => negb (is_kill e || is_fdclose e)) ext = true
}.

(** ** The process as a transition system

    A step of the process: a connection is accepted and [handler] runs on
    it as far as the events it is given go; a [listen] or a
    [managementHandler] that was left waiting in [recv] goes on with more
    events; a thread of a session acts; the content server issues an
    access key. *)
Inductive step : Type :=
| Connect (websocket : ws) (request_headers : list (string * string))
          (path : string) (now : Z) (samples : list Hex.bytes4)
          (fork : res (Z * Z)) (before : list action) (events : list (event recv))
| ResumeListen (self : ref) (events : list (event recv))
| ResumeManagement (websocket : ws) (events : list (event recv))
| Thread (a : action)
| Render (accessKey : string) (now : Z).

Section System.
Context {decoder : JsonDecoder}.

(** What is left of [listen] when it waits in [recv]. *)
Definition listen_resume (self : ref) (events : list (event recv)) : M unit :=
  try_except (listen_loop self true events) ConnectionClosed
             (update self (set_connected false)) ;;
  pushStateChange.

(** What is left of the [/manage] branch of [handler]. *)
Definition management_resume (websocket : ws) (events : list (event recv)) : M unit :=
  managementHandler websocket JNull events ;;
  forget_management websocket.

Definition run_step (s : step) : World -> World :=
  match s with
  | Connect websocket request_headers path now samples fork before events =>
      exec (handler websocket request_headers path now samples fork before events)
  | ResumeListen self events => exec (listen_resume self events)
  | ResumeManagement websocket events => exec (management_resume websocket events)
  | Thread a => act a
  | Render accessKey now => exec (generateAccessKey accessKey now)
  end.

Inductive reachable (contentServerPort : Z) : World -> Prop :=
| reachable_init : reachable contentServerPort (init_world contentServerPort)
| reachable_step w s :
    reachable contentServerPort w -> reachable contentServerPort (run_step s w).

End System.

(** The registry and the sessions that are alive: a registered id leads
    to an object with that id and an open shell, the id is 8 lowercase
    hexadecimal digits, and every object with an open shell is registered
    under its id. *)
Record registry_ok (w : World) : Prop := mkRegistryOk {
  registered_open :
    ∀ sid r, terminals w !! sid = Some r ->
             ∃ t, heap w !! r = Some t ∧ sessionID t = sid ∧ open t = true;
  registered_hex :
    ∀ sid r, terminals w !! sid = Some r ->
             String.length sid = 8%nat ∧ Hex.all_lower_hex sid = true;
  open_registered :
    ∀ r t, heap w !! r = Some t -> open t = true ->
           terminals w !! sessionID t = Some r
}.

(** ** Footprints

    A property of the state is stable under a kind of update when no
    update of that kind can break it. *)
Definition emit_stable (I : World -> Prop) : Prop := ∀ e w, I w -> I (emit e w).
Definition heap_stable (I : World -> Prop) : Prop := ∀ f w, I w -> I (set_heap f w).
Definition terminals_stable (I : World -> Prop) : Prop :=
  ∀ f w, I w -> I (set_terminals f w).
Definition conns_stable (I : World -> Prop) : Prop :=
  ∀ f w, I w -> I (set_managementConnections f w).
Definition keys_stable (I : World -> Prop) : Prop :=
  ∀ f w, I w -> I (set_accessKeys f w).

(** The frames received on a connection on which nothing else happens. *)
Definition frames (messages : list string) : list (event recv) :=
  map (fun m => Got (Frame m)) messages.

(** The four origins that [ConnectionDispatcher.__init__] allows. *)
Definition origins_of (contentServerPort : Z) : list string :=
  [ "http://localhost:" +:+ pretty contentServerPort;
    "https://localhost:" +:+ pretty contentServerPort;
    "http://127.0.0.1:" +:+ pretty contentServerPort;
    "https://127.0.0.1:" +:+ pretty contentServerPort ].

(** Whether a step of the process issues the access key [k]. *)
Definition renders (k : string) (s : step) : bool :=
  match s with
  | Render accessKey _ => String.eqb accessKey k
  | _ => false
  end.

(** Whether a call on the vault names the key [k]. *)
Definition touches (k : string) (o : vault_op) : bool :=
  match o with
  | Issue accessKey _ => String.eqb accessKey k
  | Consume checkKey _ => Py.eq_str checkKey k
  end.

(** Whether a call on the vault sweeps it at a time after [limit]. *)
Definition sweeps_after (limit : Z) (o : vault_op) : bool :=
  match o with
  | Issue _ _ => false
  | Consume _ now => Z.ltb limit now
  end.

(** ** A concrete run

    The dispatcher on the default port, after the peer [1] asked for a new
    session: [secrets.token_bytes(4)] gave [00 00 00 2a] and [pty.fork()]
    the pid 4242 and the descriptor 7.  The session is the object at
    address 0 and its id is [0000002a]. *)
Module Demo.

Definition new_config : json :=
  JObj [("accessKey", JStr "a1"); ("sessionID", JStr "new")].

Definition started : World :=
  exec (choose_terminal 1%nat new_config
          [(Byte.x00, Byte.x00, Byte.x00, Byte.x2a)] (Ok (4242, 7)))
       (init_world 9423).

(** The same with a management connection [9] open. *)
Definition managed : World := set_managementConnections (union {[9%nat]}) started.

(** The session after its peer went away. *)
Definition detached : World :=
  exec (listen (decoder := Sample.loads) 0%nat [] [Got Disconnected]) started.

(** The same through the whole handshake: the content server renders
    the page with the access key [a1], the browser connects to [/term]
    and sends its configuration. *)
Definition handshake_text : string :=
  "{" +:+ Sample.quoted "accessKey" +:+ ":" +:+ Sample.quoted "a1" +:+ ","
      +:+ Sample.quoted "sessionID" +:+ ":" +:+ Sample.quoted "new" +:+ "}".

Definition steps : list step :=
  [ Render "a1" 50;
    Connect 1%nat [("Origin", "http://localhost:9423")] "/term" 100
            [(Byte.x00, Byte.x00, Byte.x00, Byte.x2a)] (Ok (4242, 7)) []
            [Got (Frame handshake_text)] ].

Definition served : World :=
  foldl (fun w s => run_step (decoder := Sample.loads) s w) (init_world 9423) steps.

Definition resize_text (rows cols : string) : string :=
  "r{" +:+ Sample.quoted "rows" +:+ ":" +:+ rows +:+ ","
       +:+ Sample.quoted "cols" +:+ ":" +:+ cols +:+ "}".

Definition kill_text (sid : string) : string :=
  "{" +:+ Sample.quoted "type" +:+ ":" +:+ Sample.quoted "kill" +:+ ","
      +:+ Sample.quoted "sessionID" +:+ ":" +:+ Sample.quoted sid +:+ "}".

End Demo.

(** * Properties *)

(** ** Evaluation of the monad *)

(** Closes a conjunction of facts that are among the hypotheses. *)
Ltac conj_hyps := repeat first [assumption | apply conj].

Ltac munfold :=
  unfold mbind, M_bind, mret, M_ret, bind, ret, lift, gets, modify, raise,
         pending, exec, outcome in *.

Lemma bind_ok {A B} (m : M A) (k : A -> M B) w a w' :
  m w = (Ok a, w') -> (m ≫= k) w = k a w'.
Proof. intros H. munfold. by rewrite H. Qed.

Lemma bind_raise {A B} (m : M A) (k : A -> M B) w e w' :
  m w = (Raise e, w') -> (m ≫= k) w = (Raise e, w').
Proof. intros H. munfold. by rewrite H. Qed.

Lemma bind_pending {A B} (m : M A) (k : A -> M B) w w' :
  m w = (Pending, w') -> (m ≫= k) w = (Pending, w').
Proof. intros H. munfold. by rewrite H. Qed.

(** ** TokenVault *)

Module VaultFacts.
Import Vault.

Lemma elem_of_deleteKeys now (keys : gmap string Z) key :
  key ∈ deleteKeys now keys ↔ ∃ e, keys !! key = Some e ∧ e < now.
Proof.
  unfold deleteKeys.
  apply (map_fold_weak_ind
           (fun (acc : gset string) (m : gmap string Z) =>
              key ∈ acc ↔ ∃ e, m !! key = Some e ∧ e < now)).
  - split; [set_solver|]. intros (e & He & _). by rewrite lookup_empty in He.
  - intros i x m acc Hi IH.
    destruct (decide (i = key)) as [->|Hne].
    + rewrite lookup_insert_eq. case_decide.
      * split; [eauto|set_solver].
      * rewrite IH. rewrite Hi. split.
        -- intros (e & ? & _); done.
        -- intros (e & [= ->] & ?); lia.
    + rewrite lookup_insert_ne by done. case_decide; [|done].
      rewrite elem_of_union, elem_of_singleton, IH. naive_solver.
Qed.

Lemma lookup_delete_each ks (keys : gmap string Z) key :
  delete_each ks keys !! key = if decide (key ∈ ks) then None else keys !! key.
Proof.
  unfold delete_each.
  pose proof (set_fold_ind_L
                (fun (m : gmap string Z) (X : gset string) =>
                   m !! key = if decide (key ∈ X) then None else keys !! key)
                (fun k m => delete k m) keys) as Hind.
  apply Hind; clear Hind.
  - case_decide; [set_solver|done].
  - intros x X m Hx IH. cbv beta in *.
    destruct (decide (x = key)) as [->|Hne].
    + rewrite lookup_delete_eq. destruct (decide (key ∈ {[key]} ∪ X)); [done|set_solver].
    + rewrite lookup_delete_ne by done. rewrite IH.
      destruct (decide (key ∈ X)), (decide (key ∈ {[x]} ∪ X)); try done; set_solver.
Qed.

(** The two loops together keep exactly the entries that are not
    expired. *)
Lemma lookup_sweep now (keys : gmap string Z) key :
  sweep now keys !! key =
    match keys !! key with
    | Some e => if decide (e < now) then None else Some e
    | None => None
    end.
Proof.
  unfold sweep. rewrite lookup_delete_each.
  destruct (keys !! key) as [e|] eqn:He.
  - repeat case_decide; try done.
    + rewrite elem_of_deleteKeys in *. naive_solver.
    + rewrite elem_of_deleteKeys in *. naive_solver.
  - case_decide; done.
Qed.

Lemma sweep_filter now (keys : gmap string Z) :
  sweep now keys = filter (fun kv => now <= kv.2) keys.
Proof.
  apply map_eq. intros key. rewrite lookup_sweep, map_lookup_filter.
  destruct (keys !! key) as [e|]; simpl; [|done].
  case_decide; rewrite ?option_guard_True, ?option_guard_False by (simpl; lia); done.
Qed.

End VaultFacts.

Section VaultProperties.
Import Vault VaultFacts.

(** [validateAccessKey] on a str, computed. *)
Lemma validateAccessKey_str k now w :
  validateAccessKey (JStr k) now w =
    (Ok (bool_decide (is_Some (sweep now (accessKeys w) !! k))),
     set_accessKeys (fun keys => delete k (sweep now keys)) w).
Proof.
  unfold validateAccessKey. munfold. simpl.
  destruct (decide (is_Some (sweep now (accessKeys w) !! k))) as [Hin|Hout].
  - rewrite bool_decide_eq_true_2 by done. done.
  - rewrite bool_decide_eq_false_2 by done.
    unfold set_accessKeys; simpl. do 2 f_equal.
    rewrite delete_id; [done|]. by apply eq_None_not_Some.
Qed.

(** After any call on the vault the entry of [k] is gone or is what it
    was, unless the call issues [k]. *)
Lemma vault_step_lookup o k w :
  issues k o = false ->
  accessKeys (vault_step o w) !! k = None ∨
  accessKeys (vault_step o w) !! k = accessKeys w !! k.
Proof.
  destruct o as [key t|c t]; simpl; intros Hk.
  - right. unfold generateAccessKey. munfold. simpl.
    apply String.eqb_neq in Hk. by rewrite lookup_insert_ne.
  - assert (Hs : sweep t (accessKeys w) !! k = None ∨
                 sweep t (accessKeys w) !! k = accessKeys w !! k).
    { rewrite lookup_sweep. destruct (accessKeys w !! k); [|by left].
      case_decide; [by left|by right]. }
    unfold validateAccessKey. munfold. simpl.
    destruct c; simpl; try done.
    case_decide; simpl; [|done].
    destruct (decide (s = k)) as [->|Hne].
    + left. apply lookup_delete_eq.
    + by rewrite lookup_delete_ne.
Qed.

Lemma run_ops_lookup ops k w :
  forallb (fun o => negb (issues k o)) ops = true ->
  accessKeys (run_ops ops w) !! k = None ∨
  accessKeys (run_ops ops w) !! k = accessKeys w !! k.
Proof.
  unfold run_ops. revert w. induction ops as [|o ops IH]; intros w Hops; simpl.
  - by right.
  - simpl in Hops. apply andb_true_iff in Hops as [Ho Hops].
    apply negb_true_iff in Ho.
    destruct (IH (vault_step o w) Hops) as [H|H]; [by left|].
    rewrite H. by apply vault_step_lookup.
Qed.

(** C1. [validateAccessKey] on an access key [k] never raises; it leaves
    in the vault the entries that are not expired at [now], less [k]; it
    returns [True] exactly when [k] was in the vault with an expiration
    time not before [now].  Hence after any [validateAccessKey(k)], as
    long as [k] is not issued again, every later one returns [False];
    and a key issued at [t0] and validated later than [t0 + 3600] is
    refused. *)
Theorem validateAccessKey_single_use (k : string) (now : Z) (w : World) :
  ∃ b w',
    validateAccessKey (JStr k) now w = (Ok b, w') ∧
    w' = set_accessKeys
           (fun keys => delete k (filter (fun kv => now <= kv.2) keys)) w ∧
    (b = true ↔ ∃ e, accessKeys w !! k = Some e ∧ now <= e) ∧
    (∀ ops now',
        forallb (fun o => negb (issues k o)) ops = true ->
        outcome (validateAccessKey (JStr k) now') (run_ops ops w') = Ok false) ∧
    (∀ w0 t0 ops,
        w = run_ops ops (exec (generateAccessKey k t0) w0) ->
        forallb (fun o => negb (issues k o)) ops = true ->
        t0 + 3600 < now ->
        b = false).
Proof.
  eexists _, _. split; [apply validateAccessKey_str|].
  split; [unfold set_accessKeys; by rewrite sweep_filter|].
  assert (Hb : bool_decide (is_Some (sweep now (accessKeys w) !! k)) = true
               ↔ ∃ e, accessKeys w !! k = Some e ∧ now <= e).
  { rewrite bool_decide_eq_true, lookup_sweep.
    destruct (accessKeys w !! k) as [e|]; [case_decide|].
    - split; [intros [? ?]; done|intros (? & [= <-] & ?); lia].
    - split; [intros _; exists e; split; [done|lia]|eauto].
    - split; [intros [? ?]; done|intros (? & ? & _); done]. }
  split; [exact Hb|]. split.
  - intros ops now' Hops. unfold outcome. rewrite validateAccessKey_str. simpl.
    apply f_equal, bool_decide_eq_false_2. intros Hsome.
    rewrite lookup_sweep in Hsome.
    destruct (run_ops_lookup ops k
                (set_accessKeys (fun keys => delete k (sweep now keys)) w) Hops)
      as [H|H]; rewrite H in Hsome.
    + by destruct Hsome.
    + simpl in Hsome. rewrite lookup_delete_eq in Hsome. by destruct Hsome.
  - intros w0 t0 ops -> Hops Hlate.
    apply not_true_is_false. rewrite Hb. intros (e & He & Hle).
    destruct (run_ops_lookup ops k (exec (generateAccessKey k t0) w0) Hops)
      as [H|H]; rewrite H in He; [done|].
    unfold generateAccessKey in He. munfold. simpl in He.
    rewrite lookup_insert_eq in He. injection He as <-. lia.
Qed.

End VaultProperties.

Example demo_started :
  terminals Demo.started !! "0000002a" = Some 0%nat ∧
  heap Demo.started !! 0%nat = Some (mkTerminal "0000002a" 1%nat true true 4242 7) ∧
  trace Demo.started = [].
Proof. vm_compute. done. Qed.

Example demo_detached :
  heap Demo.detached !! 0%nat = Some (mkTerminal "0000002a" 1%nat true false 4242 7) ∧
  trace Demo.detached = [Send 1%nat (Text "0000002a")].
Proof. vm_compute. done. Qed.

(** ** Terminal: resizing *)

Lemma pack_H_cases x :
  (∃ z, Py.pack_H x = Ok z) ∨ Py.pack_H x = Raise StructError.
Proof.
  destruct x; simpl; eauto. destruct (decide (Py.unsigned_short z)); eauto.
Qed.

Section Resize.
Context {decoder : JsonDecoder}.

Import Py.

Lemma pack_H_int z :
  Py.pack_H (JInt z) = if decide (unsigned_short z) then Ok z else Raise StructError.
Proof. reflexivity. Qed.

Lemma resizeTerminal_int self rows cols w :
  resizeTerminal self (JInt rows) (JInt cols) w =
    if decide (unsigned_short rows ∧ unsigned_short cols)
    then (Ok tt, emit (Winsz (ttyFd (heap w !!! self)) rows cols) w)
    else (Raise StructError, w).
Proof.
  unfold resizeTerminal, deref. munfold. rewrite !pack_H_int.
  destruct (decide (unsigned_short rows)), (decide (unsigned_short cols));
    simpl; case_decide; try done; tauto.
Qed.

(** A dimension that is not an integer at all is refused as well. *)
Lemma resizeTerminal_not_int self row col w :
  Py.pack_H row = Raise StructError ∨ Py.pack_H col = Raise StructError ->
  resizeTerminal self row col w = (Raise StructError, w).
Proof.
  unfold resizeTerminal. munfold. intros [H|H]; [by rewrite H|].
  destruct (pack_H_cases row) as [[r ->]| ->]; [by rewrite H|done].
Qed.

(** C2, as the code has it.  A resize with integer dimensions, called
    directly or through the frame [r{"rows":N,"cols":M}], is checked by
    [struct.pack] only: when a dimension is outside the unsigned shorts
    (so whenever one is negative) the call raises [struct.error] and the
    pty gets no window size; when both are unsigned shorts, zero
    included, they are passed to the ioctl as they are. *)
Theorem resize_dimensions (self : ref) (rows cols : Z)
    (payload : string) (items : list (string * json)) (w : World) :
  json_loads payload = Some (JObj items) ->
  Py.assoc "rows" items = Some (JInt rows) ->
  Py.assoc "cols" items = Some (JInt cols) ->
  onClientInput self (String "r" payload) w
    = resizeTerminal self (JInt rows) (JInt cols) w ∧
  (unsigned_short rows ∧ unsigned_short cols ->
   resizeTerminal self (JInt rows) (JInt cols) w
     = (Ok tt, emit (Winsz (ttyFd (heap w !!! self)) rows cols) w)) ∧
  (rows < 0 ∨ cols < 0 ∨ 65535 < rows ∨ 65535 < cols ->
   resizeTerminal self (JInt rows) (JInt cols) w = (Raise StructError, w)).
Proof.
  intros Hload Hrows Hcols. split; [|split].
  - unfold onClientInput. rewrite Hload. unfold Py.getitem.
    rewrite Hrows, Hcols. reflexivity.
  - intros H. rewrite resizeTerminal_int. by case_decide.
  - intros H. rewrite resizeTerminal_int. case_decide; [|done].
    unfold unsigned_short in *. lia.
Qed.

End Resize.

(** C2 fails as it is stated: zero rows are not refused, directly or
    through a frame; the pty of the session is given the size 0 x 80. *)
Lemma resize_zero_rows_forwarded :
  resizeTerminal 0%nat (JInt 0) (JInt 80) Demo.started
    = (Ok tt, emit (Winsz 7 0 80) Demo.started) ∧
  onClientInput (decoder := Sample.loads) 0%nat (Demo.resize_text "0" "80") Demo.started
    = (Ok tt, emit (Winsz 7 0 80) Demo.started).
Proof. split; vm_compute; reflexivity. Qed.

Lemma resize_dimensions_witness :
  let payload := "{" +:+ Sample.quoted "rows" +:+ ":0," +:+ Sample.quoted "cols" +:+ ":80}" in
  let items := [("rows", JInt 0); ("cols", JInt 80)] in
  (Sample.loads payload = Some (JObj items) ∧
   Py.assoc "rows" items = Some (JInt 0) ∧
   Py.assoc "cols" items = Some (JInt 80)) ∧
  resizeTerminal 0%nat (JInt 0) (JInt 80) Demo.started
    = (Ok tt, emit (Winsz (ttyFd (heap Demo.started !!! 0%nat)) 0 80) Demo.started).
Proof.
  intros payload items.
  assert (H1 : Sample.loads payload = Some (JObj items)) by (vm_compute; reflexivity).
  assert (H2 : Py.assoc "rows" items = Some (JInt 0)) by reflexivity.
  assert (H3 : Py.assoc "cols" items = Some (JInt 80)) by reflexivity.
  split; [conj_hyps|].
  apply (resize_dimensions (decoder := Sample.loads) 0%nat 0 80 payload items
           Demo.started H1 H2 H3).
  unfold Py.unsigned_short. lia.
Defined.

(** ** Rules for [keeps] *)

Section Keeps.
Context (I : World -> Prop).

Lemma keeps_ret {A} (a : A) : keeps I (mret a).
Proof. intros w r w' HI. munfold. by intros [= _ <-]. Qed.

Lemma keeps_lift {A} (x : res A) : keeps I (lift x).
Proof. intros w r w' HI. munfold. by intros [= _ <-]. Qed.

Lemma keeps_gets {A} (f : World -> A) : keeps I (gets f).
Proof. intros w r w' HI. munfold. by intros [= _ <-]. Qed.

Lemma keeps_raise {A} e : keeps I (@raise A e).
Proof. intros w r w' HI. munfold. by intros [= _ <-]. Qed.

Lemma keeps_pending {A} : keeps I (@pending A).
Proof. intros w r w' HI. munfold. by intros [= _ <-]. Qed.

Lemma keeps_modify f : (∀ w, I w -> I (f w)) -> keeps I (modify f).
Proof. intros Hf w r w' HI. munfold. intros [= _ <-]. by apply Hf. Qed.

Lemma keeps_bind {A B} (m : M A) (k : A -> M B) :
  keeps I m -> (∀ a, keeps I (k a)) -> keeps I (m ≫= k).
Proof.
  intros Hm Hk w r w' HI. munfold.
  destruct (m w) as [[a|e|] w1] eqn:Hmw.
  - intros Hkw. eapply Hk; [|exact Hkw]. eapply Hm; eauto.
  - intros [= _ <-]. eapply Hm; eauto.
  - intros [= _ <-]. eapply Hm; eauto.
Qed.

Lemma keeps_try_except {A} (m h : M A) e :
  keeps I m -> keeps I h -> keeps I (try_except m e h).
Proof.
  intros Hm Hh w r w' HI. unfold try_except.
  destruct (m w) as [[a|e'|] w1] eqn:Hmw.
  - intros [= _ <-]. eapply Hm; eauto.
  - case_decide.
    + intros Hhw. eapply Hh; [|exact Hhw]. eapply Hm; eauto.
    + intros [= _ <-]. eapply Hm; eauto.
  - intros [= _ <-]. eapply Hm; eauto.
Qed.

Lemma keeps_try_pass (m : M unit) : keeps I m -> keeps I (try_pass m).
Proof.
  intros Hm w r w' HI. unfold try_pass.
  destruct (m w) as [[a|e'|] w1] eqn:Hmw; intros [= _ <-]; eapply Hm; eauto.
Qed.

Lemma keeps_foldl {B} (f : World -> B -> World) (l : list B) :
  (∀ w b, I w -> I (f w b)) -> ∀ w, I w -> I (foldl f w l).
Proof. intros Hf. induction l as [|b l IH]; simpl; eauto. Qed.

End Keeps.

(** A computation whose steps all keep a preorder from the state they
    start in relates its first state to its last. *)
Lemma keeps_rel {A} (R : World -> World -> Prop) (m : M A) w r w' :
  R w w -> keeps (R w) m -> m w = (r, w') -> R w w'.
Proof. intros Hrefl Hm Hmw. eapply Hm; eauto. Qed.

(** ** [steady] is a preorder kept by sending and by the threads *)

Section Steady.
Context (reaped detached : ref -> Prop).

Lemma steady_refl w : steady reaped detached w w.
Proof. split; try done. exists []. by rewrite app_nil_r. Qed.

Lemma steady_trans w1 w2 w3 : steady reaped detached w1 w2 -> steady reaped detached w2 w3 -> steady reaped detached w1 w3.
Proof.
  intros [A1 A2 A3 A4 A5 A6 A7 A7' A8 (e1 & A9 & A10)]
         [B1 B2 B3 B4 B5 B6 B7 B7' B8 (e2 & B9 & B10)].
  split.
  - intros r. by rewrite B1.
  - intros r. by rewrite B2.
  - intros r. by rewrite B3.
  - intros r Hr. by rewrite B4, A4.
  - intros r. by rewrite B5.
  - intros r. by rewrite B6.
  - intros r Hr. eauto.
  - intros r Hr. by rewrite B7', A7'.
  - by rewrite B8.
  - exists (e1 ++ e2). rewrite B9, A9, <- app_assoc. split; [done|].
    rewrite forallb_app. by rewrite A10, B10.
Qed.

Lemma steady_emit e w :
  is_kill e || is_fdclose e = false -> steady reaped detached w (emit e w).
Proof.
  intros He. split; try done. exists [e]. split; [done|]. simpl. by rewrite He.
Qed.

Lemma steady_terminals f w : steady reaped detached w (set_terminals f w).
Proof. split; try done. exists []. by rewrite app_nil_r. Qed.

Lemma alter_field {B} (field : Terminal -> B) (f : Terminal -> Terminal)
    (h : gmap ref Terminal) r r' :
  (∀ t, field (f t) = field t) -> field (alter f r h !!! r') = field (h !!! r').
Proof.
  intros Hf. rewrite lookup_total_alter. case_decide; subst; [|done].
  rewrite lookup_total_alt. destruct (h !! r'); simpl; [apply Hf|done].
Qed.

Lemma alter_dom (f : Terminal -> Terminal) (h : gmap ref Terminal) r r' :
  is_Some (alter f r h !! r') ↔ is_Some (h !! r').
Proof.
  rewrite lookup_alter. case_decide; subst; [|done].
  by rewrite <- !not_eq_None_Some, fmap_None.
Qed.

Lemma steady_closed_shell r w :
  reaped r -> steady reaped detached w (set_heap (alter (set_open false) r) w).
Proof.
  intros Hr. split; simpl; try done; try (intros r'; by apply alter_field).
  - intros r'. apply alter_dom.
  - intros r' _. by apply alter_field.
  - intros r'. rewrite !lookup_total_alter, !lookup_total_alt.
    case_decide; subst; [|done]. by destruct (heap w !! r').
  - intros r' Hr'. rewrite lookup_total_alter_ne; [done|]. by intros ->.
  - exists []. by rewrite app_nil_r.
Qed.

Lemma steady_disconnected r w :
  detached r -> steady reaped detached w (set_heap (alter (set_connected false) r) w).
Proof.
  intros Hr. split; simpl; try done; try (intros r'; by apply alter_field).
  - intros r'. apply alter_dom.
  - intros r' Hr'. rewrite lookup_total_alter_ne; [done|]. by intros ->.
  - intros r'. by rewrite (alter_field open).
  - intros r' _. by apply alter_field.
  - exists []. by rewrite app_nil_r.
Qed.

End Steady.

Lemma steady_mono (R D R' D' : ref -> Prop) w w' :
  (∀ r, R r -> R' r) -> (∀ r, D r -> D' r) ->
  steady R D w w' -> steady R' D' w w'.
Proof.
  intros HR HD [A1 A2 A3 A4 A5 A6 A7 A7' A8 A9]. split; try done.
  - intros r Hr. apply A4. eauto.
  - intros r Hr. apply A7'. eauto.
Qed.

Ltac steady_modify :=
  apply keeps_modify; intros ? ?; eapply steady_trans; [eassumption|].

Section SteadyMethods.
Context (reaped detached : ref -> Prop) (w0 : World).

Lemma steady_pushStateChange : keeps (steady reaped detached w0) pushStateChange.
Proof.
  unfold pushStateChange.
  do 2 (apply keeps_bind; [apply keeps_gets|intros ?]).
  apply keeps_modify. intros w.
  apply keeps_foldl. intros w1 c H1. eapply steady_trans; [exact H1|].
  by apply steady_emit.
Qed.

Lemma steady_send self d : keeps (steady reaped detached w0) (send self d).
Proof.
  unfold send, deref. apply keeps_bind; [apply keeps_gets|intros t].
  steady_modify. by apply steady_emit.
Qed.

Lemma steady_pump_body self o : keeps (steady reaped detached w0) (pump_body self o).
Proof.
  unfold pump_body. apply keeps_try_pass.
  destruct o; [apply steady_send|apply keeps_raise..].
Qed.

Lemma steady_waitSubshell self :
  reaped self -> keeps (steady reaped detached w0) (waitSubshell self).
Proof.
  intros Hself. unfold waitSubshell, update, deref.
  apply keeps_bind; [steady_modify; by apply steady_closed_shell|intros _].
  apply keeps_bind; [apply keeps_gets|intros t].
  apply keeps_bind; [apply keeps_gets|intros ts].
  apply keeps_bind; [|intros _; apply steady_pushStateChange].
  case_decide; [|apply keeps_raise]. steady_modify. apply steady_terminals.
Qed.

Lemma steady_act a w :
  (∀ r, a = Reap r -> reaped r) -> steady reaped detached w0 w -> steady reaped detached w0 (act a w).
Proof.
  intros Ha H. destruct a as [r|r o]; simpl.
  - destruct (open (heap w !!! r)); [|done].
    unfold exec. destruct (waitSubshell r w) as [res w'] eqn:E.
    eapply steady_waitSubshell; eauto.
  - unfold exec. destruct (pump_body r o w) as [res w'] eqn:E.
    eapply steady_pump_body; eauto.
Qed.

Lemma steady_meanwhile acts :
  (∀ r, reaps acts r -> reaped r) -> keeps (steady reaped detached w0) (meanwhile acts).
Proof.
  intros Hacts. unfold meanwhile. apply keeps_modify. intros w.
  revert Hacts. revert w. induction acts as [|a acts IH]; intros w Hacts Hw; simpl.
  - done.
  - apply IH.
    + intros r Hr. apply Hacts. unfold reaps in *. set_solver.
    + apply steady_act; [|done]. intros r ->. apply Hacts. unfold reaps. set_solver.
Qed.

Lemma steady_resizeTerminal self row col :
  keeps (steady reaped detached w0) (resizeTerminal self row col).
Proof.
  unfold resizeTerminal, deref.
  do 3 (apply keeps_bind; [first [apply keeps_lift|apply keeps_gets]|intros ?]).
  steady_modify. by apply steady_emit.
Qed.

Lemma reaps_meanwhiles_cons {A} (a : action) (events : list (event A)) r :
  reaps (meanwhiles events) r -> reaps (meanwhiles (Meanwhile a :: events)) r.
Proof. unfold reaps. simpl. set_solver. Qed.

Lemma steady_pushTtyOutput self events :
  (∀ r, reaps (meanwhiles events) r -> reaped r) ->
  ∀ blocked, keeps (steady reaped detached w0) (pushTtyOutput self blocked events).
Proof.
  induction events as [|ev events IH]; intros Hev blocked; simpl;
    (apply keeps_bind; [apply keeps_gets|intros t]);
    (destruct (negb blocked && negb (open t)); [apply keeps_ret|]).
  - apply keeps_pending.
  - destruct ev as [o|act0].
    + apply keeps_bind; [apply steady_pump_body|intros _; by apply IH].
    + apply keeps_bind.
      * apply keeps_modify. intros w. apply steady_act.
        intros r ->. apply Hev. unfold reaps. simpl. set_solver.
      * intros _. apply IH. intros r Hr. apply Hev. by apply reaps_meanwhiles_cons.
Qed.

Context {decoder : JsonDecoder}.

Lemma steady_onClientInput self message :
  keeps (steady reaped detached w0) (onClientInput self message).
Proof.
  unfold onClientInput, deref.
  destruct message as [|c rest]; [apply keeps_ret|].
  destruct c as [[] [] [] [] [] [] [] []]; try apply keeps_ret.
  - apply keeps_bind; [apply keeps_gets|intros t].
    steady_modify. by apply steady_emit.
  - destruct (json_loads rest); [|apply keeps_raise].
    do 2 (apply keeps_bind; [apply keeps_lift|intros ?]).
    apply steady_resizeTerminal.
Qed.

Lemma steady_listen_loop self events :
  (∀ r, reaps (meanwhiles events) r -> reaped r) ->
  ∀ blocked, keeps (steady reaped detached w0) (listen_loop self blocked events).
Proof.
  induction events as [|ev events IH]; intros Hev blocked; simpl;
    (apply keeps_bind; [apply keeps_gets|intros t]);
    (destruct (negb blocked && negb (open t)); [apply keeps_ret|]).
  - apply keeps_pending.
  - destruct ev as [[message|]|act0]; [| apply keeps_raise |].
    + apply keeps_bind; [apply steady_onClientInput|intros _; by apply IH].
    + apply keeps_bind.
      * apply keeps_modify. intros w. apply steady_act.
        intros r ->. apply Hev. unfold reaps. simpl. set_solver.
      * intros _. apply IH. intros r Hr. apply Hev. by apply reaps_meanwhiles_cons.
Qed.

End SteadyMethods.

(** ** Terminal: [listen] *)

Lemma bind_inv {A B} (m : M A) (k : A -> M B) w r w' :
  (m ≫= k) w = (r, w') ->
  (∃ a w1, m w = (Ok a, w1) ∧ k a w1 = (r, w')) ∨
  (∃ e, m w = (Raise e, w') ∧ r = Raise e) ∨
  (m w = (Pending, w') ∧ r = Pending).
Proof.
  munfold. destruct (m w) as [[a|e|] w1]; intros H.
  - left. eauto.
  - right. left. injection H as <- <-. eauto.
  - right. right. by injection H as <- <-.
Qed.

Section Listen.
Context {decoder : JsonDecoder}.

(** The loop is left in the ordinary way only at its test, when the
    shell is not open. *)
Lemma listen_loop_ok self events :
  ∀ blocked w w',
    listen_loop self blocked events w = (Ok tt, w') ->
    open (heap w' !!! self) = false.
Proof.
  induction events as [|ev events IH]; intros blocked w w'; simpl;
    unfold deref; munfold;
    destruct (negb blocked && negb (open (heap w !!! self))) eqn:Htest.
  - intros [= <-]. apply andb_true_iff in Htest as [_ H]. by apply negb_true_iff in H.
  - done.
  - intros [= <-]. apply andb_true_iff in Htest as [_ H]. by apply negb_true_iff in H.
  - destruct ev as [[message|]|a]; [| done |].
    + destruct (onClientInput self message w) as [[[]|e|] w1]; [|done..]. apply IH.
    + apply IH.
Qed.



End Listen.

Section ListenExit.
Context {decoder : JsonDecoder}.




(** Each frame received while the shell is open is handed to
    [onClientInput], and the loop goes on when that returns. *)
Lemma listen_loop_frame self message rest w :
  open (heap w !!! self) = true ->
  listen_loop self false (Got (Frame message) :: rest) w
    = (onClientInput self message ≫= fun _ => listen_loop self false rest) w.
Proof. intros Hopen. simpl. unfold deref. munfold. by rewrite Hopen. Qed.

(** The opcodes: [k] writes the rest of the frame to the pty; an empty
    frame and a frame that starts with anything but [k] or [r] are
    ignored. *)
Lemma onClientInput_opcodes self w :
  (∀ rest, onClientInput self (String "k" rest) w
           = (Ok tt, emit (PtyWrite (ttyFd (heap w !!! self)) rest) w)) ∧
  onClientInput self "" w = (Ok tt, w) ∧
  (∀ c rest, c ≠ "k"%char -> c ≠ "r"%char ->
             onClientInput self (String c rest) w = (Ok tt, w)).
Proof.
  split; [done|]. split; [done|]. intros c rest Hk Hr.
  unfold onClientInput.
  destruct c as [[] [] [] [] [] [] [] []]; done.
Qed.


End ListenExit.


(** The frame [r] followed by a text that is not JSON: [json.loads] raises
    [JSONDecodeError], which [listen] does not catch.  [listen] is left by
    the exception, [connected] stays true and the second
    [pushStateChange] is not reached. *)
Lemma listen_malformed_resize :
  ∃ w',
    listen (decoder := Sample.loads) 0%nat [] [Got (Frame "r{")] Demo.started
      = (Raise JSONDecodeError, w') ∧
    connected (heap w' !!! 0%nat) = true ∧
    trace w' = [Send 1%nat (Text "0000002a")].
Proof. eexists. repeat split; vm_compute; reflexivity. Qed.


(** ** ConnectionDispatcher: [terminalHandler] *)

Lemma generateSessionID_pure samples :
  ∀ w r w', generateSessionID samples w = (r, w') -> w' = w.
Proof.
  induction samples as [|s samples IH]; intros w r w'; simpl; munfold.
  - by intros [= _ <-].
  - case_decide; [apply IH|by intros [= _ <-]].
Qed.

Lemma setNewConnection_fields r websocket w t :
  heap w !! r = Some t ->
  setNewConnection r websocket w
    = (Ok tt, set_heap <[r := mkTerminal (sessionID t) websocket (open t) true
                                         (subshellPID t) (ttyFd t)]> w).
Proof.
  intros Hr. unfold setNewConnection, update. munfold. unfold set_heap; simpl.
  do 2 f_equal. apply map_eq. intros r'.
  destruct (decide (r = r')) as [<-|Hne].
  - rewrite lookup_insert_eq, !lookup_alter_eq, Hr. done.
  - rewrite lookup_insert_ne, !lookup_alter_ne by done. done.
Qed.

Section TerminalHandler.
Context {decoder : JsonDecoder}.


(** A [sessionID] that is a list or a dict cannot be looked up in the
    registry: [terminalHandler] is left by [TypeError] and has changed
    nothing. *)
Lemma choose_terminal_unhashable websocket items samples fork w v :
  Py.assoc "sessionID" items = Some v ->
  Py.dict_key v = Raise TypeError ->
  choose_terminal websocket (JObj items) samples fork w = (Raise TypeError, w).
Proof.
  intros Hv Hkey. unfold choose_terminal, Py.contains, Py.getitem. rewrite Hv.
  rewrite bool_decide_eq_true_2 by eauto. simpl. munfold.
  destruct v; simpl in Hkey; try done; simpl; reflexivity.
Qed.

End TerminalHandler.


(** ** The greeting and the output of the pty *)

Lemma frames_to_app p tr1 tr2 :
  frames_to p (tr1 ++ tr2) = frames_to p tr1 ++ frames_to p tr2.
Proof. unfold frames_to. apply omap_app. Qed.

Lemma pumped_app self acts1 acts2 :
  pumped self (acts1 ++ acts2) = pumped self acts1 ++ pumped self acts2.
Proof. unfold pumped. apply omap_app. Qed.

Lemma since_app w w' ext : trace w' = trace w ++ ext -> since w w' = ext.
Proof. intros H. unfold since. rewrite H. apply drop_app_length. Qed.

Lemma foldl_emit {B} (f : B -> effect) (l : list B) :
  ∀ w, foldl (fun w b => emit (f b) w) w l = emits (map f l) w.
Proof.
  induction l as [|b l IH]; intros w; simpl.
  - unfold emits. rewrite app_nil_r. by destruct w.
  - rewrite IH. unfold emits, emit. simpl. by rewrite <- app_assoc.
Qed.

Lemma pushStateChange_run w :
  pushStateChange w
    = (Ok tt, emits (broadcast (poll_response w) (managementConnections w)) w).
Proof.
  unfold pushStateChange. munfold. f_equal.
  apply (foldl_emit (fun c => Send c (Dumps (poll_response w)))).
Qed.

Lemma frames_to_broadcast p response (conns : gset ws) :
  p ∉ conns -> frames_to p (broadcast response conns) = [].
Proof.
  intros Hp. unfold broadcast.
  assert (H : ∀ l : list ws, p ∉ l ->
              frames_to p (map (fun c => Send c (Dumps response)) l) = []).
  { induction l as [|c l IH]; intros Hl; simpl; [done|].
    case_decide; [set_solver|]. apply IH. set_solver. }
  apply H. by rewrite elem_of_elements.
Qed.

(** One action of a thread puts on the websocket of [self] the chunk it
    pumps for [self] and nothing else, when no other terminal holds that
    websocket and it is not a management connection. *)
Lemma frames_act p self a w :
  websocket (heap w !!! self) = p ->
  (∀ r, r ≠ self -> websocket (heap w !!! r) ≠ p) ->
  p ∉ managementConnections w ->
  ∃ ext, trace (act a w) = trace w ++ ext ∧ frames_to p ext = pumped self [a].
Proof.
  intros Hself Hothers Hconns. destruct a as [r|r o]; simpl.
  - destruct (open (heap w !!! r)); [|exists []; by rewrite app_nil_r].
    unfold exec, waitSubshell, update, deref. munfold. simpl.
    case_decide.
    + rewrite pushStateChange_run. simpl. eexists. split; [done|].
      by apply frames_to_broadcast.
    + simpl. exists []. by rewrite app_nil_r.
  - unfold exec, pump_body, try_pass, send, deref. munfold.
    destruct o as [s| |]; simpl; try (exists []; by rewrite app_nil_r).
    eexists. split; [done|]. simpl.
    destruct (decide (r = self)) as [->|Hne].
    + rewrite Hself. by rewrite decide_True.
    + rewrite decide_False; [done|]. by apply Hothers.
Qed.

Lemma frames_meanwhile p self acts :
  ∀ w,
    websocket (heap w !!! self) = p ->
    (∀ r, r ≠ self -> websocket (heap w !!! r) ≠ p) ->
    p ∉ managementConnections w ->
    ∃ ext, trace (exec (meanwhile acts) w) = trace w ++ ext ∧
           frames_to p ext = pumped self acts.
Proof.
  unfold meanwhile, exec, modify; simpl.
  induction acts as [|a acts IH]; intros w Hself Hothers Hconns; simpl.
  - exists []. by rewrite app_nil_r.
  - destruct (frames_act p self a w Hself Hothers Hconns) as (e1 & Ht1 & Hf1).
    assert (S : steady (fun _ => True) (fun _ => False) w (act a w)).
    { apply steady_act; [done|apply steady_refl]. }
    destruct (IH (act a w)) as (e2 & Ht2 & Hf2).
    + by rewrite (steady_websocket _ _ _ _ S).
    + intros r Hr. rewrite (steady_websocket _ _ _ _ S). by apply Hothers.
    + by rewrite (steady_conns _ _ _ _ S).
    + exists (e1 ++ e2). rewrite Ht2, Ht1, <- app_assoc. split; [done|].
      rewrite frames_to_app, Hf1, Hf2.
      symmetry. apply (pumped_app self [a] acts).
Qed.

Section Greeting.
Context {decoder : JsonDecoder}.

Lemma listen_unfold self before events w :
  listen self before events w
    = let w1 := exec (meanwhile before) w in
      let w2 := exec pushStateChange w1 in
      let t := heap w2 !!! self in
      ((try_except (listen_loop self false events) ConnectionClosed
                   (update self (set_connected false)))
         ≫= fun _ => pushStateChange)
        (emit (Send (websocket t) (Text (sessionID t))) w2).
Proof. reflexivity. Qed.

(** C5, as the code has it.  [listen] puts the session id on the
    websocket of its terminal before it reads any frame.  The output
    thread runs by itself all along: the chunks it pumps between the
    binding of the peer and that moment are put on the websocket first.
    For a peer whose websocket is held by no other terminal and is not a
    management connection, what the peer is sent up to the session id is
    these chunks, in order, then the session id; so the session id is
    the first frame when the output thread pumped nothing in between. *)
Theorem greeting_after_pumped (self : ref) (before : list action)
    (events : list (event recv)) (w : World) (t : Terminal)
    (r : res unit) (w' : World) :
  heap w !! self = Some t ->
  (∀ r', r' ≠ self -> websocket (heap w !!! r') ≠ websocket t) ->
  websocket t ∉ managementConnections w ->
  listen self before events w = (r, w') ->
  ∃ pre post,
    since w w' = pre ++ Send (websocket t) (Text (sessionID t)) :: post ∧
    frames_to (websocket t) pre = pumped self before ∧
    (pumped self before = [] ->
     ∃ rest, frames_to (websocket t) (since w w') = Text (sessionID t) :: rest).
Proof.
  intros Hself Hothers Hconns Hrun.
  assert (Ht : heap w !!! self = t) by by apply lookup_total_correct.
  rewrite listen_unfold in Hrun. cbv zeta in Hrun.
  set (w1 := exec (meanwhile before) w) in *.
  set (w2 := exec pushStateChange w1) in *.
  destruct (frames_meanwhile (websocket t) self before w) as (e1 & Ht1 & Hf1);
    [by rewrite Ht|done|done|]. fold w1 in Ht1.
  assert (S1 : steady (fun _ => True) (fun _ => False) w w1).
  { apply (keeps_rel (steady (fun _ => True) (fun _ => False))
                     (meanwhile before) w (Ok tt));
      [apply steady_refl|by apply steady_meanwhile|reflexivity]. }
  assert (Ht2 : trace w2 = trace w1 ++
                  broadcast (poll_response w1) (managementConnections w1)).
  { unfold w2, exec. by rewrite pushStateChange_run. }
  assert (Hh2 : heap w2 = heap w1).
  { unfold w2, exec. by rewrite pushStateChange_run. }
  rewrite Hh2 in Hrun.
  rewrite (steady_websocket _ _ _ _ S1), (steady_sessionID _ _ _ _ S1), Ht in Hrun.
  set (w3 := emit (Send (websocket t) (Text (sessionID t))) w2) in *.
  assert (S3 : steady (fun _ => True) (fun _ => True) w3 w').
  { refine (keeps_rel (steady (fun _ => True) (fun _ => True)) _ w3 r w'
                      (steady_refl _ _ _) _ Hrun).
    apply keeps_bind; [|intros _; apply steady_pushStateChange].
    apply keeps_try_except; [by apply steady_listen_loop|].
    unfold update. steady_modify. by apply steady_disconnected. }
  destruct (steady_trace _ _ _ _ S3) as (post & Ht3 & _).
  exists (e1 ++ broadcast (poll_response w1) (managementConnections w1)), post.
  assert (Hsince : since w w'
                   = (e1 ++ broadcast (poll_response w1) (managementConnections w1))
                       ++ Send (websocket t) (Text (sessionID t)) :: post).
  { apply since_app. rewrite Ht3. unfold w3. simpl. rewrite Ht2, Ht1.
    rewrite <- !app_assoc. done. }
  assert (Hpre : frames_to (websocket t)
                   (e1 ++ broadcast (poll_response w1) (managementConnections w1))
                 = pumped self before).
  { rewrite frames_to_app, Hf1, frames_to_broadcast, app_nil_r; [done|].
    by rewrite (steady_conns _ _ _ _ S1). }
  split; [exact Hsince|]. split; [exact Hpre|].
  intros Hnone. rewrite Hsince, frames_to_app, Hpre, Hnone. simpl.
  rewrite decide_True by done. eauto.
Qed.

End Greeting.

(** C5 fails as it is stated.  A peer comes back to a detached session
    whose shell is printing: the output thread sends a chunk to the new
    websocket before [listen] sends the session id.  The same can happen
    to the peer of a new session. *)
Lemma output_before_greeting :
  let again := JObj [("accessKey", JStr "a2"); ("sessionID", JStr "0000002a")] in
  frames_to 2%nat
    (trace (exec (terminalHandler (decoder := Sample.loads) 2%nat again []
                    (Raise OSError) [Pump 0%nat (ReadText "$ ")] [])
                 Demo.detached))
    = [Text "$ "; Text "0000002a"] ∧
  frames_to 1%nat
    (trace (exec (terminalHandler (decoder := Sample.loads) 1%nat Demo.new_config
                    [(Byte.x00, Byte.x00, Byte.x00, Byte.x2a)] (Ok (4242, 7))
                    [Pump 0%nat (ReadText "$ ")] [])
                 (init_world 9423)))
    = [Text "$ "; Text "0000002a"].
Proof. split; vm_compute; reflexivity. Qed.

Lemma greeting_after_pumped_witness :
  let t := mkTerminal "0000002a" 1%nat true true 4242 7 in
  let events := [Meanwhile (Pump 0%nat (ReadText "$ ")); Got Disconnected] in
  (heap Demo.managed !! 0%nat = Some t ∧
   (∀ r', r' ≠ 0%nat -> websocket (heap Demo.managed !!! r') ≠ websocket t) ∧
   websocket t ∉ managementConnections Demo.managed) ∧
  ∃ pre post,
    since Demo.managed (exec (listen (decoder := Sample.loads) 0%nat [] events) Demo.managed)
      = pre ++ Send (websocket t) (Text (sessionID t)) :: post ∧
    frames_to (websocket t) pre = pumped 0%nat [] ∧
    (pumped 0%nat [] = [] ->
     ∃ rest,
       frames_to (websocket t)
         (since Demo.managed
            (exec (listen (decoder := Sample.loads) 0%nat [] events) Demo.managed))
       = Text (sessionID t) :: rest).
Proof.
  intros t events.
  assert (H1 : heap Demo.managed !! 0%nat = Some t) by (vm_compute; reflexivity).
  assert (H2 : ∀ r', r' ≠ 0%nat -> websocket (heap Demo.managed !!! r') ≠ websocket t).
  { intros r' Hr'. replace (heap Demo.managed) with (<[0%nat := t]> (∅ : gmap ref Terminal))
      by (vm_compute; reflexivity).
    rewrite lookup_total_insert_ne by done. done. }
  assert (H3 : websocket t ∉ managementConnections Demo.managed).
  { replace (managementConnections Demo.managed) with ({[9%nat]} : gset ws)
      by (vm_compute; reflexivity).
    simpl. set_solver. }
  split; [conj_hyps|].
  apply (greeting_after_pumped (decoder := Sample.loads) 0%nat [] events Demo.managed t
           (outcome (listen (decoder := Sample.loads) 0%nat [] events) Demo.managed)
           _ H1 H2 H3).
  unfold outcome, exec. by destruct (listen 0%nat [] events Demo.managed).
Defined.

(** ** The wait thread and what the management connections see *)


(** ** The output thread *)

Lemma pump_body_run self o w : pump_body self o w = (Ok tt, pumped_world self o w).
Proof. destruct o; reflexivity. Qed.

Lemma act_open a self w :
  a ≠ Reap self -> open (heap (act a w) !!! self) = open (heap w !!! self).
Proof.
  intros Ha.
  assert (S : steady (reaps [a]) (fun _ => False) w (act a w)).
  { apply steady_act; [|apply steady_refl]. intros r ->. unfold reaps. set_solver. }
  apply (steady_kept _ _ _ _ S). unfold reaps. set_solver.
Qed.

Lemma act_reap_closed self w : open (heap (act (Reap self) w) !!! self) = false.
Proof.
  simpl. destruct (open (heap w !!! self)) eqn:Hopen; [|done].
  assert (S : steady (fun _ => True) (fun _ => False)
                (set_heap (alter (set_open false) self) w)
                (exec (waitSubshell self) w)).
  { unfold exec, waitSubshell, update.
    unfold mbind at 1. unfold M_bind, bind, modify.
    match goal with
    | |- steady _ _ ?w1 (snd (?m ?w1)) =>
        destruct (m w1) as [r w'] eqn:E;
        refine (keeps_rel (steady (fun _ => True) (fun _ => False)) m w1 r w'
                          (steady_refl _ _ _) _ E)
    end.
    apply keeps_bind; [apply keeps_gets|intros t].
    apply keeps_bind; [apply keeps_gets|intros ts].
    apply keeps_bind; [|intros _; apply steady_pushStateChange].
    case_decide; [|apply keeps_raise]. steady_modify. apply steady_terminals. }
  destruct (open (heap (exec (waitSubshell self) w) !!! self)) eqn:Hafter; [|done].
  apply (steady_open _ _ _ _ S) in Hafter. simpl in Hafter.
  rewrite lookup_total_alter_eq in Hafter. by destruct (heap w !! self).
Qed.

Section Pump.
Context (self : ref).

Lemma pumped_world_open o w :
  open (heap (pumped_world self o w) !!! self) = open (heap w !!! self).
Proof. by destruct o. Qed.

Lemma pushTtyOutput_nil blocked w :
  pushTtyOutput self blocked [] w
    = if negb blocked && negb (open (heap w !!! self)) then (Ok tt, w)
      else (Pending, w).
Proof.
  simpl. unfold deref. munfold.
  by destruct (negb blocked && negb (open (heap w !!! self))).
Qed.

Lemma pushTtyOutput_cons blocked ev rest w :
  pushTtyOutput self blocked (ev :: rest) w
    = if negb blocked && negb (open (heap w !!! self)) then (Ok tt, w)
      else match ev with
           | Got o => pushTtyOutput self false rest (pumped_world self o w)
           | Meanwhile a => pushTtyOutput self true rest (act a w)
           end.
Proof.
  simpl. unfold deref. munfold.
  destruct (negb blocked && negb (open (heap w !!! self))); [done|].
  destruct ev as [o|a]; [|done]. by rewrite pump_body_run.
Qed.

Lemma pushTtyOutput_no_raise events :
  ∀ blocked w e w', pushTtyOutput self blocked events w ≠ (Raise e, w').
Proof.
  induction events as [|ev events IH]; intros blocked w e w';
    rewrite ?pushTtyOutput_nil, ?pushTtyOutput_cons;
    destruct (negb blocked && negb (open (heap w !!! self))); try done.
  destruct ev as [o|a]; apply IH.
Qed.

Lemma pushTtyOutput_ok events :
  ∀ blocked w w',
    pushTtyOutput self blocked events w = (Ok tt, w') ->
    open (heap w' !!! self) = false.
Proof.
  induction events as [|ev events IH]; intros blocked w w';
    rewrite ?pushTtyOutput_nil, ?pushTtyOutput_cons;
    destruct (negb blocked && negb (open (heap w !!! self))) eqn:Htest.
  - intros [= <-]. apply andb_true_iff in Htest as [_ H]. by apply negb_true_iff in H.
  - done.
  - intros [= <-]. apply andb_true_iff in Htest as [_ H]. by apply negb_true_iff in H.
  - destruct ev as [o|a]; apply IH.
Qed.

(** Without the wait thread the loop never ends, whatever the reads
    return. *)
Lemma pushTtyOutput_runs events :
  ∀ blocked w,
    open (heap w !!! self) = true ->
    ¬ reaps (meanwhiles events) self ->
    ∃ w', pushTtyOutput self blocked events w = (Pending, w').
Proof.
  induction events as [|ev events IH]; intros blocked w Hopen Hev;
    rewrite ?pushTtyOutput_nil, ?pushTtyOutput_cons, Hopen, andb_false_r.
  - eauto.
  - destruct ev as [o|a].
    + apply IH; [by rewrite pumped_world_open|done].
    + apply IH.
      * rewrite act_open; [done|]. intros ->. apply Hev. unfold reaps. simpl. set_solver.
      * intros H. apply Hev. unfold reaps in *. simpl. set_solver.
Qed.

(** Once the wait thread has run, the loop ends when the read in
    progress returns. *)
Lemma pushTtyOutput_ends events o rest :
  ∀ blocked w,
    ∃ w', pushTtyOutput self blocked
            (events ++ Meanwhile (Reap self) :: Got o :: rest) w = (Ok tt, w').
Proof.
  induction events as [|ev events IH]; intros blocked w.
  - rewrite app_nil_l, !pushTtyOutput_cons.
    destruct (negb blocked && negb (open (heap w !!! self))); [eauto|].
    rewrite andb_false_l.
    assert (Hclosed : open (heap (pumped_world self o (act (Reap self) w)) !!! self)
                      = false).
    { rewrite pumped_world_open. apply act_reap_closed. }
    destruct rest as [|ev rest];
      rewrite ?pushTtyOutput_nil, ?pushTtyOutput_cons, Hclosed; simpl; eauto.
  - rewrite <- app_comm_cons, pushTtyOutput_cons.
    destruct (negb blocked && negb (open (heap w !!! self))); [eauto|].
    destruct ev as [o'|a]; apply IH.
Qed.

(** C7, as the code has it.  The output thread never fails: a read
    that fails and a chunk that is not UTF-8 are dropped and the loop
    goes on; a decoded chunk is put on the websocket that the terminal
    holds at that time, whether a peer is connected or not.  The loop
    ends at its test when [open] is false, that is after the wait thread
    has run, and only then: with [open] true and no wait thread it goes
    on whatever the reads return, and once the wait thread has run it
    ends as soon as the read in progress returns. *)
Theorem pump_exit (events : list (event pty_read)) (w : World)
    (r : res unit) (w' : World) :
  pushTtyOutput self false events w = (r, w') ->
  (∀ e, r ≠ Raise e) ∧
  (r = Ok tt -> open (heap w' !!! self) = false) ∧
  (open (heap w !!! self) = true -> ¬ reaps (meanwhiles events) self -> r = Pending) ∧
  (∀ o rest,
     open (heap w !!! self) = true ->
     pushTtyOutput self false (Got o :: rest) w
       = pushTtyOutput self false rest
           match o with
           | ReadText s => emit (Send (websocket (heap w !!! self)) (Text s)) w
           | ReadUndecodable _ | ReadError => w
           end) ∧
  (∀ before o rest,
     outcome (pushTtyOutput self false
                (before ++ Meanwhile (Reap self) :: Got o :: rest)) w = Ok tt).
Proof.
  intros Hrun. split; [|split; [|split; [|split]]].
  - intros e ->. by apply pushTtyOutput_no_raise in Hrun.
  - intros ->. by apply pushTtyOutput_ok in Hrun.
  - intros Hopen Hev.
    destruct (pushTtyOutput_runs events false w Hopen Hev) as (w1 & H1). congruence.
  - intros o rest Hopen. by rewrite pushTtyOutput_cons, Hopen.
  - intros before o rest. unfold outcome.
    destruct (pushTtyOutput_ends before o rest false w) as (w1 & ->). done.
Qed.

End Pump.

(** C7 fails as it is stated.  The reads of a closed pty fail; the
    failures are dropped and the loop goes on reading: after three of them
    the thread is still in its loop.  And the loop ends without any
    failing read once the shell is reaped; the descriptor of the pty is
    not closed then. *)
Lemma pump_survives_closed_pty :
  ∃ w2,
    pushTtyOutput 0%nat false
      [Got ReadError; Got ReadError; Got ReadError] Demo.started
      = (Pending, Demo.started) ∧
    pushTtyOutput 0%nat false
      [Meanwhile (Reap 0%nat); Got (ReadText "bye")] Demo.started = (Ok tt, w2) ∧
    trace w2 = [Send 1%nat (Text "bye")] ∧
    FdClose 7 ∉ trace w2.
Proof.
  eexists. split; [vm_compute; reflexivity|].
  split; [vm_compute; reflexivity|]. split; [reflexivity|].
  intros H. apply list_elem_of_In in H. simpl in H. naive_solver.
Qed.

Lemma pump_exit_witness :
  let events := [Got ReadError; Got (ReadUndecodable (String "255" "")); Got (ReadText "x")] in
  let w' := exec (pushTtyOutput 0%nat false events) Demo.started in
  (pushTtyOutput 0%nat false events Demo.started = (Pending, w') ∧
   open (heap Demo.started !!! 0%nat) = true ∧
   ¬ reaps (meanwhiles events) 0%nat) ∧
  (∀ e, @Pending unit ≠ Raise e) ∧
  (@Pending unit = Pending) ∧
  outcome (pushTtyOutput 0%nat false
             ([Got ReadError] ++ Meanwhile (Reap 0%nat) :: Got ReadError :: []))
          Demo.started = Ok tt.
Proof.
  intros events w'.
  assert (H1 : pushTtyOutput 0%nat false events Demo.started = (Pending, w'))
    by (vm_compute; reflexivity).
  assert (H2 : open (heap Demo.started !!! 0%nat) = true) by (vm_compute; reflexivity).
  assert (H3 : ¬ reaps (meanwhiles events) 0%nat).
  { unfold reaps. simpl. set_solver. }
  split; [conj_hyps|].
  destruct (pump_exit 0%nat events Demo.started Pending w' H1) as (Ha & _ & Hc & _ & He).
  split; [exact Ha|]. split; [exact (Hc H2 H3)|].
  exact (He [Got ReadError] ReadError []).
Defined.

(** ** Session ids *)

Module HexFacts.
Import Hex.

Lemma digit_lower_hex n : is_lower_hex (digit n) = true.
Proof.
  destruct n as [|p]; [reflexivity|].
  do 4 (try destruct p as [p|p|]); reflexivity.
Qed.

Lemma token_hex4_length r : String.length (token_hex4 r) = 8%nat.
Proof. destruct r as [[[a b] c] d]. reflexivity. Qed.

Lemma token_hex4_lower_hex r : all_lower_hex (token_hex4 r) = true.
Proof.
  destruct r as [[[a b] c] d]. unfold token_hex4, hexlify, of_byte. simpl.
  by rewrite !digit_lower_hex.
Qed.

End HexFacts.

Lemma generateSessionID_result samples :
  ∀ w r w',
    generateSessionID samples w = (r, w') ->
    w' = w ∧
    match r with
    | Ok sid => (∃ s, s ∈ samples ∧ sid = Hex.token_hex4 s) ∧ terminals w !! sid = None
    | Raise _ => False
    | Pending => ∀ s, s ∈ samples -> is_Some (terminals w !! Hex.token_hex4 s)
    end.
Proof.
  induction samples as [|s samples IH]; intros w r w'; simpl; munfold.
  - intros [= <- <-]. split; [done|]. intros s Hs. set_solver.
  - case_decide as Hused.
    + intros Hrun. destruct (IH _ _ _ Hrun) as [-> Hr]. split; [done|].
      destruct r as [sid|e|]; [|done|].
      * destruct Hr as [(s' & Hs' & ->) Hfree]. split; [|done]. exists s'. set_solver.
      * intros s' Hs'. apply elem_of_cons in Hs' as [->|Hs']; eauto.
    + intros [= <- <-]. split; [done|]. split.
      * exists s. set_solver.
      * by apply eq_None_not_Some.
Qed.

(** ** The registry invariant *)

Lemma registry_ok_same w w' :
  heap w' = heap w -> terminals w' = terminals w -> registry_ok w -> registry_ok w'.
Proof. intros Hh Ht [A B C]. split; rewrite ?Hh, ?Ht; done. Qed.

Lemma registry_ok_init port : registry_ok (init_world port).
Proof. split; simpl; intros; simplify_map_eq. Qed.

(** A change of the fields [websocket] and [connected] of an object. *)
Lemma registry_ok_alter (f : Terminal -> Terminal) r w :
  (∀ t, sessionID (f t) = sessionID t ∧ open (f t) = open t) ->
  registry_ok w -> registry_ok (set_heap (alter f r) w).
Proof.
  intros Hf [A B C]. split; simpl.
  - intros sid r' Hreg. destruct (A sid r' Hreg) as (t & Ht & Hsid & Hopen).
    destruct (decide (r = r')) as [<-|Hne].
    + exists (f t). rewrite lookup_alter_eq, Ht. destruct (Hf t) as [-> ->]. done.
    + exists t. by rewrite lookup_alter_ne.
  - exact B.
  - intros r' t'. destruct (decide (r = r')) as [<-|Hne].
    + rewrite lookup_alter_eq. destruct (heap w !! r) as [t|] eqn:Ht; [|done].
      simpl. intros [= <-]. destruct (Hf t) as [-> ->]. by apply C.
    + rewrite lookup_alter_ne by done. apply C.
Qed.

(** The wait thread of a session whose shell is open. *)
Lemma registry_ok_reap self w :
  open (heap w !!! self) = true ->
  registry_ok w ->
  terminals w !! sessionID (heap w !!! self) = Some self ∧
  registry_ok (set_terminals (delete (sessionID (heap w !!! self)))
                 (set_heap (alter (set_open false) self) w)).
Proof.
  intros Hopen [A B C].
  rewrite lookup_total_alt in *.
  destruct (heap w !! self) as [t|] eqn:Ht; [simpl in *|done].
  assert (Hreg : terminals w !! sessionID t = Some self) by by apply C.
  split; [done|]. split; simpl.
  - intros sid r Hr. apply lookup_delete_Some in Hr as [Hne Hr].
    destruct (A sid r Hr) as (t' & Ht' & Hsid & Hopen').
    exists t'. split; [|done]. rewrite lookup_alter_ne; [done|].
    intros <-. congruence.
  - intros sid r Hr. apply lookup_delete_Some in Hr as [Hne Hr]. eauto.
  - intros r t'. destruct (decide (self = r)) as [<-|Hne].
    + rewrite lookup_alter_eq, Ht. simpl. by intros [= <-].
    + rewrite lookup_alter_ne by done. intros Ht' Hopen'.
      rewrite lookup_delete_ne; [by apply C|].
      intros Heq. rewrite Heq in Hreg.
      pose proof (C r t' Ht' Hopen') as Hreg'. congruence.
Qed.

(** The creation of a session under an id that is free. *)
Lemma registry_ok_create sample websocket pid fd w :
  terminals w !! Hex.token_hex4 sample = None ->
  registry_ok w ->
  registry_ok
    (set_terminals <[Hex.token_hex4 sample := fresh (dom (heap w))]>
       (set_heap <[fresh (dom (heap w))
                     := mkTerminal (Hex.token_hex4 sample) websocket true true pid fd]> w)).
Proof.
  intros Hfree [A B C].
  assert (Hnew : heap w !! fresh (dom (heap w)) = None)
    by apply not_elem_of_dom, is_fresh.
  split; simpl.
  - intros sid r Hr. apply lookup_insert_Some in Hr as [[<- <-]|[Hne Hr]].
    + eexists. by rewrite lookup_insert_eq.
    + destruct (A sid r Hr) as (t & Ht & Hsid & Hopen).
      exists t. split; [|done]. rewrite lookup_insert_ne; [done|]. congruence.
  - intros sid r Hr. apply lookup_insert_Some in Hr as [[<- <-]|[Hne Hr]]; [|eauto].
    split; [apply HexFacts.token_hex4_length|apply HexFacts.token_hex4_lower_hex].
  - intros r t Ht Hopen. apply lookup_insert_Some in Ht as [[<- <-]|[Hne Ht]].
    + simpl. by rewrite lookup_insert_eq.
    + pose proof (C r t Ht Hopen) as Hreg.
      rewrite lookup_insert_ne; [done|]. congruence.
Qed.

Ltac same_sessions :=
  apply keeps_modify; intros ? ?; eapply registry_ok_same; [| |eassumption]; done.

Section RegistryMethods.

Lemma registry_ok_pushStateChange : keeps registry_ok pushStateChange.
Proof.
  intros w r w' Hw. rewrite pushStateChange_run. intros [= _ <-].
  eapply registry_ok_same; [| |eassumption]; done.
Qed.

Lemma registry_ok_send self d : keeps registry_ok (send self d).
Proof.
  unfold send, deref. apply keeps_bind; [apply keeps_gets|intros t]. same_sessions.
Qed.

Lemma registry_ok_act a w : registry_ok w -> registry_ok (act a w).
Proof.
  intros Hw. destruct a as [r|r o]; simpl.
  - destruct (open (heap w !!! r)) eqn:Hopen; [|done].
    destruct (registry_ok_reap r w Hopen Hw) as [Hreg Hok].
    unfold exec, waitSubshell, update, deref. munfold. simpl.
    rewrite lookup_total_alter_eq.
    assert (Hsid : sessionID (default inhabitant (set_open false <$> heap w !! r))
                   = sessionID (heap w !!! r)).
    { rewrite lookup_total_alt. by destruct (heap w !! r). }
    rewrite Hsid, decide_True by eauto.
    rewrite pushStateChange_run. simpl.
    eapply registry_ok_same; [| |eassumption]; done.
  - unfold exec. rewrite pump_body_run. destruct o; simpl; [|done..].
    eapply registry_ok_same; [| |eassumption]; done.
Qed.

Lemma registry_ok_meanwhile acts : keeps registry_ok (meanwhile acts).
Proof.
  unfold meanwhile. apply keeps_modify. intros w.
  apply keeps_foldl. intros w1 a. apply registry_ok_act.
Qed.

Lemma registry_ok_resizeTerminal self row col :
  keeps registry_ok (resizeTerminal self row col).
Proof.
  unfold resizeTerminal, deref.
  do 3 (apply keeps_bind; [first [apply keeps_lift|apply keeps_gets]|intros ?]).
  same_sessions.
Qed.

Lemma registry_ok_validateAccessKey checkKey now :
  keeps registry_ok (validateAccessKey checkKey now).
Proof.
  unfold validateAccessKey.
  apply keeps_bind; [same_sessions|intros _].
  apply keeps_bind; [apply keeps_lift|intros k].
  apply keeps_bind; [apply keeps_gets|intros keys].
  destruct k as [key|]; [|apply keeps_ret].
  case_decide; [|apply keeps_ret].
  apply keeps_bind; [same_sessions|intros _; apply keeps_ret].
Qed.

Lemma registry_ok_generateAccessKey accessKey now :
  keeps registry_ok (generateAccessKey accessKey now).
Proof.
  unfold generateAccessKey.
  apply keeps_bind; [same_sessions|intros _; apply keeps_ret].
Qed.

Lemma registry_ok_disconnect self :
  keeps registry_ok (update self (set_connected false)).
Proof. unfold update. apply keeps_modify. intros w. by apply registry_ok_alter. Qed.

Lemma registry_ok_setNewConnection self websocket :
  keeps registry_ok (setNewConnection self websocket).
Proof.
  unfold setNewConnection, update.
  apply keeps_bind; [|intros _]; apply keeps_modify; intros w;
    by apply registry_ok_alter.
Qed.

Lemma registry_ok_forget websocket : keeps registry_ok (forget_management websocket).
Proof.
  unfold forget_management. apply keeps_bind; [apply keeps_gets|intros conns].
  case_decide; [same_sessions|apply keeps_raise].
Qed.

Lemma registry_ok_choose websocket config samples fork :
  keeps registry_ok (choose_terminal websocket config samples fork).
Proof.
  unfold choose_terminal, close.
  apply keeps_bind; [apply keeps_lift|intros has].
  destruct (negb has).
  { apply keeps_bind; [same_sessions|intros _; apply keeps_ret]. }
  apply keeps_bind; [apply keeps_lift|intros sessionID].
  destruct (Py.eq_str sessionID "new").
  - intros w r w' Hw Hrun.
    apply bind_inv in Hrun as [(sid & w1 & Hgen & Hrun)|[(e & Hgen & _)|[Hgen _]]];
      apply generateSessionID_result in Hgen as [-> Hres]; [|done..].
    destruct Hres as [(s & _ & ->) Hfree].
    unfold new_Terminal in Hrun. munfold.
    destruct fork as [[pid fd]|e|]; simpl in Hrun; injection Hrun as _ <-; [|done..].
    by apply registry_ok_create.
  - apply keeps_bind; [apply keeps_lift|intros k].
    apply keeps_bind; [apply keeps_gets|intros ts].
    apply keeps_bind; [apply keeps_gets|intros h].
    destruct (k ≫= _) as [terminal|].
    + destruct (negb _).
      * apply keeps_bind; [apply registry_ok_setNewConnection|intros _; apply keeps_ret].
      * apply keeps_bind; [same_sessions|intros _; apply keeps_ret].
    + apply keeps_bind; [same_sessions|intros _; apply keeps_ret].
Qed.

Context {decoder : JsonDecoder}.

Lemma registry_ok_onClientInput self message :
  keeps registry_ok (onClientInput self message).
Proof.
  unfold onClientInput, deref.
  destruct message as [|c rest]; [apply keeps_ret|].
  destruct c as [[] [] [] [] [] [] [] []]; try apply keeps_ret.
  - apply keeps_bind; [apply keeps_gets|intros t]. same_sessions.
  - destruct (json_loads rest); [|apply keeps_raise].
    do 2 (apply keeps_bind; [apply keeps_lift|intros ?]).
    apply registry_ok_resizeTerminal.
Qed.

Lemma registry_ok_listen_loop self events :
  ∀ blocked, keeps registry_ok (listen_loop self blocked events).
Proof.
  induction events as [|ev events IH]; intros blocked; simpl;
    (apply keeps_bind; [apply keeps_gets|intros t]);
    (destruct (negb blocked && negb (open t)); [apply keeps_ret|]).
  - apply keeps_pending.
  - destruct ev as [[message|]|act0]; [| apply keeps_raise |].
    + apply keeps_bind; [apply registry_ok_onClientInput|intros _; apply IH].
    + apply keeps_bind; [|intros _; apply IH].
      apply keeps_modify. intros w. apply registry_ok_act.
Qed.

Lemma registry_ok_listen_resume self events :
  keeps registry_ok (listen_resume self events).
Proof.
  unfold listen_resume.
  apply keeps_bind; [|intros _; apply registry_ok_pushStateChange].
  apply keeps_try_except; [apply registry_ok_listen_loop|apply registry_ok_disconnect].
Qed.

Lemma registry_ok_listen self before events :
  keeps registry_ok (listen self before events).
Proof.
  unfold listen.
  apply keeps_bind; [apply registry_ok_meanwhile|intros _].
  apply keeps_bind; [apply registry_ok_pushStateChange|intros _].
  apply keeps_bind; [apply keeps_gets|intros t].
  apply keeps_bind; [apply registry_ok_send|intros _].
  apply keeps_bind; [|intros _; apply registry_ok_pushStateChange].
  apply keeps_try_except; [apply registry_ok_listen_loop|apply registry_ok_disconnect].
Qed.

Lemma registry_ok_terminalHandler websocket config samples fork before events :
  keeps registry_ok (terminalHandler websocket config samples fork before events).
Proof.
  unfold terminalHandler.
  apply keeps_bind; [apply registry_ok_choose|intros [terminal|]].
  - apply registry_ok_listen.
  - apply keeps_ret.
Qed.

Lemma registry_ok_management_request websocket message :
  keeps registry_ok (management_request websocket message).
Proof.
  unfold management_request.
  destruct (json_loads message) as [request|]; [|apply keeps_ret].
  destruct (Py.getitem request "type") as [requestType|e|]; try apply keeps_ret.
  destruct (Py.eq_str requestType "poll").
  { apply keeps_bind; [apply keeps_gets|intros ?]. same_sessions. }
  destruct (Py.eq_str requestType "kill"); [|apply keeps_ret].
  apply keeps_bind; [apply keeps_lift|intros has].
  destruct (negb has); [apply keeps_ret|].
  apply keeps_bind; [apply keeps_lift|intros sessionID].
  apply keeps_bind; [apply keeps_lift|intros k].
  apply keeps_bind; [apply keeps_gets|intros ts].
  apply keeps_bind; [apply keeps_gets|intros h].
  apply keeps_bind; [|intros ?; same_sessions].
  destruct (k ≫= _) as [terminal|]; [|apply keeps_ret].
  destruct (open _); [|apply keeps_ret].
  apply keeps_bind; [same_sessions|intros _; apply keeps_ret].
Qed.

Lemma registry_ok_management_loop websocket events :
  keeps registry_ok (management_loop websocket events).
Proof.
  induction events as [|ev events IH]; simpl; [apply keeps_pending|].
  destruct ev as [[message|]|act0]; [| apply keeps_raise |].
  - apply keeps_bind; [apply registry_ok_management_request|intros _; apply IH].
  - apply keeps_bind; [|intros _; apply IH].
    apply keeps_modify. intros w. apply registry_ok_act.
Qed.

Lemma registry_ok_managementHandler websocket config events :
  keeps registry_ok (managementHandler websocket config events).
Proof.
  unfold managementHandler.
  apply keeps_try_except; [apply registry_ok_management_loop|apply keeps_ret].
Qed.

Lemma registry_ok_first_recv events : keeps registry_ok (first_recv events).
Proof.
  induction events as [|ev events IH]; simpl; [apply keeps_pending|].
  destruct ev as [[message|]|act0]; [apply keeps_ret | apply keeps_raise |].
  apply keeps_bind; [|intros _; apply IH].
  apply keeps_modify. intros w. apply registry_ok_act.
Qed.

Lemma registry_ok_handler websocket request_headers path now samples fork before events :
  keeps registry_ok
    (handler websocket request_headers path now samples fork before events).
Proof.
  unfold handler, close.
  apply keeps_bind; [apply keeps_lift|intros origin].
  apply keeps_bind; [apply keeps_gets|intros allowed].
  destruct (negb _); [same_sessions|].
  apply keeps_bind; [apply registry_ok_first_recv|intros [configJSON rest]].
  destruct (json_loads configJSON) as [config|]; [|same_sessions].
  apply keeps_bind; [apply keeps_lift|intros has].
  apply keeps_bind.
  { destruct (negb has); [apply keeps_ret|].
    apply keeps_bind; [apply keeps_lift|intros ?].
    apply registry_ok_validateAccessKey. }
  intros valid. destruct (negb valid); [same_sessions|].
  destruct (String.eqb path "/term"); [apply registry_ok_terminalHandler|].
  destruct (String.eqb path "/manage"); [|same_sessions].
  apply keeps_bind; [same_sessions|intros _].
  apply keeps_bind; [apply registry_ok_managementHandler|intros _].
  apply registry_ok_forget.
Qed.

(** Every state of the process satisfies the registry invariant. *)
Lemma reachable_registry_ok port : ∀ w, reachable port w -> registry_ok w.
Proof.
  intros w0 H. induction H as [|w s Hw IH]; [apply registry_ok_init|].
  destruct s as [websocket hs path now samples fork before events
                |self events|websocket events|a|accessKey now]; simpl.
  - unfold exec. destruct (handler _ _ _ _ _ _ _ _ w) as [r w'] eqn:E.
    eapply registry_ok_handler; eauto.
  - unfold exec. destruct (listen_resume self events w) as [r w'] eqn:E.
    eapply registry_ok_listen_resume; eauto.
  - unfold exec. destruct (management_resume websocket events w) as [r w'] eqn:E.
    revert E. unfold management_resume. intros E.
    eapply (keeps_bind registry_ok); [| |exact IH|exact E].
    + apply registry_ok_managementHandler.
    + intros ?. apply registry_ok_forget.
  - by apply registry_ok_act.
  - unfold exec. destruct (generateAccessKey accessKey now w) as [r w'] eqn:E.
    eapply registry_ok_generateAccessKey; eauto.
Qed.

End RegistryMethods.

Section SessionIDs.
Context {decoder : JsonDecoder}.

(** C8.  [generateSessionID] changes nothing and never fails; what it
    returns is 8 lowercase hexadecimal digits that are the id of no
    registered session; it returns as soon as a sample is not a
    registered id.  In every state of the process the registered ids
    are 8 lowercase hexadecimal digits, each is the id of the session
    it is registered for, and two sessions whose shells are open have
    different ids. *)
Theorem generateSessionID_unique (port : Z) (samples : list Hex.bytes4) (w : World) :
  (∀ r w', generateSessionID samples w = (r, w') ->
           w' = w ∧ (∀ e, r ≠ Raise e) ∧
           ∀ sid, r = Ok sid ->
                  String.length sid = 8%nat ∧ Hex.all_lower_hex sid = true ∧
                  terminals w !! sid = None) ∧
  (∀ s, s ∈ samples -> terminals w !! Hex.token_hex4 s = None ->
        ∃ sid, generateSessionID samples w = (Ok sid, w)) ∧
  (reachable port w ->
   (∀ sid r, terminals w !! sid = Some r ->
             String.length sid = 8%nat ∧ Hex.all_lower_hex sid = true ∧
             ∃ t, heap w !! r = Some t ∧ sessionID t = sid) ∧
   (∀ r1 r2 t1 t2,
      heap w !! r1 = Some t1 -> heap w !! r2 = Some t2 ->
      open t1 = true -> open t2 = true ->
      sessionID t1 = sessionID t2 -> r1 = r2)).
Proof.
  split; [|split].
  - intros r w' Hrun. apply generateSessionID_result in Hrun as [-> Hr].
    split; [done|]. split.
    + intros e ->. done.
    + intros sid ->. destruct Hr as [(s & _ & ->) Hfree].
      split; [apply HexFacts.token_hex4_length|].
      split; [apply HexFacts.token_hex4_lower_hex|done].
  - intros s Hs Hfree.
    destruct (generateSessionID samples w) as [[sid|e|] w'] eqn:Hrun;
      apply generateSessionID_result in Hrun as [-> Hr].
    + eauto.
    + done.
    + destruct (Hr s Hs). congruence.
  - intros Hreach. apply reachable_registry_ok in Hreach as [A B C]. split.
    + intros sid r Hreg. destruct (B sid r Hreg) as [? ?].
      destruct (A sid r Hreg) as (t & ? & ? & _). eauto.
    + intros r1 r2 t1 t2 H1 H2 O1 O2 Hsid.
      pose proof (C r1 t1 H1 O1) as R1. pose proof (C r2 t2 H2 O2) as R2.
      congruence.
Qed.

End SessionIDs.

Example demo_served :
  terminals Demo.served !! "0000002a" = Some 0%nat ∧
  heap Demo.served !! 0%nat = Some (mkTerminal "0000002a" 1%nat true true 4242 7) ∧
  accessKeys Demo.served = ∅ ∧
  trace Demo.served = [Send 1%nat (Text "0000002a")].
Proof. vm_compute. done. Qed.

Lemma demo_served_reachable : reachable (decoder := Sample.loads) 9423 Demo.served.
Proof.
  unfold Demo.served, Demo.steps. cbn [foldl].
  do 2 apply reachable_step. apply reachable_init.
Qed.

Lemma generateSessionID_unique_witness :
  let taken := (Byte.x00, Byte.x00, Byte.x00, Byte.x2a) in
  let free := (Byte.xde, Byte.xad, Byte.xbe, Byte.xef) in
  (generateSessionID [taken; free] Demo.served = (Ok "deadbeef", Demo.served) ∧
   free ∈ [taken; free] ∧
   terminals Demo.served !! Hex.token_hex4 free = None ∧
   reachable (decoder := Sample.loads) 9423 Demo.served ∧
   terminals Demo.served !! "0000002a" = Some 0%nat) ∧
  (String.length "deadbeef" = 8%nat ∧ Hex.all_lower_hex "deadbeef" = true ∧
   terminals Demo.served !! "deadbeef" = None) ∧
  (∃ sid, generateSessionID [taken; free] Demo.served = (Ok sid, Demo.served)) ∧
  (String.length "0000002a" = 8%nat ∧ Hex.all_lower_hex "0000002a" = true ∧
   ∃ t, heap Demo.served !! 0%nat = Some t ∧ sessionID t = "0000002a").
Proof.
  intros taken free.
  assert (H1 : generateSessionID [taken; free] Demo.served = (Ok "deadbeef", Demo.served))
    by (vm_compute; reflexivity).
  assert (H2 : free ∈ [taken; free]) by apply list_elem_of_further, list_elem_of_here.
  assert (H3 : terminals Demo.served !! Hex.token_hex4 free = None)
    by (vm_compute; reflexivity).
  assert (H4 := demo_served_reachable).
  assert (H5 : terminals Demo.served !! "0000002a" = Some 0%nat)
    by (vm_compute; reflexivity).
  split; [conj_hyps|].
  destruct (generateSessionID_unique (decoder := Sample.loads) 9423 [taken; free]
              Demo.served) as (Ha & Hb & Hc).
  split; [exact (proj2 (proj2 (Ha _ _ H1)) "deadbeef" eq_refl)|].
  split; [exact (Hb free H2 H3)|].
  exact (proj1 (Hc H4) "0000002a" 0%nat H5).
Defined.

(** ** The wait thread *)

Section Reaper.
Context {decoder : JsonDecoder}.


End Reaper.


Example reaper_broadcast :
  since Demo.managed (exec (waitSubshell 0%nat) Demo.managed)
    = [Send 9%nat (Dumps (JObj [("response", JStr "poll"); ("result", JArr [])]))].
Proof. vm_compute. reflexivity. Qed.

(** ** The management channel *)

Section Management.
Context {decoder : JsonDecoder}.


(** A [sessionID] that is a list or a dict cannot be looked up:
    [TypeError] leaves [managementHandler], which catches
    [ConnectionClosed] only. *)
Lemma kill_request_unhashable websocket message items v rest w :
  json_loads message = Some (JObj items) ->
  Py.assoc "type" items = Some (JStr "kill") ->
  Py.assoc "sessionID" items = Some v ->
  Py.dict_key v = Raise TypeError ->
  managementHandler websocket JNull (Got (Frame message) :: rest) w
    = (Raise TypeError, w).
Proof.
  intros Hload Htype Hv Hkey.
  unfold managementHandler, try_except. simpl.
  unfold management_request. rewrite Hload. unfold Py.getitem, Py.contains.
  rewrite Htype, Hv. simpl. munfold. simpl. rewrite Hkey. done.
Qed.

End Management.


(** ** The origin check *)

Section Origin.
Context {decoder : JsonDecoder}.

Lemma values_absent key lines :
  (∀ name value, (name, value) ∈ lines -> Headers.lower name ≠ Headers.lower key) ->
  Headers.values key lines = [].
Proof.
  unfold Headers.values. induction lines as [|[name value] lines IH]; intros H.
  - done.
  - simpl. destruct (String.eqb_spec (Headers.lower name) (Headers.lower key)) as [E|_].
    + destruct (H name value); [set_solver|done].
    + apply IH. intros n v Hin. apply (H n v). set_solver.
Qed.

(** C10.  When the opening request has no [Origin] header, the
    subscript of [request_headers] raises [KeyError]: [handler] is left
    by the exception before it closes anything or reads a frame.  When
    the request has one [Origin] header whose value is not allowed,
    [handler] closes the connection and returns. *)
Theorem handler_without_origin (websocket : ws)
    (request_headers : list (string * string)) (path : string) (now : Z)
    (samples : list Hex.bytes4) (fork : res (Z * Z)) (before : list action)
    (events : list (event recv)) (w : World) :
  ((∀ name value, (name, value) ∈ request_headers ->
                  Headers.lower name ≠ "origin") ->
   handler websocket request_headers path now samples fork before events w
     = (Raise KeyError, w)) ∧
  (∀ origin,
     Headers.values "Origin" request_headers = [origin] ->
     origin ∉ allowedOrigins w ->
     handler websocket request_headers path now samples fork before events w
       = (Ok tt, emit (Close websocket) w)).
Proof.
  split.
  - intros Habsent. unfold handler, Headers.getitem.
    rewrite (values_absent "Origin" request_headers Habsent). reflexivity.
  - intros origin Hone Hbad. unfold handler, Headers.getitem. rewrite Hone.
    munfold. rewrite bool_decide_eq_false_2 by done. reflexivity.
Qed.

End Origin.

Lemma handler_without_origin_witness :
  let hs := [("Host", "127.0.0.1:7700"); ("Upgrade", "websocket")] in
  let evil := [("Host", "127.0.0.1:7700"); ("origin", "http://evil.example")] in
  let events := [Got (Frame Demo.handshake_text)] in
  ((∀ name value, (name, value) ∈ hs -> Headers.lower name ≠ "origin") ∧
   Headers.values "Origin" evil = ["http://evil.example"] ∧
   "http://evil.example" ∉ allowedOrigins (init_world 9423)) ∧
  handler (decoder := Sample.loads) 1%nat hs "/term" 100 [] (Raise OSError) [] events
          (init_world 9423)
    = (Raise KeyError, init_world 9423) ∧
  handler (decoder := Sample.loads) 1%nat evil "/term" 100 [] (Raise OSError) [] events
          (init_world 9423)
    = (Ok tt, emit (Close 1%nat) (init_world 9423)).
Proof.
  intros hs evil events.
  assert (H1 : ∀ name value, (name, value) ∈ hs -> Headers.lower name ≠ "origin").
  { intros name value Hin. unfold hs in Hin.
    apply elem_of_cons in Hin as [[= -> _]|Hin]; [discriminate|].
    apply elem_of_cons in Hin as [[= -> _]|Hin]; [discriminate|].
    by apply elem_of_nil in Hin. }
  assert (H2 : Headers.values "Origin" evil = ["http://evil.example"]) by reflexivity.
  assert (H3 : "http://evil.example" ∉ allowedOrigins (init_world 9423)).
  { intros Hin. apply list_elem_of_In in Hin. vm_compute in Hin.
    repeat destruct Hin as [Hin|Hin]; try discriminate Hin; done. }
  split; [conj_hyps|]. split.
  - exact (proj1 (handler_without_origin (decoder := Sample.loads) 1%nat hs "/term" 100
                    [] (Raise OSError) [] events (init_world 9423)) H1).
  - exact (proj2 (handler_without_origin (decoder := Sample.loads) 1%nat evil "/term" 100
                    [] (Raise OSError) [] events (init_world 9423))
                 "http://evil.example" H2 H3).
Defined.

(** ** The vault on a concrete history *)

Lemma validateAccessKey_single_use_witness :
  let w := exec (generateAccessKey "a1" 50) (init_world 9423) in
  let later := [Issue "b2" 60; Consume (JStr "b2") 70; Consume (JArr []) 80] in
  (forallb (fun o => negb (issues "a1" o)) later = true ∧
   w = run_ops [] (exec (generateAccessKey "a1" 50) (init_world 9423)) ∧
   forallb (fun o => negb (issues "a1" o)) [] = true ∧
   50 + 3600 < 3651) ∧
  (∃ b w',
     validateAccessKey (JStr "a1") 100 w = (Ok b, w') ∧
     outcome (validateAccessKey (JStr "a1") 200) (run_ops later w') = Ok false) ∧
  (∃ b w', validateAccessKey (JStr "a1") 3651 w = (Ok b, w') ∧ b = false).
Proof.
  intros w later.
  assert (H1 : forallb (fun o => negb (issues "a1" o)) later = true) by reflexivity.
  assert (H2 : w = run_ops [] (exec (generateAccessKey "a1" 50) (init_world 9423)))
    by reflexivity.
  assert (H3 : forallb (fun o => negb (issues "a1" o)) [] = true) by reflexivity.
  assert (H4 : 50 + 3600 < 3651) by lia.
  split; [conj_hyps|]. split.
  - destruct (validateAccessKey_single_use "a1" 100 w) as (b & w' & Hrun & _ & _ & Hlater & _).
    exists b, w'. split; [exact Hrun|]. exact (Hlater later 200 H1).
  - destruct (validateAccessKey_single_use "a1" 3651 w) as (b & w' & Hrun & _ & _ & _ & Hlate).
    exists b, w'. split; [exact Hrun|]. exact (Hlate (init_world 9423) 50 [] H2 H3 H4).
Defined.

Example vault_replay :
  outcome (validateAccessKey (JStr "a1") 100)
          (exec (generateAccessKey "a1" 50) (init_world 9423)) = Ok true ∧
  outcome (validateAccessKey (JStr "a1") 101)
          (exec (validateAccessKey (JStr "a1") 100)
             (exec (generateAccessKey "a1" 50) (init_world 9423))) = Ok false ∧
  outcome (validateAccessKey (JStr "a1") 3650)
          (exec (generateAccessKey "a1" 50) (init_world 9423)) = Ok true ∧
  outcome (validateAccessKey (JStr "a1") 3651)
          (exec (generateAccessKey "a1" 50) (init_world 9423)) = Ok false.
Proof. vm_compute. done. Qed.

(** * Further properties of the code *)

(** ** Footprints of the methods *)

Section Footprint.
Context (I : World -> Prop) (He : emit_stable I).

Lemma fp_emits es : ∀ w, I w -> I (emits es w).
Proof.
  induction es as [|e es IH] using rev_ind; intros w Hw.
  - unfold emits. rewrite app_nil_r. by destruct w.
  - replace (emits (es ++ [e]) w) with (emit e (emits es w)).
    + apply He, IH, Hw.
    + unfold emits, emit. simpl. by rewrite app_assoc.
Qed.

Lemma fp_pushStateChange : keeps I pushStateChange.
Proof. intros w r w' Hw. rewrite pushStateChange_run. intros [= _ <-]. by apply fp_emits. Qed.

Lemma fp_send self d : keeps I (send self d).
Proof.
  unfold send, deref. apply keeps_bind; [apply keeps_gets|intros t].
  apply keeps_modify. intros w. apply He.
Qed.

Lemma fp_close websocket : keeps I (close websocket).
Proof. apply keeps_modify. intros w. apply He. Qed.

Lemma fp_pump_body self o : keeps I (pump_body self o).
Proof.
  intros w r w' Hw. rewrite pump_body_run. intros [= _ <-].
  destruct o; simpl; [by apply He|done..].
Qed.

Lemma fp_resizeTerminal self row col : keeps I (resizeTerminal self row col).
Proof.
  unfold resizeTerminal, deref.
  do 3 (apply keeps_bind; [first [apply keeps_lift|apply keeps_gets]|intros ?]).
  apply keeps_modify. intros w. apply He.
Qed.

Context (Hh : heap_stable I) (Ht : terminals_stable I).

Lemma fp_waitSubshell self : keeps I (waitSubshell self).
Proof.
  unfold waitSubshell, update, deref.
  apply keeps_bind; [apply keeps_modify; intros w; apply Hh|intros _].
  apply keeps_bind; [apply keeps_gets|intros t].
  apply keeps_bind; [apply keeps_gets|intros ts].
  apply keeps_bind; [|intros _; apply fp_pushStateChange].
  case_decide; [|apply keeps_raise]. apply keeps_modify. intros w. apply Ht.
Qed.

Lemma fp_act a w : I w -> I (act a w).
Proof.
  intros Hw. destruct a as [r|r o]; simpl.
  - destruct (open (heap w !!! r)); [|done].
    unfold exec. destruct (waitSubshell r w) as [res w'] eqn:E.
    eapply fp_waitSubshell; eauto.
  - unfold exec. destruct (pump_body r o w) as [res w'] eqn:E.
    eapply fp_pump_body; eauto.
Qed.

Lemma fp_meanwhile acts : keeps I (meanwhile acts).
Proof.
  unfold meanwhile. apply keeps_modify. intros w.
  apply keeps_foldl. intros w1 a. apply fp_act.
Qed.

Lemma fp_setNewConnection self websocket : keeps I (setNewConnection self websocket).
Proof.
  unfold setNewConnection, update.
  apply keeps_bind; [|intros _]; apply keeps_modify; intros w; apply Hh.
Qed.

Lemma fp_generateSessionID samples : keeps I (generateSessionID samples).
Proof.
  intros w r w' Hw Hrun. apply generateSessionID_pure in Hrun. by subst.
Qed.

Lemma fp_choose websocket config samples fork :
  keeps I (choose_terminal websocket config samples fork).
Proof.
  unfold choose_terminal.
  apply keeps_bind; [apply keeps_lift|intros has].
  destruct (negb has).
  { apply keeps_bind; [apply fp_close|intros _; apply keeps_ret]. }
  apply keeps_bind; [apply keeps_lift|intros sessionID].
  destruct (Py.eq_str sessionID "new").
  - apply keeps_bind; [apply fp_generateSessionID|intros sid].
    apply keeps_bind.
    + unfold new_Terminal. apply keeps_bind; [apply keeps_lift|intros [pid fd]].
      apply keeps_bind; [apply keeps_gets|intros self].
      apply keeps_bind; [apply keeps_modify; intros w; apply Hh|intros _; apply keeps_ret].
    + intros terminal.
      apply keeps_bind; [apply keeps_modify; intros w; apply Ht|intros _; apply keeps_ret].
  - apply keeps_bind; [apply keeps_lift|intros k].
    apply keeps_bind; [apply keeps_gets|intros ts].
    apply keeps_bind; [apply keeps_gets|intros h].
    destruct (k ≫= _) as [terminal|].
    + destruct (negb _).
      * apply keeps_bind; [apply fp_setNewConnection|intros _; apply keeps_ret].
      * apply keeps_bind; [apply fp_close|intros _; apply keeps_ret].
    + apply keeps_bind; [apply fp_close|intros _; apply keeps_ret].
Qed.

Context {decoder : JsonDecoder}.

Lemma fp_onClientInput self message : keeps I (onClientInput self message).
Proof.
  unfold onClientInput, deref.
  destruct message as [|c rest]; [apply keeps_ret|].
  destruct c as [[] [] [] [] [] [] [] []]; try apply keeps_ret.
  - apply keeps_bind; [apply keeps_gets|intros t].
    apply keeps_modify. intros w. apply He.
  - destruct (json_loads rest); [|apply keeps_raise].
    do 2 (apply keeps_bind; [apply keeps_lift|intros ?]).
    apply fp_resizeTerminal.
Qed.

Lemma fp_listen_loop self events :
  ∀ blocked, keeps I (listen_loop self blocked events).
Proof.
  induction events as [|ev events IH]; intros blocked; simpl;
    (apply keeps_bind; [apply keeps_gets|intros t]);
    (destruct (negb blocked && negb (open t)); [apply keeps_ret|]).
  - apply keeps_pending.
  - destruct ev as [[message|]|act0]; [| apply keeps_raise |].
    + apply keeps_bind; [apply fp_onClientInput|intros _; apply IH].
    + apply keeps_bind; [|intros _; apply IH].
      apply keeps_modify. intros w. apply fp_act.
Qed.

Lemma fp_listen self before events : keeps I (listen self before events).
Proof.
  unfold listen.
  apply keeps_bind; [apply fp_meanwhile|intros _].
  apply keeps_bind; [apply fp_pushStateChange|intros _].
  apply keeps_bind; [apply keeps_gets|intros t].
  apply keeps_bind; [apply fp_send|intros _].
  apply keeps_bind; [|intros _; apply fp_pushStateChange].
  apply keeps_try_except; [apply fp_listen_loop|].
  unfold update. apply keeps_modify. intros w. apply Hh.
Qed.

Lemma fp_terminalHandler websocket config samples fork before events :
  keeps I (terminalHandler websocket config samples fork before events).
Proof.
  unfold terminalHandler.
  apply keeps_bind; [apply fp_choose|intros [terminal|]].
  - apply fp_listen.
  - apply keeps_ret.
Qed.

Lemma fp_management_request websocket message :
  keeps I (management_request websocket message).
Proof.
  unfold management_request.
  destruct (json_loads message) as [request|]; [|apply keeps_ret].
  destruct (Py.getitem request "type") as [requestType|e|]; try apply keeps_ret.
  destruct (Py.eq_str requestType "poll").
  { apply keeps_bind; [apply keeps_gets|intros ?]. apply keeps_modify. intros w. apply He. }
  destruct (Py.eq_str requestType "kill"); [|apply keeps_ret].
  apply keeps_bind; [apply keeps_lift|intros has].
  destruct (negb has); [apply keeps_ret|].
  apply keeps_bind; [apply keeps_lift|intros sessionID].
  apply keeps_bind; [apply keeps_lift|intros k].
  apply keeps_bind; [apply keeps_gets|intros ts].
  apply keeps_bind; [apply keeps_gets|intros h].
  apply keeps_bind; [|intros ?; apply keeps_modify; intros w; apply He].
  destruct (k ≫= _) as [terminal|]; [|apply keeps_ret].
  destruct (open _); [|apply keeps_ret].
  apply keeps_bind; [apply keeps_modify; intros w; apply He|intros _; apply keeps_ret].
Qed.

Lemma fp_management_loop websocket events :
  keeps I (management_loop websocket events).
Proof.
  induction events as [|ev events IH]; simpl; [apply keeps_pending|].
  destruct ev as [[message|]|act0]; [| apply keeps_raise |].
  - apply keeps_bind; [apply fp_management_request|intros _; apply IH].
  - apply keeps_bind; [|intros _; apply IH].
    apply keeps_modify. intros w. apply fp_act.
Qed.

Lemma fp_managementHandler websocket config events :
  keeps I (managementHandler websocket config events).
Proof.
  unfold managementHandler.
  apply keeps_try_except; [apply fp_management_loop|apply keeps_ret].
Qed.

Lemma fp_first_recv events : keeps I (first_recv events).
Proof.
  induction events as [|ev events IH]; simpl; [apply keeps_pending|].
  destruct ev as [[message|]|act0]; [apply keeps_ret | apply keeps_raise |].
  apply keeps_bind; [|intros _; apply IH].
  apply keeps_modify. intros w. apply fp_act.
Qed.

End Footprint.

(** ** The handshake without a valid access key *)

Section Handshake.
Context {decoder : JsonDecoder}.

(** [validateAccessKey] accepts nothing but a str that is in the vault and
    not expired: with anything else it leaves the vault swept and returns
    [False] or raises [TypeError]. *)
Lemma validateAccessKey_refuses checkKey now w :
  ¬ (∃ k e, checkKey = JStr k ∧ accessKeys w !! k = Some e ∧ now <= e) ->
  ∃ r, validateAccessKey checkKey now w = (r, set_accessKeys (Vault.sweep now) w) ∧
       (r = Ok false ∨ r = Raise TypeError).
Proof.
  intros Hbad. unfold validateAccessKey. munfold. simpl.
  destruct (Py.dict_key checkKey) as [[k|]|e|] eqn:Hk; simpl.
  - destruct checkKey; simpl in Hk; try done. injection Hk as ->.
    case_decide as Hin; [|eauto].
    destruct Hin as [e He]. rewrite VaultFacts.lookup_sweep in He.
    destruct (accessKeys w !! k) as [e'|] eqn:Hw; [|done].
    case_decide; [done|]. destruct Hbad. exists k, e'. split; [done|]. split; [done|lia].
  - eauto.
  - destruct checkKey; simpl in Hk; try done; injection Hk as <-; eauto.
  - destruct checkKey; simpl in Hk; done.
Qed.

(** X1.  A handshake whose first frame does not carry a valid access key
    gets nothing: whatever the origin, the path and the rest of the
    frames, [handler] allocates no session, changes no session and no
    registry entry and subscribes nobody; the vault is at most swept of
    its expired keys; and either [handler] returns after it closed the
    connection, which is all it did, or it is left by an exception and
    did nothing at all. *)
Theorem handler_fail_closed (websocket : ws)
    (request_headers : list (string * string)) (path : string) (now : Z)
    (samples : list Hex.bytes4) (fork : res (Z * Z)) (before : list action)
    (configJSON : string) (rest : list (event recv)) (w : World)
    (r : res unit) (w' : World) :
  ¬ (∃ items k e,
       json_loads configJSON = Some (JObj items) ∧
       Py.assoc "accessKey" items = Some (JStr k) ∧
       accessKeys w !! k = Some e ∧ now <= e) ->
  handler websocket request_headers path now samples fork before
          (Got (Frame configJSON) :: rest) w = (r, w') ->
  heap w' = heap w ∧ terminals w' = terminals w ∧
  managementConnections w' = managementConnections w ∧
  (accessKeys w' = accessKeys w ∨ accessKeys w' = Vault.sweep now (accessKeys w)) ∧
  ((r = Ok tt ∧ trace w' = trace w ++ [Close websocket]) ∨
   (∃ e, r = Raise e ∧ trace w' = trace w)).
Proof.
  intros Hbad. unfold handler, close.
  destruct (Headers.getitem request_headers "Origin") as [origin|e|] eqn:Ho.
  2:{ munfold. intros [= <- <-]. repeat split; eauto. }
  2:{ unfold Headers.getitem in Ho. by destruct (Headers.values _ _) as [|? []]. }
  munfold. simpl.
  destruct (bool_decide (origin ∈ allowedOrigins w)); simpl.
  2:{ intros [= <- <-]. repeat split; eauto. }
  destruct (json_loads configJSON) as [config|] eqn:Hload.
  2:{ intros [= <- <-]. repeat split; eauto. }
  destruct (Py.contains "accessKey" config) as [has|e|] eqn:Hhas; simpl.
  2:{ intros [= <- <-]. repeat split; eauto. }
  2:{ by destruct config. }
  destruct has; simpl.
  2:{ intros [= <- <-]. repeat split; eauto. }
  destruct (Py.getitem config "accessKey") as [accessKey|e|] eqn:Hget; simpl.
  2:{ intros [= <- <-]. repeat split; eauto. }
  2:{ destruct config; simpl in Hget; try done. by destruct (Py.assoc _ _). }
  destruct (validateAccessKey_refuses accessKey now w) as (rv & Hv & Hrv).
  { intros (k & e & -> & Hk & He). apply Hbad.
    destruct config; simpl in Hget; try done.
    destruct (Py.assoc "accessKey" items) eqn:Ha; [|done].
    injection Hget as ->. eauto 10. }
  rewrite Hv. destruct Hrv as [-> | ->]; simpl; intros [= <- <-]; repeat split; eauto.
Qed.

End Handshake.

(** ** The footprint of [handler] and of the steps of the process *)

Section HandlerFootprint.
Context {decoder : JsonDecoder}.
Context (I : World -> Prop).
Context (He : emit_stable I) (Hh : heap_stable I) (Ht : terminals_stable I)
        (Hc : conns_stable I)
        (Hv : ∀ checkKey now, keeps I (validateAccessKey checkKey now)).

Lemma fp_forget websocket : keeps I (forget_management websocket).
Proof.
  unfold forget_management. apply keeps_bind; [apply keeps_gets|intros conns].
  case_decide; [|apply keeps_raise]. apply keeps_modify. intros w. apply Hc.
Qed.

Lemma fp_handler websocket request_headers path now samples fork before events :
  keeps I (handler websocket request_headers path now samples fork before events).
Proof.
  unfold handler.
  apply keeps_bind; [apply keeps_lift|intros origin].
  apply keeps_bind; [apply keeps_gets|intros allowed].
  destruct (negb _); [by apply fp_close|].
  apply keeps_bind; [by apply fp_first_recv|intros [configJSON rest]].
  destruct (json_loads configJSON) as [config|]; [|by apply fp_close].
  apply keeps_bind; [apply keeps_lift|intros has].
  apply keeps_bind.
  { destruct (negb has); [apply keeps_ret|].
    apply keeps_bind; [apply keeps_lift|intros ?]. apply Hv. }
  intros valid. destruct (negb valid); [by apply fp_close|].
  destruct (String.eqb path "/term"); [by apply fp_terminalHandler|].
  destruct (String.eqb path "/manage"); [|by apply fp_close].
  apply keeps_bind; [apply keeps_modify; intros w; apply Hc|intros _].
  apply keeps_bind; [by apply fp_managementHandler|intros _].
  apply fp_forget.
Qed.

Lemma fp_run_step s w :
  (∀ accessKey now, s = Render accessKey now ->
                    keeps I (generateAccessKey accessKey now)) ->
  I w -> I (run_step s w).
Proof.
  intros Hr Hw.
  destruct s as [websocket hs path now samples fork before events
                |self events|websocket events|a|accessKey now]; simpl.
  - unfold exec. destruct (handler _ _ _ _ _ _ _ _ w) as [r w'] eqn:E.
    eapply fp_handler; eauto.
  - unfold exec. destruct (listen_resume self events w) as [r w'] eqn:E.
    revert E. unfold listen_resume. intros E.
    eapply (keeps_bind I); [| |exact Hw|exact E].
    + apply keeps_try_except; [by apply fp_listen_loop|].
      unfold update. apply keeps_modify. intros w1. apply Hh.
    + intros ?. by apply fp_pushStateChange.
  - unfold exec. destruct (management_resume websocket events w) as [r w'] eqn:E.
    revert E. unfold management_resume. intros E.
    eapply (keeps_bind I); [| |exact Hw|exact E].
    + by apply fp_managementHandler.
    + intros ?. apply fp_forget.
  - by apply fp_act.
  - unfold exec. destruct (generateAccessKey accessKey now w) as [r w'] eqn:E.
    eapply Hr; eauto.
Qed.

End HandlerFootprint.

(** ** Replay of an access key *)

Section Replay.
Context {decoder : JsonDecoder}.

Lemma absent_validateAccessKey k checkKey now :
  keeps (fun w => accessKeys w !! k = None) (validateAccessKey checkKey now).
Proof.
  intros w r w' Hw.
  assert (Hs : Vault.sweep now (accessKeys w) !! k = None).
  { rewrite VaultFacts.lookup_sweep, Hw. done. }
  unfold validateAccessKey. munfold. simpl.
  destruct (Py.dict_key checkKey) as [[key|]|e|]; simpl.
  - case_decide; intros [= _ <-]; simpl; [|done].
    destruct (decide (key = k)) as [->|Hne];
      [apply lookup_delete_eq|by rewrite lookup_delete_ne].
  - by intros [= _ <-].
  - by intros [= _ <-].
  - by intros [= _ <-].
Qed.

Lemma absent_run_steps k steps :
  forallb (fun s => negb (renders k s)) steps = true ->
  ∀ w, accessKeys w !! k = None ->
       accessKeys (foldl (fun w s => run_step s w) w steps) !! k = None.
Proof.
  induction steps as [|s steps IH]; intros Hsteps w Hw; simpl; [done|].
  simpl in Hsteps. apply andb_true_iff in Hsteps as [Hs Hsteps].
  apply IH; [done|].
  apply (fp_run_step (fun w => accessKeys w !! k = None));
    [intros ? ? H; exact H..| | |exact Hw].
  - intros c t. apply absent_validateAccessKey.
  - intros accessKey t ->. simpl in Hs. apply negb_true_iff, String.eqb_neq in Hs.
    intros w1 r w1' Hw1. unfold generateAccessKey. munfold. intros [= _ <-]. simpl.
    by rewrite lookup_insert_ne.
Qed.

(** [handler] on a first frame that is an object with an [accessKey],
    from an allowed origin. *)
Lemma handler_object websocket request_headers path now samples fork before
    configJSON rest origin items accessKey w :
  Headers.getitem request_headers "Origin" = Ok origin ->
  origin ∈ allowedOrigins w ->
  json_loads configJSON = Some (JObj items) ->
  Py.assoc "accessKey" items = Some accessKey ->
  handler websocket request_headers path now samples fork before
          (Got (Frame configJSON) :: rest) w
    = (validateAccessKey accessKey now ≫= fun valid =>
         if negb valid then close websocket
         else if String.eqb path "/term" then
           terminalHandler websocket (JObj items) samples fork before rest
         else if String.eqb path "/manage" then
           modify (set_managementConnections (union {[websocket]})) ;;
           managementHandler websocket (JObj items) rest ;;
           forget_management websocket
         else close websocket) w.
Proof.
  intros Ho Hallowed Hload Hkey. unfold handler. rewrite Ho. munfold. simpl.
  rewrite bool_decide_eq_true_2 by done. simpl. rewrite Hload. simpl.
  unfold Py.getitem. rewrite Hkey. simpl.
  rewrite ?bool_decide_eq_true_2 by eauto. reflexivity.
Qed.

(** X2.  An access key opens one handshake.  After a handshake from an
    allowed origin presented the key [k], whatever its path and whatever
    followed on that connection, [k] is not in the vault, and it stays
    out through all the steps of the process as long as the content
    server does not issue [k] again.  A handshake that presents [k] then
    is refused: [handler] closes the connection or is left by an
    exception, and no session and no subscription is made or changed. *)
Theorem handshake_replay (k : string)
    (websocket : ws) (request_headers : list (string * string)) (path : string)
    (now : Z) (samples : list Hex.bytes4) (fork : res (Z * Z))
    (before : list action) (configJSON : string) (rest : list (event recv))
    (origin : string) (items : list (string * json))
    (steps : list step)
    (websocket2 : ws) (request_headers2 : list (string * string)) (path2 : string)
    (now2 : Z) (samples2 : list Hex.bytes4) (fork2 : res (Z * Z))
    (before2 : list action) (configJSON2 : string) (rest2 : list (event recv))
    (items2 : list (string * json))
    (w : World) :
  Headers.getitem request_headers "Origin" = Ok origin ->
  origin ∈ allowedOrigins w ->
  json_loads configJSON = Some (JObj items) ->
  Py.assoc "accessKey" items = Some (JStr k) ->
  forallb (fun s => negb (renders k s)) steps = true ->
  json_loads configJSON2 = Some (JObj items2) ->
  Py.assoc "accessKey" items2 = Some (JStr k) ->
  let w1 := exec (handler websocket request_headers path now samples fork before
                    (Got (Frame configJSON) :: rest)) w in
  let w2 := foldl (fun w s => run_step s w) w1 steps in
  let w3 := exec (handler websocket2 request_headers2 path2 now2 samples2 fork2
                    before2 (Got (Frame configJSON2) :: rest2)) w2 in
  accessKeys w1 !! k = None ∧
  accessKeys w2 !! k = None ∧
  heap w3 = heap w2 ∧ terminals w3 = terminals w2 ∧
  managementConnections w3 = managementConnections w2 ∧
  (trace w3 = trace w2 ∨ trace w3 = trace w2 ++ [Close websocket2]).
Proof.
  intros Ho Hallowed Hload Hkey Hsteps Hload2 Hkey2 w1 w2 w3.
  set (I := fun w : World => accessKeys w !! k = None).
  assert (Ie : emit_stable I) by (intros ? ? H; exact H).
  assert (Ih : heap_stable I) by (intros ? ? H; exact H).
  assert (It : terminals_stable I) by (intros ? ? H; exact H).
  assert (Ic : conns_stable I) by (intros ? ? H; exact H).
  assert (H1 : I w1).
  { unfold w1, exec.
    rewrite (handler_object _ _ _ _ _ _ _ _ _ origin items (JStr k)) by done.
    match goal with |- I (snd (?m w)) => destruct (m w) as [r w'] eqn:E end. simpl.
    apply bind_inv in E as [(valid & wv & Hv & E)|[(e & Hv & _)|[Hv _]]];
      rewrite validateAccessKey_str in Hv; try done.
    injection Hv as _ <-.
    assert (Hwv : I (set_accessKeys (fun keys => delete k (Vault.sweep now keys)) w))
      by apply lookup_delete_eq.
    revert E Hwv. generalize (set_accessKeys
      (fun keys => delete k (Vault.sweep now keys)) w). intros wv E Hwv.
    destruct (negb valid); [by eapply fp_close; eauto|].
    destruct (String.eqb path "/term"); [by eapply fp_terminalHandler; eauto|].
    destruct (String.eqb path "/manage"); [|by eapply fp_close; eauto].
    revert E. apply keeps_bind; [by apply keeps_modify|intros _|done].
    apply keeps_bind; [by apply fp_managementHandler|intros _; by apply fp_forget]. }
  assert (H2 : I w2) by by apply absent_run_steps.
  split; [exact H1|]. split; [exact H2|].
  unfold w3, exec, handler, close.
  destruct (Headers.getitem request_headers2 "Origin") as [origin2|e|]; [|by eauto..].
  munfold. simpl.
  destruct (bool_decide (origin2 ∈ allowedOrigins w2)); simpl; [|by eauto 10].
  rewrite Hload2. simpl. unfold Py.getitem. rewrite Hkey2. simpl.
  rewrite ?bool_decide_eq_true_2 by eauto. simpl.
  rewrite validateAccessKey_str.
  rewrite bool_decide_eq_false_2.
  2:{ rewrite VaultFacts.lookup_sweep. unfold I in H2. rewrite H2. by intros [? ?]. }
  simpl. eauto 10.
Qed.

End Replay.

(** ** The vault: what a validation removes, and the life of a key *)

Lemma validateAccessKey_keys checkKey now w :
  ∃ r, validateAccessKey checkKey now w
       = (r, set_accessKeys
               (fun keys => match Py.dict_key checkKey with
                            | Ok (Some key) => delete key (Vault.sweep now keys)
                            | _ => Vault.sweep now keys
                            end) w) ∧
       (r = Ok true ↔ ∃ key, checkKey = JStr key ∧
                             is_Some (Vault.sweep now (accessKeys w) !! key)).
Proof.
  unfold validateAccessKey. munfold. simpl.
  destruct checkKey as [| | | |key| |]; simpl;
    try (eexists; split; [reflexivity|]; split; [done|intros (? & ? & _); done]).
  case_decide as Hin.
  - eexists. split; [reflexivity|]. split; [eauto|done].
  - eexists. split.
    + unfold set_accessKeys. simpl. do 2 f_equal.
      rewrite delete_id; [done|]. by apply eq_None_not_Some.
    + split; [done|]. intros (key' & [= <-] & ?). done.
Qed.

(** X3.  [validateAccessKey] changes the vault only: it keeps no expired
    key, and of the keys that are not expired it removes at most one,
    the key it was given, and only when it accepts it.  It adds no
    key. *)
Theorem validateAccessKey_removes_only (checkKey : json) (now : Z) (w : World)
    (r : res bool) (w' : World) (k : string) (e : Z) :
  validateAccessKey checkKey now w = (r, w') ->
  (heap w' = heap w ∧ terminals w' = terminals w ∧
   managementConnections w' = managementConnections w ∧ trace w' = trace w) ∧
  (accessKeys w' !! k = Some e -> accessKeys w !! k = Some e ∧ now <= e) ∧
  (accessKeys w !! k = Some e -> now <= e ->
   accessKeys w' !! k = Some e ∨ (checkKey = JStr k ∧ r = Ok true)).
Proof.
  intros Hrun. destruct (validateAccessKey_keys checkKey now w) as (r0 & Heq & Hr).
  rewrite Heq in Hrun. injection Hrun as -> <-. split; [done|]. simpl.
  assert (Hs : ∀ key, Vault.sweep now (accessKeys w) !! key = Some e ↔
                      accessKeys w !! key = Some e ∧ now <= e).
  { intros key. rewrite VaultFacts.lookup_sweep.
    destruct (accessKeys w !! key) as [e'|]; [|naive_solver].
    case_decide; split; try naive_solver.
    - intros [[= ->] ?]. lia.
    - intros [= ->]. split; [done|lia]. }
  split.
  - destruct (Py.dict_key checkKey) as [[key|]|?|]; try apply Hs.
    intros Hk. apply lookup_delete_Some in Hk as [_ Hk]. by apply Hs.
  - intros Hk Hle.
    destruct checkKey as [| | | |key| |]; simpl; try (left; by apply Hs).
    destruct (decide (key = k)) as [->|Hne].
    + right. split; [done|]. apply Hr. exists k. split; [done|].
      exists e. by apply Hs.
    + left. rewrite lookup_delete_ne by done. by apply Hs.
Qed.

Lemma vault_step_keeps k e o w :
  touches k o = false -> sweeps_after e o = false ->
  accessKeys w !! k = Some e ->
  accessKeys (vault_step o w) !! k = Some e.
Proof.
  destruct o as [key t|c t]; simpl; intros Hk Ht Hw.
  - unfold generateAccessKey. munfold. simpl.
    apply String.eqb_neq in Hk. by rewrite lookup_insert_ne.
  - apply Z.ltb_ge in Ht.
    destruct (validateAccessKey_keys c t w) as (r & Heq & _).
    unfold exec. rewrite Heq. simpl.
    assert (Hs : Vault.sweep t (accessKeys w) !! k = Some e).
    { rewrite VaultFacts.lookup_sweep, Hw. case_decide; [lia|done]. }
    destruct c as [| | | |key| |]; simpl; try done.
    simpl in Hk. apply String.eqb_neq in Hk. by rewrite lookup_delete_ne.
Qed.

(** X4.  A key that the content server issued at [t0] is accepted by the
    first handshake that presents it up to [t0 + 3600] included, whatever
    other keys were issued and validated in between, provided the vault
    was not swept after [t0 + 3600]. *)
Theorem issued_key_accepted (k : string) (t0 now : Z) (ops : list vault_op)
    (w0 : World) :
  forallb (fun o => negb (touches k o) && negb (sweeps_after (t0 + 3600) o)) ops
    = true ->
  now <= t0 + 3600 ->
  outcome (validateAccessKey (JStr k) now)
          (run_ops ops (exec (generateAccessKey k t0) w0)) = Ok true.
Proof.
  intros Hops Hnow.
  assert (Hk : accessKeys (run_ops ops (exec (generateAccessKey k t0) w0)) !! k
               = Some (t0 + 3600)).
  { assert (H0 : accessKeys (exec (generateAccessKey k t0) w0) !! k = Some (t0 + 3600)).
    { unfold generateAccessKey. munfold. simpl. apply lookup_insert_eq. }
    revert H0. generalize (exec (generateAccessKey k t0) w0).
    unfold run_ops. induction ops as [|o ops IH]; intros w Hw; simpl; [done|].
    simpl in Hops. apply andb_true_iff in Hops as [Ho Hops].
    apply andb_true_iff in Ho as [Ho1 Ho2].
    apply negb_true_iff in Ho1. apply negb_true_iff in Ho2.
    apply IH; [done|]. by apply vault_step_keeps. }
  unfold outcome. rewrite validateAccessKey_str. simpl. f_equal.
  apply bool_decide_eq_true_2. rewrite VaultFacts.lookup_sweep, Hk.
  case_decide; [lia|eauto].
Qed.

(** ** The list of sessions and its broadcast *)

Lemma frames_to_sends p d (l : list ws) :
  NoDup l ->
  frames_to p (map (fun c => Send c d) l) = if decide (p ∈ l) then [d] else [].
Proof.
  induction 1 as [|c l Hc Hl IH].
  - destruct (decide (p ∈ [])) as [Hin|_]; [by apply elem_of_nil in Hin|done].
  - cbn [map frames_to omap list_omap]. fold (frames_to p (map (fun c => Send c d) l)).
    rewrite IH.
    destruct (decide (c = p)) as [->|Hne].
    + rewrite (decide_True (P := p ∈ p :: l)) by set_solver.
      by rewrite decide_False.
    + destruct (decide (p ∈ l)).
      * by rewrite (decide_True (P := p ∈ c :: l)) by set_solver.
      * by rewrite (decide_False (P := p ∈ c :: l)) by set_solver.
Qed.

(** X5.  [pushStateChange] changes nothing in the state.  It sends one
    frame to each management connection and nothing to anybody else, and
    the frame is the answer that a poll would get in that state. *)
Theorem pushStateChange_broadcast (w : World) (p : ws) :
  ∃ w',
    pushStateChange w = (Ok tt, w') ∧
    heap w' = heap w ∧ terminals w' = terminals w ∧
    accessKeys w' = accessKeys w ∧
    managementConnections w' = managementConnections w ∧
    length (since w w') = size (managementConnections w) ∧
    frames_to p (since w w')
      = if decide (p ∈ managementConnections w)
        then [Dumps (poll_response w)] else [].
Proof.
  eexists. split; [apply pushStateChange_run|]. repeat (split; [done|]).
  rewrite (since_app _ _ (broadcast (poll_response w) (managementConnections w)))
    by done.
  unfold broadcast. split.
  - by rewrite length_map.
  - rewrite frames_to_sends by apply NoDup_elements.
    destruct (decide (p ∈ managementConnections w)) as [Hin|Hout].
    + by rewrite decide_True by by apply elem_of_elements.
    + by rewrite decide_False by by rewrite elem_of_elements.
Qed.

(** X6.  The list that a poll and a broadcast carry has one entry for
    each registered session whose shell is open, with the [connected]
    flag of that session, and nothing else; no entry comes twice. *)
Theorem snapshot_exact (w : World) (j : json) :
  (j ∈ snapshot w ↔
   ∃ sid r, terminals w !! sid = Some r ∧ open (heap w !!! r) = true ∧
            j = JObj [("sessionID", JStr sid);
                      ("connected", JBool (connected (heap w !!! r)))]) ∧
  NoDup (snapshot w).
Proof.
  split.
  - unfold snapshot. rewrite list_elem_of_omap. split.
    + intros ([sid r] & Hin & Hf). apply elem_of_map_to_list in Hin. cbv zeta in Hf.
      destruct (open (heap w !!! r)) eqn:Hopen; [|done].
      injection Hf as <-. eauto 10.
    + intros (sid & r & Hreg & Hopen & ->). exists (sid, r). split.
      * by apply elem_of_map_to_list.
      * by rewrite Hopen.
  - unfold snapshot.
    assert (Hkeys : NoDup (map_to_list (terminals w)).*1) by apply NoDup_fst_map_to_list.
    revert Hkeys. generalize (map_to_list (terminals w)).
    induction l as [|[sid r] l IH]; intros Hnd; simpl; [constructor|].
    apply NoDup_cons in Hnd as [Hsid Hnd].
    destruct (open (heap w !!! r)); [|by apply IH].
    apply NoDup_cons. split; [|by apply IH].
    intros Hin. apply list_elem_of_omap in Hin as ([sid' r'] & Hin & Hf).
    cbv zeta in Hf. destruct (open (heap w !!! r')); [|done].
    unfold entry in Hf. injection Hf as -> _.
    apply Hsid. apply list_elem_of_fmap. by exists (sid, r').
Qed.

(** ** Requests on the management channel *)

Section ManagementRequests.
Context {decoder : JsonDecoder}.

(** X7.  A poll is answered to the connection that asked, with the list
    of that state, and changes nothing else; so a second poll right after
    gets the same answer, which is also what a broadcast would send. *)
Theorem poll_twice (websocket : ws) (message : string)
    (items : list (string * json)) (rest : list (event recv)) (w : World) :
  json_loads message = Some (JObj items) ->
  Py.assoc "type" items = Some (JStr "poll") ->
  management_request websocket message w
    = (Ok tt, emit (Send websocket (Dumps (poll_response w))) w) ∧
  management_loop websocket (Got (Frame message) :: Got (Frame message) :: rest) w
    = management_loop websocket rest
        (emit (Send websocket (Dumps (poll_response w)))
           (emit (Send websocket (Dumps (poll_response w))) w)) ∧
  broadcast (poll_response w) {[websocket]}
    = [Send websocket (Dumps (poll_response w))].
Proof.
  intros Hload Htype.
  assert (Hreq : ∀ w1, management_request websocket message w1
                       = (Ok tt, emit (Send websocket (Dumps (poll_response w1))) w1)).
  { intros w1. unfold management_request. rewrite Hload. unfold Py.getitem.
    rewrite Htype. reflexivity. }
  split; [apply Hreq|]. split.
  - simpl. munfold. rewrite !Hreq. reflexivity.
  - unfold broadcast. by rewrite elements_singleton.
Qed.

(** X8.  A frame that is not JSON, a value without a [type] (or that is
    not an object), a [type] other than [poll] and [kill], and a [kill]
    without [sessionID] are skipped: nothing is sent, nothing changes and
    the handler goes back to [recv]. *)
Theorem management_skips (websocket : ws) (message : string)
    (rest : list (event recv)) (w : World) :
  json_loads message = None ∨
  (∃ request e, json_loads message = Some request ∧
                Py.getitem request "type" = Raise e) ∨
  (∃ request requestType,
     json_loads message = Some request ∧
     Py.getitem request "type" = Ok requestType ∧
     Py.eq_str requestType "poll" = false ∧
     Py.eq_str requestType "kill" = false) ∨
  (∃ items, json_loads message = Some (JObj items) ∧
            Py.assoc "type" items = Some (JStr "kill") ∧
            Py.assoc "sessionID" items = None) ->
  management_request websocket message w = (Ok tt, w) ∧
  management_loop websocket (Got (Frame message) :: rest) w
    = management_loop websocket rest w.
Proof.
  intros Hcase.
  assert (Hreq : management_request websocket message w = (Ok tt, w)).
  { unfold management_request.
    destruct Hcase as [->|[(request & e & -> & ->)|[(request & ty & -> & -> & -> & ->)
                      |(items & -> & Htype & Hsid)]]]; try reflexivity.
    unfold Py.getitem, Py.contains. rewrite Htype, Hsid. simpl.
    rewrite ?bool_decide_eq_false_2 by (by intros [? ?]). reflexivity. }
  split; [exact Hreq|]. simpl. munfold. by rewrite Hreq.
Qed.

(** X9.  Whatever the frame, a request on the management channel changes
    no session, no registry entry, no access key and no subscription.
    What it sends goes to the connection that asked, and the only signal
    it sends is to the shell of a registered session that is open. *)
Theorem management_request_footprint (websocket : ws) (message : string)
    (w : World) (r : res unit) (w' : World) :
  management_request websocket message w = (r, w') ->
  heap w' = heap w ∧ terminals w' = terminals w ∧
  accessKeys w' = accessKeys w ∧
  managementConnections w' = managementConnections w ∧
  ∃ ext, trace w' = trace w ++ ext ∧
         Forall (fun e =>
                   (∃ d, e = Send websocket d) ∨
                   (∃ sid t, terminals w !! sid = Some t ∧
                             open (heap w !!! t) = true ∧
                             e = Kill (subshellPID (heap w !!! t)))) ext.
Proof.
  unfold management_request.
  assert (Hnone : ∀ r0, (r0, w) = (r, w') ->
            heap w' = heap w ∧ terminals w' = terminals w ∧
            accessKeys w' = accessKeys w ∧
            managementConnections w' = managementConnections w ∧
            ∃ ext, trace w' = trace w ++ ext ∧
                   Forall (fun e =>
                     (∃ d, e = Send websocket d) ∨
                     (∃ sid t, terminals w !! sid = Some t ∧
                               open (heap w !!! t) = true ∧
                               e = Kill (subshellPID (heap w !!! t)))) ext).
  { intros r0 [= _ <-]. repeat (split; [done|]). exists []. by rewrite app_nil_r. }
  destruct (json_loads message) as [request|]; [|apply Hnone].
  destruct (Py.getitem request "type") as [requestType|e|]; try apply Hnone.
  destruct (Py.eq_str requestType "poll").
  { munfold. intros [= _ <-]. repeat (split; [done|]). eexists. split; [done|].
    repeat constructor. eauto. }
  destruct (Py.eq_str requestType "kill"); [|apply Hnone].
  munfold.
  destruct (Py.contains "sessionID" request) as [has|e|]; simpl; try apply Hnone.
  destruct has; simpl; [|apply Hnone].
  destruct (Py.getitem request "sessionID") as [sessionID|e|]; simpl; try apply Hnone.
  destruct (Py.dict_key sessionID) as [[key|]|e|]; simpl; try apply Hnone.
  - destruct (terminals w !! key) as [t|] eqn:Hreg; simpl.
    + destruct (open (heap w !!! t)) eqn:Hopen; simpl.
      * intros [= _ <-]. repeat (split; [done|]). simpl.
        exists [Kill (subshellPID (heap w !!! t)); Send websocket
                  (Dumps (kill_response "success" sessionID []))].
        split; [by rewrite <- app_assoc|].
        apply Forall_cons. split; [right; eauto 10|].
        apply Forall_cons. split; [left; eauto|constructor].
      * intros [= _ <-]. repeat (split; [done|]). eexists. split; [done|].
        repeat constructor. eauto.
    + intros [= _ <-]. repeat (split; [done|]). eexists. split; [done|].
      repeat constructor. eauto.
  - intros [= _ <-]. repeat (split; [done|]). eexists. split; [done|].
    repeat constructor. eauto.
Qed.

End ManagementRequests.

(** ** Frames of the terminal channel *)

Section TerminalFrames.
Context {decoder : JsonDecoder}.

(** X10.  A resize frame that cannot be acted upon raises and leaves the
    pty alone: [JSONDecodeError] when the text after [r] is not JSON,
    [TypeError] when it is not an object, [KeyError] when [rows] or
    [cols] is missing, [struct.error] when one of them is not an integer
    (a str, a float, null, a list, an object).  Nothing is written to the
    trace in any of these cases. *)
Theorem resize_bad_payload (self : ref) (payload : string) (w : World) :
  (json_loads payload = None ->
   onClientInput self (String "r" payload) w = (Raise JSONDecodeError, w)) ∧
  (∀ d, json_loads payload = Some d -> (∀ items, d ≠ JObj items) ->
        onClientInput self (String "r" payload) w = (Raise TypeError, w)) ∧
  (∀ items, json_loads payload = Some (JObj items) ->
            Py.assoc "rows" items = None ∨ Py.assoc "cols" items = None ->
            onClientInput self (String "r" payload) w = (Raise KeyError, w)) ∧
  (∀ items row col,
     json_loads payload = Some (JObj items) ->
     Py.assoc "rows" items = Some row -> Py.assoc "cols" items = Some col ->
     (∀ z, row ≠ JInt z) ∧ (∀ b, row ≠ JBool b) ∨
     (∀ z, col ≠ JInt z) ∧ (∀ b, col ≠ JBool b) ->
     onClientInput self (String "r" payload) w = (Raise StructError, w)).
Proof.
  unfold onClientInput. split; [|split; [|split]].
  - intros ->. reflexivity.
  - intros d -> Hd. destruct d; try reflexivity. by destruct (Hd items).
  - intros items -> Hmiss. unfold Py.getitem. munfold. simpl.
    destruct (Py.assoc "rows" items); [|done].
    destruct Hmiss as [?| ->]; done.
  - intros items row col -> Hrow Hcol Hbad. unfold Py.getitem.
    rewrite Hrow, Hcol. munfold. simpl. fold (lift (Ok row)).
    change (resizeTerminal self row col w = (Raise StructError, w)).
    apply resizeTerminal_not_int.
    destruct Hbad as [[Hz Hb]|[Hz Hb]]; [left; destruct row|right; destruct col];
      try reflexivity; first [by destruct (Hz z)|by destruct (Hb b)].
Qed.

Lemma listen_loop_keys self payloads :
  ∀ w, open (heap w !!! self) = true ->
       listen_loop self false (frames (map (String "k") payloads)) w
         = (Pending, emits (map (PtyWrite (ttyFd (heap w !!! self))) payloads) w).
Proof.
  induction payloads as [|p payloads IH]; intros w Hopen; simpl;
    unfold deref; munfold; rewrite Hopen; simpl.
  - unfold emits. rewrite app_nil_r. by destruct w.
  - rewrite IH by done. unfold emits, emit. simpl. by rewrite <- app_assoc.
Qed.

(** X11.  The keystroke frames received while the shell is open are
    written to the pty of the session, payload by payload, unchanged and
    in the order received; nothing else happens and [listen] goes on
    waiting. *)
Theorem keystrokes_in_order (self : ref) (payloads : list string) (w : World) :
  open (heap w !!! self) = true ->
  listen_loop self false (frames (map (String "k") payloads)) w
    = (Pending, emits (map (PtyWrite (ttyFd (heap w !!! self))) payloads) w) ∧
  since w (exec (listen_loop self false (frames (map (String "k") payloads))) w)
    = map (PtyWrite (ttyFd (heap w !!! self))) payloads.
Proof.
  intros Hopen. split; [by apply listen_loop_keys|].
  unfold exec. rewrite listen_loop_keys by done. by apply since_app.
Qed.

End TerminalFrames.

(** ** Reattaching and the output of the pty *)

(** X12.  [setNewConnection] changes the websocket and the [connected]
    flag of its session and nothing else; from then on a chunk of output
    goes to the new websocket, and to the new one only. *)
Theorem reattach_redirects_output (self : ref) (t : Terminal) (p : ws)
    (s : string) (w : World) :
  heap w !! self = Some t ->
  let w1 := exec (setNewConnection self p) w in
  heap w1 = <[self := mkTerminal (sessionID t) p (open t) true
                                 (subshellPID t) (ttyFd t)]> (heap w) ∧
  terminals w1 = terminals w ∧ trace w1 = trace w ∧
  pump_body self (ReadText s) w1 = (Ok tt, emit (Send p (Text s)) w1) ∧
  (websocket t ≠ p ->
   frames_to (websocket t) (trace (exec (pump_body self (ReadText s)) w1))
     = frames_to (websocket t) (trace w)).
Proof.
  intros Hself w1.
  assert (Hw1 : w1 = set_heap <[self := mkTerminal (sessionID t) p (open t) true
                                          (subshellPID t) (ttyFd t)]> w).
  { unfold w1, exec. by rewrite (setNewConnection_fields _ _ _ t). }
  clearbody w1. subst w1.
  assert (Hpump : ∀ w1, heap w1 !!! self = mkTerminal (sessionID t) p (open t) true
                                             (subshellPID t) (ttyFd t) ->
            pump_body self (ReadText s) w1 = (Ok tt, emit (Send p (Text s)) w1)).
  { intros w1 Hw1. rewrite pump_body_run. unfold pumped_world. by rewrite Hw1. }
  split; [done|]. split; [done|]. split; [done|].
  split; [apply Hpump; simpl; apply lookup_total_insert_eq|].
  intros Hne. unfold exec. rewrite Hpump by (simpl; apply lookup_total_insert_eq).
  simpl. rewrite frames_to_app. simpl.
  rewrite decide_False by done. by rewrite app_nil_r.
Qed.

Lemma frames_act_stranger p a w :
  (∀ r, websocket (heap w !!! r) ≠ p) ->
  p ∉ managementConnections w ->
  ∃ ext, trace (act a w) = trace w ++ ext ∧ frames_to p ext = [].
Proof.
  intros Hnone Hconns. destruct a as [r|r o]; simpl.
  - destruct (open (heap w !!! r)); [|exists []; by rewrite app_nil_r].
    unfold exec, waitSubshell, update, deref. munfold. simpl.
    case_decide.
    + rewrite pushStateChange_run. simpl. eexists. split; [done|].
      by apply frames_to_broadcast.
    + simpl. exists []. by rewrite app_nil_r.
  - unfold exec. rewrite pump_body_run.
    destruct o as [s| |]; simpl; try (exists []; by rewrite app_nil_r).
    eexists. split; [done|]. simpl. rewrite decide_False; [done|]. apply Hnone.
Qed.

(** X13.  The threads send nothing to a websocket that no session holds
    and that is not a management connection, whatever they pump and reap.
    So what a session prints while its peer is away goes to the websocket
    it still holds; it is not kept for the peer that attaches next. *)
Theorem strangers_get_nothing (p : ws) (acts : list action) (w : World) :
  (∀ r, websocket (heap w !!! r) ≠ p) ->
  p ∉ managementConnections w ->
  frames_to p (trace (exec (meanwhile acts) w)) = frames_to p (trace w).
Proof.
  unfold meanwhile, exec, modify; simpl. revert w.
  induction acts as [|a acts IH]; intros w Hnone Hconns; simpl; [done|].
  destruct (frames_act_stranger p a w Hnone Hconns) as (ext & Htr & Hext).
  assert (S : steady (fun _ => True) (fun _ => False) w (act a w)).
  { apply steady_act; [done|apply steady_refl]. }
  rewrite IH.
  - by rewrite Htr, frames_to_app, Hext, app_nil_r.
  - intros r. rewrite (steady_websocket _ _ _ _ S). apply Hnone.
  - by rewrite (steady_conns _ _ _ _ S).
Qed.

(** ** Detaching, reattaching and reaping *)

Lemma hex_id_not_new sid : String.length sid = 8%nat -> sid ≠ "new".
Proof. intros Hlen ->. discriminate Hlen. Qed.

Section Detach.
Context {decoder : JsonDecoder}.

(** How [listen] ends and what it does to [connected]. *)
Lemma listen_cases self before events w r w' :
  listen self before events w = (r, w') ->
  (r = Ok tt ∧ (connected (heap w' !!! self) = false ∨
                open (heap w' !!! self) = false)) ∨
  (r ≠ Ok tt ∧ connected (heap w' !!! self) = connected (heap w !!! self)).
Proof.
  intros Hrun. rewrite listen_unfold in Hrun. cbv zeta in Hrun.
  set (w1 := exec (meanwhile before) w) in *.
  set (w2 := exec pushStateChange w1) in *.
  assert (S1 : steady (fun _ => True) (fun _ => False) w w1).
  { apply (keeps_rel (steady (fun _ => True) (fun _ => False))
                     (meanwhile before) w (Ok tt));
      [apply steady_refl|by apply steady_meanwhile|reflexivity]. }
  assert (S2 : steady (fun _ => True) (fun _ => False) w w2).
  { eapply steady_trans; [exact S1|].
    apply (keeps_rel (steady (fun _ => True) (fun _ => False)) pushStateChange w1 (Ok tt));
      [apply steady_refl|apply steady_pushStateChange|].
    unfold w2, exec. by rewrite pushStateChange_run. }
  revert Hrun.
  set (w3 := emit _ w2).
  assert (S3 : steady (fun _ => True) (fun _ => False) w w3).
  { eapply steady_trans; [exact S2|]. by apply steady_emit. }
  clearbody w3. clear w1 w2 S1 S2. intros Hrun.
  apply bind_inv in Hrun as [([] & w4 & H4 & Hrun)|[(e & H4 & ->)|[H4 ->]]].
  - rewrite pushStateChange_run in Hrun. injection Hrun as <- <-. left.
    split; [done|]. simpl.
    unfold try_except in H4.
    destruct (listen_loop self false events w3) as [[[]|e|] w3'] eqn:Hloop.
    + injection H4 as <-. right. by apply listen_loop_ok in Hloop.
    + case_decide; [|done]. unfold update, modify in H4. injection H4 as <-. simpl.
      left. rewrite lookup_total_alter_eq. by destruct (heap w3' !! self).
    + done.
  - right. split; [done|]. unfold try_except in H4.
    destruct (listen_loop self false events w3) as [[[]|e'|] w3'] eqn:Hloop; [done| |done].
    case_decide; [done|]. injection H4 as -> ->.
    assert (S4 : steady (fun _ => True) (fun _ => False) w w').
    { eapply steady_listen_loop; [|exact S3|exact Hloop]. done. }
    apply (steady_connected _ _ _ _ S4). auto.
  - right. split; [done|]. unfold try_except in H4.
    destruct (listen_loop self false events w3) as [[[]|e'|] w3'] eqn:Hloop; [done| |].
    { case_decide; done. }
    injection H4 as ->.
    assert (S4 : steady (fun _ => True) (fun _ => False) w w').
    { eapply steady_listen_loop; [|exact S3|exact Hloop]. done. }
    apply (steady_connected _ _ _ _ S4). auto.
Qed.


(** X15.  As long as [listen] has not returned, and also when it was left
    by an exception of [onClientInput], the session stays marked
    connected: a handshake that asks for its id is closed and changes
    nothing. *)
Theorem busy_session_refuses (self : ref) (t : Terminal) (before : list action)
    (events : list (event recv)) (w : World) (r : res unit) (w' : World)
    (id : string) (p : ws) (items : list (string * json))
    (samples : list Hex.bytes4) (fork : res (Z * Z)) :
  heap w !! self = Some t ->
  connected t = true ->
  listen self before events w = (r, w') ->
  r ≠ Ok tt ->
  terminals w' !! id = Some self ->
  id ≠ "new" ->
  Py.assoc "sessionID" items = Some (JStr id) ->
  connected (heap w' !!! self) = true ∧
  choose_terminal p (JObj items) samples fork w' = (Ok None, emit (Close p) w').
Proof.
  intros Hself Hconn Hrun Hr Hreg Hne Hid.
  assert (Hc : connected (heap w' !!! self) = true).
  { destruct (listen_cases _ _ _ _ _ _ Hrun) as [[? _]|[_ H]]; [done|].
    rewrite H. by rewrite (lookup_total_correct _ _ _ Hself). }
  split; [exact Hc|].
  unfold choose_terminal, Py.contains, Py.getitem. rewrite Hid.
  rewrite bool_decide_eq_true_2 by eauto. simpl.
  apply String.eqb_neq in Hne. munfold. simpl. rewrite Hne. simpl.
  rewrite Hreg, Hc. reflexivity.
Qed.

End Detach.

Lemma act_reap_run r sid w :
  registry_ok w ->
  terminals w !! sid = Some r ->
  act (Reap r) w
    = emits (broadcast
               (poll_response (set_terminals (delete sid)
                                 (set_heap (alter (set_open false) r) w)))
               (managementConnections w))
            (set_terminals (delete sid) (set_heap (alter (set_open false) r) w)).
Proof.
  intros Hok Hreg.
  destruct (registered_open _ Hok _ _ Hreg) as (t & Ht & Hsid & Hopen).
  simpl. rewrite (lookup_total_correct _ _ _ Ht), Hopen.
  unfold exec, waitSubshell, update, deref. munfold. simpl.
  rewrite lookup_total_alter_eq, Ht. simpl. rewrite Hsid.
  rewrite decide_True by eauto. by rewrite pushStateChange_run.
Qed.

(** X16.  Once the wait thread of a registered session has run, the
    session is out of the registry and its shell is marked closed, while
    every other session and every other registry entry is as before; a
    handshake that asks for the id of the reaped session is closed. *)
Theorem reaped_session_gone (r : ref) (sid : string) (w : World)
    (p : ws) (items : list (string * json)) (samples : list Hex.bytes4)
    (fork : res (Z * Z)) :
  registry_ok w ->
  terminals w !! sid = Some r ->
  Py.assoc "sessionID" items = Some (JStr sid) ->
  let w' := act (Reap r) w in
  terminals w' = delete sid (terminals w) ∧
  open (heap w' !!! r) = false ∧
  (∀ r', r' ≠ r -> heap w' !! r' = heap w !! r') ∧
  registry_ok w' ∧
  choose_terminal p (JObj items) samples fork w' = (Ok None, emit (Close p) w').
Proof.
  intros Hok Hreg Hid w'.
  assert (Hw' : w' = emits (broadcast
                       (poll_response (set_terminals (delete sid)
                                         (set_heap (alter (set_open false) r) w)))
                       (managementConnections w))
                    (set_terminals (delete sid) (set_heap (alter (set_open false) r) w)))
    by by apply act_reap_run.
  assert (Hgone : terminals w' = delete sid (terminals w)) by by rewrite Hw'.
  split; [exact Hgone|]. split; [apply act_reap_closed|]. split.
  { intros r' Hne. rewrite Hw'. simpl. by rewrite lookup_alter_ne. }
  split; [by apply registry_ok_act|].
  assert (Hne : sid ≠ "new").
  { apply hex_id_not_new. by destruct (registered_hex _ Hok _ _ Hreg). }
  unfold choose_terminal, Py.contains, Py.getitem. rewrite Hid.
  rewrite bool_decide_eq_true_2 by eauto. simpl.
  apply String.eqb_neq in Hne. munfold. simpl. rewrite Hne. simpl.
  rewrite Hgone, lookup_delete_eq. reflexivity.
Qed.

(** ** Management subscriptions, origins and spawning *)

Section Subscription.
Context {decoder : JsonDecoder}.

(** X17.  A handshake on [/manage] with a valid key subscribes the
    connection for as long as [managementHandler] runs.  When the peer
    goes away the handler returns and the connection is taken out of the
    set; when the handler is still waiting, or was left by an exception,
    the connection is in the set.  No other subscription changes. *)
Theorem management_subscription (websocket : ws)
    (request_headers : list (string * string)) (now : Z)
    (samples : list Hex.bytes4) (fork : res (Z * Z)) (before : list action)
    (configJSON : string) (rest : list (event recv)) (origin : string)
    (items : list (string * json)) (k : string) (e : Z)
    (w : World) (r : res unit) (w' : World) :
  Headers.getitem request_headers "Origin" = Ok origin ->
  origin ∈ allowedOrigins w ->
  json_loads configJSON = Some (JObj items) ->
  Py.assoc "accessKey" items = Some (JStr k) ->
  accessKeys w !! k = Some e -> now <= e ->
  handler websocket request_headers "/manage" now samples fork before
          (Got (Frame configJSON) :: rest) w = (r, w') ->
  (r = Ok tt -> managementConnections w' = managementConnections w ∖ {[websocket]}) ∧
  (r ≠ Ok tt -> managementConnections w' = {[websocket]} ∪ managementConnections w).
Proof.
  intros Ho Hallowed Hload Hkey Hk Hle Hrun.
  rewrite (handler_object _ _ _ _ _ _ _ _ _ origin items (JStr k)) in Hrun by done.
  apply bind_inv in Hrun as [(valid & wv & Hv & Hrun)|[(e' & Hv & _)|[Hv _]]];
    rewrite validateAccessKey_str in Hv; try done.
  injection Hv as <- <-.
  rewrite bool_decide_eq_true_2 in Hrun.
  2:{ rewrite VaultFacts.lookup_sweep, Hk. case_decide; [lia|eauto]. }
  simpl in Hrun.
  set (wv := set_accessKeys _ w) in Hrun.
  set (C := {[websocket]} ∪ managementConnections w).
  apply bind_inv in Hrun as [([] & w1 & H1 & Hrun)|[(e' & H1 & _)|[H1 _]]]; [|done..].
  unfold modify in H1. injection H1 as <-.
  set (I := fun w0 : World => managementConnections w0 = C).
  assert (I1 : I (set_managementConnections (union {[websocket]}) wv)) by done.
  apply bind_inv in Hrun as [([] & w2 & H2 & Hrun)|[(e' & H2 & ->)|[H2 ->]]].
  - assert (I2 : I w2).
    { eapply (fp_managementHandler I); [by intros ? ? H..|exact I1|exact H2]. }
    unfold forget_management in Hrun. munfold. rewrite I2 in Hrun.
    rewrite decide_True in Hrun by (unfold C; set_solver).
    injection Hrun as <- <-. split; [|done]. intros _. simpl.
    unfold C. set_solver.
  - split; [done|]. intros _.
    eapply (fp_managementHandler I); [by intros ? ? H..|exact I1|exact H2].
  - split; [done|]. intros _.
    eapply (fp_managementHandler I); [by intros ? ? H..|exact I1|exact H2].
Qed.

Lemma reachable_allowedOrigins port :
  ∀ w, reachable port w -> allowedOrigins w = origins_of port.
Proof.
  intros w0 H. induction H as [|w s Hw IH]; [done|].
  apply (fp_run_step (fun w => allowedOrigins w = origins_of port));
    try (intros ? ? H; exact H); [| |exact IH].
  - intros c t w1 r w1' Hw1 Hrun.
    destruct (validateAccessKey_keys c t w1) as (r0 & Heq & _).
    rewrite Heq in Hrun. by injection Hrun as _ <-.
  - intros accessKey t _ w1 r w1' Hw1. unfold generateAccessKey. munfold.
    by intros [= _ <-].
Qed.

(** X18.  The list of allowed origins is made once, from the port of the
    content server, and no step of the process changes it: in every
    state of the process a handshake whose [Origin] is not one of the
    four is closed before anything is read. *)
Theorem origins_fixed (port : Z) (w : World) (websocket : ws)
    (request_headers : list (string * string)) (path : string) (now : Z)
    (samples : list Hex.bytes4) (fork : res (Z * Z)) (before : list action)
    (events : list (event recv)) (origin : string) :
  reachable port w ->
  Headers.getitem request_headers "Origin" = Ok origin ->
  origin ∉ [ "http://localhost:" +:+ pretty port;
             "https://localhost:" +:+ pretty port;
             "http://127.0.0.1:" +:+ pretty port;
             "https://127.0.0.1:" +:+ pretty port ] ->
  allowedOrigins w = origins_of port ∧
  handler websocket request_headers path now samples fork before events w
    = (Ok tt, emit (Close websocket) w).
Proof.
  intros Hreach Ho Hbad.
  assert (Hw : allowedOrigins w = origins_of port) by by apply reachable_allowedOrigins.
  split; [exact Hw|].
  unfold handler. rewrite Ho. munfold. simpl. rewrite Hw.
  rewrite bool_decide_eq_false_2 by exact Hbad. reflexivity.
Qed.

(** X19.  When [pty.fork] fails for a new session, the exception leaves
    [terminalHandler]: no session is allocated or registered, the
    connection is not closed and nothing is sent. *)
Theorem spawn_failure (websocket : ws) (items : list (string * json))
    (samples : list Hex.bytes4) (e : exn) (before : list action)
    (events : list (event recv)) (sid : string) (w : World) :
  Py.assoc "sessionID" items = Some (JStr "new") ->
  generateSessionID samples w = (Ok sid, w) ->
  terminalHandler websocket (JObj items) samples (Raise e) before events w
    = (Raise e, w).
Proof.
  intros Hnew Hgen. unfold terminalHandler, choose_terminal, Py.contains, Py.getitem.
  rewrite Hnew. rewrite bool_decide_eq_true_2 by eauto. simpl.
  unfold mbind at 1. unfold M_bind, bind.
  unfold mbind at 1. unfold M_bind, bind, lift. simpl.
  unfold mbind at 1. unfold M_bind, bind. simpl.
  unfold mbind at 1. unfold M_bind, bind. rewrite Hgen. reflexivity.
Qed.

End Subscription.

(** ** Output in order, unknown paths, and the id in the greeting *)

Lemma emits_emit e es w : emits es (emit e w) = emits (e :: es) w.
Proof. unfold emits, emit. simpl. by rewrite <- app_assoc. Qed.

(** X20.  While the shell is open and nothing else happens, the output
    thread sends the chunks it decodes to the websocket of the session in
    the order it read them; failing reads and chunks that are not UTF-8
    send nothing; the thread goes on reading. *)
Theorem output_in_order (self : ref) (reads : list pty_read) (w : World) :
  open (heap w !!! self) = true ->
  pushTtyOutput self false (map Got reads) w
    = (Pending,
       emits (map (Send (websocket (heap w !!! self)))
                  (pumped self (map (Pump self) reads))) w).
Proof.
  revert w. induction reads as [|o reads IH]; intros w Hopen.
  - rewrite pushTtyOutput_nil, Hopen. simpl.
    unfold emits. rewrite app_nil_r. by destruct w.
  - cbn [map]. rewrite pushTtyOutput_cons, Hopen. simpl.
    rewrite IH by by rewrite pumped_world_open.
    destruct o as [s| |]; simpl; try done.
    rewrite decide_True by done. simpl. by rewrite emits_emit.
Qed.

Section UnknownPath.
Context {decoder : JsonDecoder}.

(** X21.  A handshake with a valid key on a path other than [/term] and
    [/manage] is closed, and its key is spent all the same. *)
Theorem unknown_path_spends_key (websocket : ws)
    (request_headers : list (string * string)) (path : string) (now : Z)
    (samples : list Hex.bytes4) (fork : res (Z * Z)) (before : list action)
    (configJSON : string) (rest : list (event recv)) (origin : string)
    (items : list (string * json)) (k : string) (e : Z) (w : World) :
  Headers.getitem request_headers "Origin" = Ok origin ->
  origin ∈ allowedOrigins w ->
  json_loads configJSON = Some (JObj items) ->
  Py.assoc "accessKey" items = Some (JStr k) ->
  accessKeys w !! k = Some e -> now <= e ->
  path ≠ "/term" -> path ≠ "/manage" ->
  ∃ w',
    handler websocket request_headers path now samples fork before
            (Got (Frame configJSON) :: rest) w = (Ok tt, w') ∧
    since w w' = [Close websocket] ∧
    accessKeys w' !! k = None ∧
    heap w' = heap w ∧ terminals w' = terminals w ∧
    managementConnections w' = managementConnections w.
Proof.
  intros Ho Hallowed Hload Hkey Hk Hle Hterm Hmanage.
  rewrite (handler_object _ _ _ _ _ _ _ _ _ origin items (JStr k)) by done.
  munfold. rewrite validateAccessKey_str.
  rewrite bool_decide_eq_true_2.
  2:{ rewrite VaultFacts.lookup_sweep, Hk. case_decide; [lia|eauto]. }
  apply String.eqb_neq in Hterm, Hmanage. simpl. rewrite Hterm, Hmanage.
  eexists. split; [reflexivity|]. split; [by apply since_app|].
  split; [apply lookup_delete_eq|done].
Qed.

Lemma listen_greets self t before events w :
  heap w !! self = Some t ->
  ∃ pre post,
    since w (exec (listen self before events) w)
      = pre ++ Send (websocket t) (Text (sessionID t)) :: post.
Proof.
  intros Hself.
  assert (Ht : heap w !!! self = t) by by apply lookup_total_correct.
  unfold exec. rewrite listen_unfold. cbv zeta.
  set (w1 := exec (meanwhile before) w).
  set (w2 := exec pushStateChange w1).
  assert (S1 : steady (fun _ => True) (fun _ => False) w w1).
  { apply (keeps_rel (steady (fun _ => True) (fun _ => False))
                     (meanwhile before) w (Ok tt));
      [apply steady_refl|by apply steady_meanwhile|reflexivity]. }
  assert (S2 : steady (fun _ => True) (fun _ => False) w w2).
  { eapply steady_trans; [exact S1|].
    apply (keeps_rel (steady (fun _ => True) (fun _ => False)) pushStateChange w1 (Ok tt));
      [apply steady_refl|apply steady_pushStateChange|].
    unfold w2, exec. by rewrite pushStateChange_run. }
  rewrite (steady_websocket _ _ _ _ S2), (steady_sessionID _ _ _ _ S2), Ht.
  destruct (steady_trace _ _ _ _ S2) as (pre & Hpre & _).
  clearbody w2. clear w1 S1.
  match goal with
  | |- context [snd (?m ?w3)] =>
      destruct (m w3) as [r w'] eqn:Hrun;
      assert (S3 : steady (fun _ => True) (fun _ => True) w3 w')
  end.
  { refine (keeps_rel (steady (fun _ => True) (fun _ => True)) _ _ r w'
                      (steady_refl _ _ _) _ Hrun).
    apply keeps_bind; [|intros _; apply steady_pushStateChange].
    apply keeps_try_except; [by apply steady_listen_loop|].
    unfold update. steady_modify. by apply steady_disconnected. }
  destruct (steady_trace _ _ _ _ S3) as (post & Hpost & _).
  exists pre, post. apply since_app. simpl. rewrite Hpost. simpl.
  rewrite Hpre. by rewrite <- !app_assoc.
Qed.

(** X22.  The peer is told the id of its session.  A peer that asked for
    [new], when the shell was forked, is sent the id that
    [generateSessionID] returned for the new session; a peer that asked
    for the id of a registered session that is not connected is sent that
    same id. *)
Theorem greeting_names_session (p : ws) (items : list (string * json))
    (samples : list Hex.bytes4) (fork : res (Z * Z)) (before : list action)
    (events : list (event recv)) (w : World) :
  let w' := exec (terminalHandler p (JObj items) samples fork before events) w in
  (∀ sid pid fd,
     Py.assoc "sessionID" items = Some (JStr "new") ->
     generateSessionID samples w = (Ok sid, w) ->
     fork = Ok (pid, fd) ->
     ∃ pre post, since w w' = pre ++ Send p (Text sid) :: post) ∧
  (∀ id r,
     registry_ok w ->
     Py.assoc "sessionID" items = Some (JStr id) ->
     terminals w !! id = Some r ->
     connected (heap w !!! r) = false ->
     ∃ pre post, since w w' = pre ++ Send p (Text id) :: post).
Proof.
  intros w'. split.
  - intros sid pid fd Hnew Hgen ->.
    + set (r := fresh (dom (heap w))).
      set (w1 := set_terminals <[sid := r]>
                   (set_heap <[r := mkTerminal sid p true true pid fd]> w)).
      assert (Hch : choose_terminal p (JObj items) samples (Ok (pid, fd)) w
                    = (Ok (Some r), w1)).
      { unfold choose_terminal, Py.contains, Py.getitem. rewrite Hnew.
        rewrite bool_decide_eq_true_2 by eauto. simpl.
        unfold mbind at 1. unfold M_bind, bind, lift. simpl.
        unfold mbind at 1. unfold M_bind, bind. simpl.
        unfold mbind at 1. unfold M_bind, bind. rewrite Hgen. reflexivity. }
      assert (Hw' : w' = exec (listen r before events) w1).
      { unfold w', exec, terminalHandler. munfold. by rewrite Hch. }
      destruct (listen_greets r (mkTerminal sid p true true pid fd) before events w1)
        as (pre & post & Hs).
      { unfold w1. simpl. apply lookup_insert_eq. }
      exists pre, post. rewrite Hw'. exact Hs.
  - intros id r Hok Hid Hreg Hconn.
    destruct (registered_open _ Hok _ _ Hreg) as (t & Ht & Hsid & Hopen).
    assert (Hne : id ≠ "new").
    { apply hex_id_not_new. by destruct (registered_hex _ Hok _ _ Hreg). }
    set (w1 := set_heap <[r := mkTerminal (sessionID t) p (open t) true
                                          (subshellPID t) (ttyFd t)]> w).
    assert (Hch : choose_terminal p (JObj items) samples fork w = (Ok (Some r), w1)).
    { unfold choose_terminal, Py.contains, Py.getitem. rewrite Hid.
      rewrite bool_decide_eq_true_2 by eauto. simpl.
      apply String.eqb_neq in Hne. munfold. simpl. rewrite Hne. simpl.
      rewrite Hreg, Hconn.
      pose proof (setNewConnection_fields r p w t Ht) as Hset.
      apply (f_equal snd) in Hset.
      simpl. f_equal. exact Hset. }
    assert (Hw' : w' = exec (listen r before events) w1).
    { unfold w', exec, terminalHandler. munfold. by rewrite Hch. }
    destruct (listen_greets r (mkTerminal (sessionID t) p (open t) true
                                          (subshellPID t) (ttyFd t))
                            before events w1) as (pre & post & Hs).
    { unfold w1. simpl. apply lookup_insert_eq. }
    exists pre, post. rewrite Hw'. simpl in Hs. rewrite Hsid in Hs. exact Hs.
Qed.

End UnknownPath.

(** ** The further properties on the concrete run *)

Lemma handler_fail_closed_witness :
  let hs := [("Origin", "http://localhost:9423")] in
  let w := init_world 9423 in
  let w' := exec (handler (decoder := Sample.loads) 1%nat hs "/term" 100 []
                    (Raise OSError) [] [Got (Frame Demo.handshake_text)]) w in
  (¬ (∃ items k e,
        Sample.loads Demo.handshake_text = Some (JObj items) ∧
        Py.assoc "accessKey" items = Some (JStr k) ∧
        accessKeys w !! k = Some e ∧ 100 <= e) ∧
   handler (decoder := Sample.loads) 1%nat hs "/term" 100 [] (Raise OSError) []
           [Got (Frame Demo.handshake_text)] w = (Ok tt, w')) ∧
  heap w' = heap w ∧ terminals w' = terminals w ∧
  managementConnections w' = managementConnections w ∧
  (accessKeys w' = accessKeys w ∨ accessKeys w' = Vault.sweep 100 (accessKeys w)) ∧
  ((Ok tt = Ok tt ∧ trace w' = trace w ++ [Close 1%nat]) ∨
   (∃ e, Ok tt = Raise e ∧ trace w' = trace w)).
Proof.
  intros hs w w'.
  assert (H1 : ¬ (∃ items k e,
                    Sample.loads Demo.handshake_text = Some (JObj items) ∧
                    Py.assoc "accessKey" items = Some (JStr k) ∧
                    accessKeys w !! k = Some e ∧ 100 <= e)).
  { intros (items & k & e & _ & _ & Hk & _). unfold w in Hk. simpl in Hk.
    by rewrite lookup_empty in Hk. }
  assert (H2 : handler (decoder := Sample.loads) 1%nat hs "/term" 100 []
                 (Raise OSError) [] [Got (Frame Demo.handshake_text)] w = (Ok tt, w'))
    by (vm_compute; reflexivity).
  split; [conj_hyps|].
  exact (handler_fail_closed (decoder := Sample.loads) 1%nat hs "/term" 100 []
           (Raise OSError) [] Demo.handshake_text [] w (Ok tt) w' H1 H2).
Defined.

Lemma handshake_replay_witness :
  let hs := [("Origin", "http://localhost:9423")] in
  let items := [("accessKey", JStr "a1"); ("sessionID", JStr "new")] in
  let first := [(Byte.x00, Byte.x00, Byte.x00, Byte.x2a)] in
  let second := [(Byte.x00, Byte.x00, Byte.x00, Byte.x2b)] in
  let steps := [Thread (Pump 0%nat (ReadText "$ ")); Render "b2" 150] in
  let w := exec (generateAccessKey "a1" 50) (init_world 9423) in
  let w1 := exec (handler (decoder := Sample.loads) 1%nat hs "/term" 100 first
                    (Ok (4242, 7)) [] [Got (Frame Demo.handshake_text)]) w in
  let w2 := foldl (fun w s => run_step (decoder := Sample.loads) s w) w1 steps in
  let w3 := exec (handler (decoder := Sample.loads) 2%nat hs "/term" 200 second
                    (Ok (4243, 8)) [] [Got (Frame Demo.handshake_text)]) w2 in
  (Headers.getitem hs "Origin" = Ok "http://localhost:9423" ∧
   "http://localhost:9423" ∈ allowedOrigins w ∧
   Sample.loads Demo.handshake_text = Some (JObj items) ∧
   Py.assoc "accessKey" items = Some (JStr "a1") ∧
   forallb (fun s => negb (renders "a1" s)) steps = true) ∧
  accessKeys w1 !! "a1" = None ∧
  accessKeys w2 !! "a1" = None ∧
  heap w3 = heap w2 ∧ terminals w3 = terminals w2 ∧
  managementConnections w3 = managementConnections w2 ∧
  (trace w3 = trace w2 ∨ trace w3 = trace w2 ++ [Close 2%nat]).
Proof.
  intros hs items first second steps w w1 w2 w3.
  assert (H1 : Headers.getitem hs "Origin" = Ok "http://localhost:9423") by reflexivity.
  assert (H2 : "http://localhost:9423" ∈ allowedOrigins w).
  { apply list_elem_of_In. vm_compute. left. reflexivity. }
  assert (H3 : Sample.loads Demo.handshake_text = Some (JObj items))
    by (vm_compute; reflexivity).
  assert (H4 : Py.assoc "accessKey" items = Some (JStr "a1")) by reflexivity.
  assert (H5 : forallb (fun s => negb (renders "a1" s)) steps = true) by reflexivity.
  split; [conj_hyps|].
  exact (handshake_replay (decoder := Sample.loads) "a1" 1%nat hs "/term" 100 first
           (Ok (4242, 7)) [] Demo.handshake_text [] "http://localhost:9423" items
           steps 2%nat hs "/term" 200 second (Ok (4243, 8)) [] Demo.handshake_text []
           items w H1 H2 H3 H4 H5 H3 H4).
Defined.

Lemma validateAccessKey_removes_only_witness :
  let w := exec (generateAccessKey "a1" 50) (init_world 9423) in
  let w' := exec (validateAccessKey (JStr "a1") 100) w in
  validateAccessKey (JStr "a1") 100 w = (Ok true, w') ∧
  (heap w' = heap w ∧ terminals w' = terminals w ∧
   managementConnections w' = managementConnections w ∧ trace w' = trace w) ∧
  (accessKeys w' !! "a1" = Some 3650 -> accessKeys w !! "a1" = Some 3650 ∧ 100 <= 3650) ∧
  (accessKeys w !! "a1" = Some 3650 -> 100 <= 3650 ->
   accessKeys w' !! "a1" = Some 3650 ∨ (JStr "a1" = JStr "a1" ∧ Ok true = Ok true)).
Proof.
  intros w w'.
  assert (H1 : validateAccessKey (JStr "a1") 100 w = (Ok true, w'))
    by (vm_compute; reflexivity).
  split; [exact H1|].
  exact (validateAccessKey_removes_only (JStr "a1") 100 w (Ok true) w' "a1" 3650 H1).
Defined.

Lemma issued_key_accepted_witness :
  let ops := [Issue "b2" 60; Consume (JStr "b2") 70; Consume (JStr "zz") 3650] in
  (forallb (fun o => negb (touches "a1" o) && negb (sweeps_after (50 + 3600) o)) ops
     = true ∧
   3650 <= 50 + 3600) ∧
  outcome (validateAccessKey (JStr "a1") 3650)
          (run_ops ops (exec (generateAccessKey "a1" 50) (init_world 9423))) = Ok true.
Proof.
  intros ops.
  assert (H1 : forallb (fun o => negb (touches "a1" o)
                                 && negb (sweeps_after (50 + 3600) o)) ops = true)
    by reflexivity.
  assert (H2 : 3650 <= 50 + 3600) by lia.
  split; [conj_hyps|].
  exact (issued_key_accepted "a1" 50 3650 ops (init_world 9423) H1 H2).
Defined.

Lemma poll_twice_witness :
  let message := "{" +:+ Sample.quoted "type" +:+ ":" +:+ Sample.quoted "poll" +:+ "}" in
  let items := [("type", JStr "poll")] in
  let answer := Send 9%nat (Dumps (poll_response Demo.served)) in
  (Sample.loads message = Some (JObj items) ∧
   Py.assoc "type" items = Some (JStr "poll")) ∧
  management_request (decoder := Sample.loads) 9%nat message Demo.served
    = (Ok tt, emit answer Demo.served) ∧
  management_loop (decoder := Sample.loads) 9%nat
      [Got (Frame message); Got (Frame message)] Demo.served
    = management_loop (decoder := Sample.loads) 9%nat []
        (emit answer (emit answer Demo.served)) ∧
  broadcast (poll_response Demo.served) {[9%nat]} = [answer].
Proof.
  intros message items answer.
  assert (H1 : Sample.loads message = Some (JObj items)) by (vm_compute; reflexivity).
  assert (H2 : Py.assoc "type" items = Some (JStr "poll")) by reflexivity.
  split; [conj_hyps|].
  exact (poll_twice (decoder := Sample.loads) 9%nat message items [] Demo.served H1 H2).
Defined.

Lemma management_skips_witness :
  let message := "{" +:+ Sample.quoted "type" +:+ ":" +:+ Sample.quoted "kill" +:+ "}" in
  let items := [("type", JStr "kill")] in
  (Sample.loads message = Some (JObj items) ∧
   Py.assoc "type" items = Some (JStr "kill") ∧
   Py.assoc "sessionID" items = None) ∧
  management_request (decoder := Sample.loads) 9%nat message Demo.served
    = (Ok tt, Demo.served) ∧
  management_loop (decoder := Sample.loads) 9%nat [Got (Frame message)] Demo.served
    = management_loop (decoder := Sample.loads) 9%nat [] Demo.served.
Proof.
  intros message items.
  assert (H1 : Sample.loads message = Some (JObj items)) by (vm_compute; reflexivity).
  assert (H2 : Py.assoc "type" items = Some (JStr "kill")) by reflexivity.
  assert (H3 : Py.assoc "sessionID" items = None) by reflexivity.
  split; [conj_hyps|].
  apply (management_skips (decoder := Sample.loads) 9%nat message [] Demo.served).
  right. right. right. exists items. conj_hyps.
Defined.

Lemma management_request_footprint_witness :
  let message := Demo.kill_text "0000002a" in
  let w' := exec (management_request (decoder := Sample.loads) 9%nat message) Demo.served in
  management_request (decoder := Sample.loads) 9%nat message Demo.served = (Ok tt, w') ∧
  heap w' = heap Demo.served ∧ terminals w' = terminals Demo.served ∧
  accessKeys w' = accessKeys Demo.served ∧
  managementConnections w' = managementConnections Demo.served ∧
  ∃ ext, trace w' = trace Demo.served ++ ext ∧
         Forall (fun e =>
                   (∃ d, e = Send 9%nat d) ∨
                   (∃ sid t, terminals Demo.served !! sid = Some t ∧
                             open (heap Demo.served !!! t) = true ∧
                             e = Kill (subshellPID (heap Demo.served !!! t)))) ext.
Proof.
  intros message w'.
  assert (H1 : management_request (decoder := Sample.loads) 9%nat message Demo.served
               = (Ok tt, w')) by (vm_compute; reflexivity).
  split; [exact H1|].
  exact (management_request_footprint (decoder := Sample.loads) 9%nat message
           Demo.served (Ok tt) w' H1).
Defined.

Lemma resize_bad_payload_witness :
  let payload := "{" +:+ Sample.quoted "rows" +:+ ":" +:+ Sample.quoted "24" +:+ ","
                     +:+ Sample.quoted "cols" +:+ ":80}" in
  let items := [("rows", JStr "24"); ("cols", JInt 80)] in
  (Sample.loads payload = Some (JObj items) ∧
   Py.assoc "rows" items = Some (JStr "24") ∧
   Py.assoc "cols" items = Some (JInt 80) ∧
   ((∀ z, JStr "24" ≠ JInt z) ∧ (∀ b, JStr "24" ≠ JBool b))) ∧
  onClientInput (decoder := Sample.loads) 0%nat (String "r" payload) Demo.served
    = (Raise StructError, Demo.served).
Proof.
  intros payload items.
  assert (H1 : Sample.loads payload = Some (JObj items)) by (vm_compute; reflexivity).
  assert (H2 : Py.assoc "rows" items = Some (JStr "24")) by reflexivity.
  assert (H3 : Py.assoc "cols" items = Some (JInt 80)) by reflexivity.
  assert (H4 : (∀ z, JStr "24" ≠ JInt z) ∧ (∀ b, JStr "24" ≠ JBool b))
    by (split; intros ?; discriminate).
  split; [conj_hyps|].
  exact (proj2 (proj2 (proj2
           (resize_bad_payload (decoder := Sample.loads) 0%nat payload Demo.served)))
           items (JStr "24") (JInt 80) H1 H2 H3 (or_introl H4)).
Defined.

Lemma keystrokes_in_order_witness :
  let payloads := ["l"; "s"; String "010" EmptyString] in
  open (heap Demo.served !!! 0%nat) = true ∧
  listen_loop (decoder := Sample.loads) 0%nat false
      (frames (map (String "k") payloads)) Demo.served
    = (Pending,
       emits (map (PtyWrite (ttyFd (heap Demo.served !!! 0%nat))) payloads) Demo.served) ∧
  since Demo.served
        (exec (listen_loop (decoder := Sample.loads) 0%nat false
                 (frames (map (String "k") payloads))) Demo.served)
    = map (PtyWrite (ttyFd (heap Demo.served !!! 0%nat))) payloads.
Proof.
  intros payloads.
  assert (H1 : open (heap Demo.served !!! 0%nat) = true) by (vm_compute; reflexivity).
  split; [exact H1|].
  exact (keystrokes_in_order (decoder := Sample.loads) 0%nat payloads Demo.served H1).
Defined.

Lemma reattach_redirects_output_witness :
  let t := mkTerminal "0000002a" 1%nat true false 4242 7 in
  let w1 := exec (setNewConnection 0%nat 2%nat) Demo.detached in
  (heap Demo.detached !! 0%nat = Some t ∧ websocket t ≠ 2%nat) ∧
  heap w1 = <[0%nat := mkTerminal "0000002a" 2%nat true true 4242 7]> (heap Demo.detached) ∧
  pump_body 0%nat (ReadText "$ ") w1 = (Ok tt, emit (Send 2%nat (Text "$ ")) w1) ∧
  frames_to 1%nat (trace (exec (pump_body 0%nat (ReadText "$ ")) w1))
    = frames_to 1%nat (trace Demo.detached).
Proof.
  intros t w1.
  assert (H1 : heap Demo.detached !! 0%nat = Some t) by (vm_compute; reflexivity).
  assert (H2 : websocket t ≠ 2%nat) by discriminate.
  split; [conj_hyps|].
  pose proof (reattach_redirects_output 0%nat t 2%nat "$ " Demo.detached H1) as H.
  cbv zeta in H. destruct H as (Hh & _ & _ & Hp & Hf).
  split; [exact Hh|]. split; [exact Hp|]. exact (Hf H2).
Defined.

Lemma strangers_get_nothing_witness :
  let acts := [Pump 0%nat (ReadText "hi"); Reap 0%nat] in
  ((∀ r, websocket (heap Demo.managed !!! r) ≠ 5%nat) ∧
   5%nat ∉ managementConnections Demo.managed) ∧
  frames_to 5%nat (trace (exec (meanwhile acts) Demo.managed))
    = frames_to 5%nat (trace Demo.managed).
Proof.
  intros acts.
  assert (Hh : heap Demo.managed
               = <[0%nat := mkTerminal "0000002a" 1%nat true true 4242 7]> ∅)
    by (vm_compute; reflexivity).
  assert (Hc : managementConnections Demo.managed = {[9%nat]})
    by (vm_compute; reflexivity).
  assert (H1 : ∀ r, websocket (heap Demo.managed !!! r) ≠ 5%nat).
  { intros r. rewrite Hh. destruct (decide (r = 0%nat)) as [->|Hne].
    - rewrite lookup_total_insert_eq. discriminate.
    - rewrite lookup_total_insert_ne by done. rewrite lookup_total_empty. discriminate. }
  assert (H2 : 5%nat ∉ managementConnections Demo.managed).
  { rewrite Hc. intros Hin. apply elem_of_singleton in Hin. discriminate Hin. }
  split; [conj_hyps|].
  exact (strangers_get_nothing 5%nat acts Demo.managed H1 H2).
Defined.


Lemma busy_session_refuses_witness :
  let t := mkTerminal "0000002a" 1%nat true true 4242 7 in
  let events := [Got (Frame "rnonsense")] in
  let items := [("accessKey", JStr "b2"); ("sessionID", JStr "0000002a")] in
  let w' := exec (listen (decoder := Sample.loads) 0%nat [] events) Demo.served in
  (heap Demo.served !! 0%nat = Some t ∧
   connected t = true ∧
   listen (decoder := Sample.loads) 0%nat [] events Demo.served
     = (Raise JSONDecodeError, w') ∧
   Raise JSONDecodeError ≠ Ok tt ∧
   terminals w' !! "0000002a" = Some 0%nat ∧
   "0000002a" ≠ "new" ∧
   Py.assoc "sessionID" items = Some (JStr "0000002a")) ∧
  connected (heap w' !!! 0%nat) = true ∧
  choose_terminal 2%nat (JObj items) [] (Raise OSError) w'
    = (Ok None, emit (Close 2%nat) w').
Proof.
  intros t events items w'.
  assert (H1 : heap Demo.served !! 0%nat = Some t) by (vm_compute; reflexivity).
  assert (H2 : connected t = true) by reflexivity.
  assert (H3 : listen (decoder := Sample.loads) 0%nat [] events Demo.served
               = (Raise JSONDecodeError, w')) by (vm_compute; reflexivity).
  assert (H4 : @Raise unit JSONDecodeError ≠ Ok tt) by discriminate.
  assert (H5 : terminals w' !! "0000002a" = Some 0%nat) by (vm_compute; reflexivity).
  assert (H6 : "0000002a" ≠ "new") by discriminate.
  assert (H7 : Py.assoc "sessionID" items = Some (JStr "0000002a")) by reflexivity.
  split; [conj_hyps|].
  exact (busy_session_refuses (decoder := Sample.loads) 0%nat t [] events Demo.served
           (Raise JSONDecodeError) w' "0000002a" 2%nat items [] (Raise OSError)
           H1 H2 H3 H4 H5 H6 H7).
Defined.

Lemma reaped_session_gone_witness :
  let items := [("accessKey", JStr "b2"); ("sessionID", JStr "0000002a")] in
  let w' := act (Reap 0%nat) Demo.served in
  (registry_ok Demo.served ∧
   terminals Demo.served !! "0000002a" = Some 0%nat ∧
   Py.assoc "sessionID" items = Some (JStr "0000002a")) ∧
  terminals w' = delete "0000002a" (terminals Demo.served) ∧
  open (heap w' !!! 0%nat) = false ∧
  (∀ r', r' ≠ 0%nat -> heap w' !! r' = heap Demo.served !! r') ∧
  registry_ok w' ∧
  choose_terminal 2%nat (JObj items) [] (Raise OSError) w'
    = (Ok None, emit (Close 2%nat) w').
Proof.
  intros items w'.
  assert (H1 : registry_ok Demo.served)
    by exact (reachable_registry_ok (decoder := Sample.loads) 9423 _
                demo_served_reachable).
  assert (H2 : terminals Demo.served !! "0000002a" = Some 0%nat)
    by (vm_compute; reflexivity).
  assert (H3 : Py.assoc "sessionID" items = Some (JStr "0000002a")) by reflexivity.
  split; [conj_hyps|].
  exact (reaped_session_gone 0%nat "0000002a" Demo.served 2%nat items []
           (Raise OSError) H1 H2 H3).
Defined.

Lemma management_subscription_witness :
  let hs := [("Origin", "http://localhost:9423")] in
  let items := [("accessKey", JStr "a1"); ("sessionID", JStr "new")] in
  let w := exec (generateAccessKey "a1" 50) (init_world 9423) in
  let gone := exec (handler (decoder := Sample.loads) 9%nat hs "/manage" 100 []
                      (Raise OSError) []
                      [Got (Frame Demo.handshake_text); Got Disconnected]) w in
  let waiting := exec (handler (decoder := Sample.loads) 9%nat hs "/manage" 100 []
                         (Raise OSError) [] [Got (Frame Demo.handshake_text)]) w in
  (Headers.getitem hs "Origin" = Ok "http://localhost:9423" ∧
   "http://localhost:9423" ∈ allowedOrigins w ∧
   Sample.loads Demo.handshake_text = Some (JObj items) ∧
   Py.assoc "accessKey" items = Some (JStr "a1") ∧
   accessKeys w !! "a1" = Some 3650 ∧ 100 <= 3650 ∧
   handler (decoder := Sample.loads) 9%nat hs "/manage" 100 [] (Raise OSError) []
           [Got (Frame Demo.handshake_text); Got Disconnected] w = (Ok tt, gone) ∧
   handler (decoder := Sample.loads) 9%nat hs "/manage" 100 [] (Raise OSError) []
           [Got (Frame Demo.handshake_text)] w = (Pending, waiting)) ∧
  managementConnections gone = managementConnections w ∖ {[9%nat]} ∧
  managementConnections waiting = {[9%nat]} ∪ managementConnections w.
Proof.
  intros hs items w gone waiting.
  assert (H1 : Headers.getitem hs "Origin" = Ok "http://localhost:9423") by reflexivity.
  assert (H2 : "http://localhost:9423" ∈ allowedOrigins w).
  { apply list_elem_of_In. vm_compute. left. reflexivity. }
  assert (H3 : Sample.loads Demo.handshake_text = Some (JObj items))
    by (vm_compute; reflexivity).
  assert (H4 : Py.assoc "accessKey" items = Some (JStr "a1")) by reflexivity.
  assert (H5 : accessKeys w !! "a1" = Some 3650) by (vm_compute; reflexivity).
  assert (H6 : 100 <= 3650) by lia.
  assert (H7 : handler (decoder := Sample.loads) 9%nat hs "/manage" 100 []
                 (Raise OSError) []
                 [Got (Frame Demo.handshake_text); Got Disconnected] w = (Ok tt, gone))
    by (vm_compute; reflexivity).
  assert (H8 : handler (decoder := Sample.loads) 9%nat hs "/manage" 100 []
                 (Raise OSError) [] [Got (Frame Demo.handshake_text)] w
               = (Pending, waiting))
    by (vm_compute; reflexivity).
  assert (H9 : @Pending unit ≠ Ok tt) by discriminate.
  split; [conj_hyps|]. split.
  - exact (proj1 (management_subscription (decoder := Sample.loads) 9%nat hs 100 []
                    (Raise OSError) [] Demo.handshake_text [Got Disconnected]
                    "http://localhost:9423" items "a1" 3650 w (Ok tt) gone
                    H1 H2 H3 H4 H5 H6 H7) eq_refl).
  - exact (proj2 (management_subscription (decoder := Sample.loads) 9%nat hs 100 []
                    (Raise OSError) [] Demo.handshake_text []
                    "http://localhost:9423" items "a1" 3650 w Pending waiting
                    H1 H2 H3 H4 H5 H6 H8) H9).
Defined.

Lemma origins_fixed_witness :
  let hs := [("Origin", "http://evil.example")] in
  let events := [Got (Frame Demo.handshake_text)] in
  (reachable (decoder := Sample.loads) 9423 Demo.served ∧
   Headers.getitem hs "Origin" = Ok "http://evil.example" ∧
   "http://evil.example" ∉ [ "http://localhost:" +:+ pretty 9423;
                             "https://localhost:" +:+ pretty 9423;
                             "http://127.0.0.1:" +:+ pretty 9423;
                             "https://127.0.0.1:" +:+ pretty 9423 ]) ∧
  allowedOrigins Demo.served = origins_of 9423 ∧
  handler (decoder := Sample.loads) 3%nat hs "/term" 100 [] (Raise OSError) [] events
          Demo.served
    = (Ok tt, emit (Close 3%nat) Demo.served).
Proof.
  intros hs events.
  assert (H1 : reachable (decoder := Sample.loads) 9423 Demo.served)
    by exact demo_served_reachable.
  assert (H2 : Headers.getitem hs "Origin" = Ok "http://evil.example") by reflexivity.
  assert (H3 : "http://evil.example" ∉ [ "http://localhost:" +:+ pretty 9423;
                                         "https://localhost:" +:+ pretty 9423;
                                         "http://127.0.0.1:" +:+ pretty 9423;
                                         "https://127.0.0.1:" +:+ pretty 9423 ]).
  { intros Hin. apply list_elem_of_In in Hin. vm_compute in Hin.
    repeat destruct Hin as [Hin|Hin]; try discriminate Hin; done. }
  split; [conj_hyps|].
  exact (origins_fixed (decoder := Sample.loads) 9423 Demo.served 3%nat hs "/term" 100
           [] (Raise OSError) [] events "http://evil.example" H1 H2 H3).
Defined.

Lemma spawn_failure_witness :
  let items := [("accessKey", JStr "a1"); ("sessionID", JStr "new")] in
  let samples := [(Byte.x00, Byte.x00, Byte.x00, Byte.x2a)] in
  (Py.assoc "sessionID" items = Some (JStr "new") ∧
   generateSessionID samples (init_world 9423) = (Ok "0000002a", init_world 9423)) ∧
  terminalHandler (decoder := Sample.loads) 1%nat (JObj items) samples (Raise OSError)
                  [] [Got (Frame "kls")] (init_world 9423)
    = (Raise OSError, init_world 9423).
Proof.
  intros items samples.
  assert (H1 : Py.assoc "sessionID" items = Some (JStr "new")) by reflexivity.
  assert (H2 : generateSessionID samples (init_world 9423)
               = (Ok "0000002a", init_world 9423)) by (vm_compute; reflexivity).
  split; [conj_hyps|].
  exact (spawn_failure (decoder := Sample.loads) 1%nat items samples OSError []
           [Got (Frame "kls")] "0000002a" (init_world 9423) H1 H2).
Defined.

Lemma output_in_order_witness :
  let reads := [ReadText "a"; ReadError; ReadUndecodable (String "255" EmptyString);
                ReadText "b"] in
  open (heap Demo.served !!! 0%nat) = true ∧
  pushTtyOutput 0%nat false (map Got reads) Demo.served
    = (Pending,
       emits (map (Send (websocket (heap Demo.served !!! 0%nat)))
                  (pumped 0%nat (map (Pump 0%nat) reads))) Demo.served).
Proof.
  intros reads.
  assert (H1 : open (heap Demo.served !!! 0%nat) = true) by (vm_compute; reflexivity).
  split; [exact H1|].
  exact (output_in_order 0%nat reads Demo.served H1).
Defined.

Lemma unknown_path_spends_key_witness :
  let hs := [("Origin", "http://localhost:9423")] in
  let items := [("accessKey", JStr "a1"); ("sessionID", JStr "new")] in
  let w := exec (generateAccessKey "a1" 50) (init_world 9423) in
  (Headers.getitem hs "Origin" = Ok "http://localhost:9423" ∧
   "http://localhost:9423" ∈ allowedOrigins w ∧
   Sample.loads Demo.handshake_text = Some (JObj items) ∧
   Py.assoc "accessKey" items = Some (JStr "a1") ∧
   accessKeys w !! "a1" = Some 3650 ∧ 100 <= 3650 ∧
   "/shell" ≠ "/term" ∧ "/shell" ≠ "/manage") ∧
  ∃ w',
    handler (decoder := Sample.loads) 1%nat hs "/shell" 100
            [(Byte.x00, Byte.x00, Byte.x00, Byte.x2a)] (Ok (4242, 7)) []
            [Got (Frame Demo.handshake_text)] w = (Ok tt, w') ∧
    since w w' = [Close 1%nat] ∧
    accessKeys w' !! "a1" = None ∧
    heap w' = heap w ∧ terminals w' = terminals w ∧
    managementConnections w' = managementConnections w.
Proof.
  intros hs items w.
  assert (H1 : Headers.getitem hs "Origin" = Ok "http://localhost:9423") by reflexivity.
  assert (H2 : "http://localhost:9423" ∈ allowedOrigins w).
  { apply list_elem_of_In. vm_compute. left. reflexivity. }
  assert (H3 : Sample.loads Demo.handshake_text = Some (JObj items))
    by (vm_compute; reflexivity).
  assert (H4 : Py.assoc "accessKey" items = Some (JStr "a1")) by reflexivity.
  assert (H5 : accessKeys w !! "a1" = Some 3650) by (vm_compute; reflexivity).
  assert (H6 : 100 <= 3650) by lia.
  assert (H7 : "/shell" ≠ "/term") by discriminate.
  assert (H8 : "/shell" ≠ "/manage") by discriminate.
  split; [conj_hyps|].
  exact (unknown_path_spends_key (decoder := Sample.loads) 1%nat hs "/shell" 100
           [(Byte.x00, Byte.x00, Byte.x00, Byte.x2a)] (Ok (4242, 7)) []
           Demo.handshake_text [] "http://localhost:9423" items "a1" 3650 w
           H1 H2 H3 H4 H5 H6 H7 H8).
Defined.

Lemma greeting_names_session_witness :
  let fresh_items := [("accessKey", JStr "a1"); ("sessionID", JStr "new")] in
  let items := [("accessKey", JStr "b2"); ("sessionID", JStr "0000002a")] in
  let samples := [(Byte.x00, Byte.x00, Byte.x00, Byte.x2a)] in
  let w := run_step (decoder := Sample.loads)
             (ResumeListen 0%nat [Got Disconnected]) Demo.served in
  (Py.assoc "sessionID" fresh_items = Some (JStr "new") ∧
   generateSessionID samples (init_world 9423) = (Ok "0000002a", init_world 9423) ∧
   registry_ok w ∧
   Py.assoc "sessionID" items = Some (JStr "0000002a") ∧
   terminals w !! "0000002a" = Some 0%nat ∧
   connected (heap w !!! 0%nat) = false) ∧
  (∃ pre post,
     since (init_world 9423)
           (exec (terminalHandler (decoder := Sample.loads) 1%nat (JObj fresh_items)
                    samples (Ok (4242, 7)) [] []) (init_world 9423))
       = pre ++ Send 1%nat (Text "0000002a") :: post) ∧
  (∃ pre post,
     since w (exec (terminalHandler (decoder := Sample.loads) 2%nat (JObj items)
                      [] (Raise OSError) [Pump 0%nat (ReadText "$ ")] []) w)
       = pre ++ Send 2%nat (Text "0000002a") :: post).
Proof.
  intros fresh_items items samples w.
  assert (H1 : Py.assoc "sessionID" fresh_items = Some (JStr "new")) by reflexivity.
  assert (H2 : generateSessionID samples (init_world 9423)
               = (Ok "0000002a", init_world 9423)) by (vm_compute; reflexivity).
  assert (H3 : registry_ok w).
  { apply (reachable_registry_ok (decoder := Sample.loads) 9423).
    apply reachable_step. exact demo_served_reachable. }
  assert (H4 : Py.assoc "sessionID" items = Some (JStr "0000002a")) by reflexivity.
  assert (H5 : terminals w !! "0000002a" = Some 0%nat) by (vm_compute; reflexivity).
  assert (H6 : connected (heap w !!! 0%nat) = false) by (vm_compute; reflexivity).
  split; [conj_hyps|]. split.
  - exact (proj1 (greeting_names_session (decoder := Sample.loads) 1%nat fresh_items
                    samples (Ok (4242, 7)) [] [] (init_world 9423))
             "0000002a" 4242 7 H1 H2 eq_refl).
  - exact (proj2 (greeting_names_session (decoder := Sample.loads) 2%nat items
                    [] (Raise OSError) [Pump 0%nat (ReadText "$ ")] [] w)
             "0000002a" 0%nat H3 H4 H5 H6).
Defined.
